(** * Constrained Device Application (CDA): coordinator, codec and connectors

    A shallow embedding of the Python sources

    - [programmingtheiot/data/DataUtil.py]
    - [programmingtheiot/cda/system/ActuatorAdapterManager.py]
    - [programmingtheiot/cda/system/SensorAdapterManager.py]
    - [programmingtheiot/cda/system/SystemPerformanceManager.py]
    - [programmingtheiot/cda/connection/MqttClientConnector.py]
    - [programmingtheiot/cda/connection/CoapClientConnector.py]
    - [programmingtheiot/cda/app/DeviceDataManager.py]

    Every class becomes a module holding a state record and one function per
    method; mutation of [self] is explicit state passing, and a method that
    can raise returns a [Py.res].  The first part of the file holds all the
    definitions, the second and third parts the lemmas and theorems. *)

From Stdlib Require Import ZArith QArith String Ascii List Bool Lia.
From Stdlib Require Import DecimalString DecimalPos.
From stdpp Require Import base option gmap strings.

Set Warnings "-register-all".

Open Scope Z_scope.

(* ===================================================================== *)
(** * Part I: definitions                                                *)
(* ===================================================================== *)

(** ** Python outcomes: a value or a raised exception *)

Module Py.

(** The exception classes that the modelled code can meet.  [OutsideModel]
    is not a Python exception: it marks an input on which this embedding
    gives no answer (a code point above 255, see [Json.scanstring]). *)
Inductive exn : Type :=
| JSONDecodeError
| TypeError
| ValueError
| RuntimeError
| UnicodeDecodeError
| RecursionError
| OutsideModel.

Inductive res (A : Type) : Type :=
| Ok (a : A)
| Raise (e : exn).

Arguments Ok {A} a.
Arguments Raise {A} e.

Definition bind {A B : Type} (m : res A) (k : A -> res B) : res B :=
  match m with
  | Ok a => k a
  | Raise e => Raise e
  end.

(** [try: body / except Exception as e: handler e].  Every exception class
    above derives from [Exception]; [OutsideModel] passes through, so that
    a gap of the embedding is never mistaken for a handled error. *)
Definition try_except {A : Type} (body : res A) (handler : exn -> res A) : res A :=
  match body with
  | Ok a => Ok a
  | Raise OutsideModel => Raise OutsideModel
  | Raise e => handler e
  end.

(** Truth value of an optional string ([if msg:]): [None] and the empty
    string are false. *)
Definition truthy_str (s : option string) : bool :=
  match s with
  | None => false
  | Some EmptyString => false
  | Some (String _ _) => true
  end.

End Py.

Notation "'let*' p ':=' m 'in' k" := (Py.bind m (fun x => match x with p => k end))
  (at level 10, p pattern, m at level 100, k at level 200).

(** ** Python floats

    The code under study never does arithmetic on a float: it compares
    floats, prints them ([repr]) and reads them back.  A finite float is
    therefore modelled by the exact decimal number [m * 10^e] that its
    [repr] denotes; the order on floats is the order on these decimals.
    Negative zero is identified with zero, and a literal is kept exactly as
    written (it is not rounded to binary64). *)

Inductive pyfloat : Type :=
| Finite (m e : Z)
| PosInf
| NegInf
| NaN.

Definition float_Q (m e : Z) : Q := (inject_Z m * Qpower (10 # 1) e)%Q.

(** [x < y] on floats: false as soon as one side is NaN. *)
Definition float_lt (x y : pyfloat) : bool :=
  match x with
  | NaN => false
  | PosInf => false
  | NegInf =>
      match y with
      | Finite _ _ | PosInf => true
      | NegInf | NaN => false
      end
  | Finite m1 e1 =>
      match y with
      | Finite m2 e2 => negb (Qle_bool (float_Q m2 e2) (float_Q m1 e1))
      | PosInf => true
      | NegInf | NaN => false
      end
  end.

(** [x > y] is [y < x]. *)
Definition float_gt (x y : pyfloat) : bool := float_lt y x.

Fixpoint strip_zeros (fuel : nat) (m e : Z) : Z * Z :=
  match fuel with
  | O => (m, e)
  | S k => if m mod 10 =? 0 then strip_zeros k (m / 10) (e + 1) else (m, e)
  end.

(** The canonical decimal: no trailing zero in the significand. *)
Definition float_norm (m e : Z) : pyfloat :=
  if m =? 0 then Finite 0 0
  else let '(m', e') := strip_zeros (Z.to_nat (Z.log2 (Z.abs m))) m e in
       Finite m' e'.

(** The float that the decimal literal [m * 10^e] denotes. *)
Definition decimal (m e : Z) : pyfloat := float_norm m e.

(** ** Strings *)

Definition dquote : ascii := "034"%char.
Definition backslash : ascii := "092"%char.
Definition code (c : ascii) : Z := Z.of_N (N_of_ascii c).

Definition digits_of (z : Z) : string := NilZero.string_of_int (Z.to_int z).

Fixpoint zeros (n : nat) : string :=
  match n with
  | O => EmptyString
  | S k => String "0" (zeros k)
  end.

Definition strlen (s : string) : Z := Z.of_nat (String.length s).

(** [str.replace(old, new)] for a non-empty [old]: occurrences are replaced
    from left to right and do not overlap. *)
Fixpoint replace_go (old new : string) (skip : nat) (s : string) : string :=
  match s with
  | EmptyString => EmptyString
  | String c s' =>
      match skip with
      | S k => replace_go old new k s'
      | O =>
          if String.prefix old s
          then new +:+ replace_go old new (String.length old - 1) s'
          else String c (replace_go old new 0 s')
      end
  end.

Definition replace (old new s : string) : string := replace_go old new 0 s.

(** [repr] of an int. *)
Definition int_repr (z : Z) : string := digits_of z.

(** [float.__repr__]: the shortest digits [D], with the decimal point after
    [decpt] of them; exponent notation when [decpt <= -4] or [decpt > 16]. *)
Definition float_repr (x : pyfloat) : string :=
  match x with
  | NaN => "nan"
  | PosInf => "inf"
  | NegInf => "-inf"
  | Finite m e =>
      match float_norm m e with
      | Finite m' e' =>
          if m' =? 0 then "0.0"
          else
            let sign := if m' <? 0 then "-" else EmptyString in
            let D := digits_of (Z.abs m') in
            let n := strlen D in
            let decpt := n + e' in
            if (decpt <=? -4) || (16 <? decpt) then
              let x := decpt - 1 in
              let xd := digits_of (Z.abs x) in
              sign +:+ String.substring 0 1 D
                   +:+ (if 1 <? n then "." +:+ String.substring 1 (String.length D - 1) D else EmptyString)
                   +:+ "e" +:+ (if x <? 0 then "-" else "+")
                   +:+ (if strlen xd <? 2 then "0" else EmptyString) +:+ xd
            else if decpt <=? 0 then
              sign +:+ "0." +:+ zeros (Z.to_nat (- decpt)) +:+ D
            else if n <=? decpt then
              sign +:+ D +:+ zeros (Z.to_nat (decpt - n)) +:+ ".0"
            else
              sign +:+ String.substring 0 (Z.to_nat decpt) D +:+ "."
                   +:+ String.substring (Z.to_nat decpt) (Z.to_nat (n - decpt)) D
      | _ => "nan"
      end
  end.

(** ** The [json] module of the Python standard library *)

Module Json.

(** The Python values that JSON text denotes.  A [dict] keeps its keys in
    insertion order. *)
Inductive pyval : Type :=
| PyNone
| PyBool (b : bool)
| PyInt (z : Z)
| PyFloat (f : pyfloat)
| PyStr (s : string)
| PyList (l : list pyval)
| PyDict (d : list (string * pyval)).

(** [d[k] = v]: an existing key keeps its place. *)
Fixpoint dict_set (k : string) (v : pyval) (d : list (string * pyval)) : list (string * pyval) :=
  match d with
  | [] => [(k, v)]
  | (k', v') :: d' =>
      if String.eqb k k' then (k, v) :: d' else (k', v') :: dict_set k v d'
  end.

Fixpoint dict_get (k : string) (d : list (string * pyval)) : option pyval :=
  match d with
  | [] => None
  | (k', v') :: d' => if String.eqb k k' then Some v' else dict_get k d'
  end.

Definition dict_has (k : string) (d : list (string * pyval)) : bool :=
  match dict_get k d with Some _ => true | None => false end.

(** *** Encoder: [json.dumps(v, indent=4)] (and [ensure_ascii=True]) *)

Definition hex_digit (n : Z) : ascii :=
  if n <? 10 then ascii_of_N (Z.to_N (48 + n)) else ascii_of_N (Z.to_N (87 + n)).

Definition escape_char (c : ascii) : string :=
  let n := code c in
  if n =? 34 then String backslash (String dquote EmptyString)
  else if n =? 92 then String backslash (String backslash EmptyString)
  else if n =? 10 then String backslash "n"
  else if n =? 13 then String backslash "r"
  else if n =? 9 then String backslash "t"
  else if n =? 8 then String backslash "b"
  else if n =? 12 then String backslash "f"
  else if (n <? 32) || (127 <=? n) then
    String backslash (String "u" (String "0" (String "0"
      (String (hex_digit (n / 16)) (String (hex_digit (n mod 16)) EmptyString)))))
  else String c EmptyString.

Fixpoint escape (s : string) : string :=
  match s with
  | EmptyString => EmptyString
  | String c s' => escape_char c +:+ escape s'
  end.

Definition encode_basestring_ascii (s : string) : string :=
  String dquote (escape s) +:+ String dquote EmptyString.

Definition float_json (x : pyfloat) : string :=
  match x with
  | NaN => "NaN"
  | PosInf => "Infinity"
  | NegInf => "-Infinity"
  | Finite _ _ => float_repr x
  end.

Definition newline_indent (lvl : nat) : string :=
  String "010"%char EmptyString +:+ String.concat EmptyString (repeat "    " lvl).

Fixpoint dumps_at (lvl : nat) (v : pyval) : string :=
  match v with
  | PyNone => "null"
  | PyBool true => "true"
  | PyBool false => "false"
  | PyInt z => int_repr z
  | PyFloat x => float_json x
  | PyStr s => encode_basestring_ascii s
  | PyList [] => "[]"
  | PyList l =>
      "[" +:+ newline_indent (S lvl)
          +:+ String.concat ("," +:+ newline_indent (S lvl)) (map (dumps_at (S lvl)) l)
          +:+ newline_indent lvl +:+ "]"
  | PyDict [] => "{}"
  | PyDict d =>
      "{" +:+ newline_indent (S lvl)
          +:+ String.concat ("," +:+ newline_indent (S lvl))
                (map (fun kv => match kv with
                                | (k, x) => encode_basestring_ascii k +:+ ": " +:+ dumps_at (S lvl) x
                                end) d)
          +:+ newline_indent lvl +:+ "}"
  end.

Definition dumps (v : pyval) : string := dumps_at 0 v.

(** *** Decoder: [json.loads(s)] *)

Definition is_ws (c : ascii) : bool :=
  let n := code c in (n =? 32) || (n =? 9) || (n =? 10) || (n =? 13).

Fixpoint skip_ws (s : string) : string :=
  match s with
  | EmptyString => EmptyString
  | String c s' => if is_ws c then skip_ws s' else s
  end.

Definition is_digit (c : ascii) : bool :=
  let n := code c in (48 <=? n) && (n <=? 57).

(** The longest prefix of digits, and what follows it. *)
Fixpoint span_digits (s : string) : string * string :=
  match s with
  | EmptyString => (EmptyString, EmptyString)
  | String c s' =>
      if is_digit c
      then let '(d, r) := span_digits s' in (String c d, r)
      else (EmptyString, s)
  end.

Fixpoint digits_value (acc : Z) (s : string) : Z :=
  match s with
  | EmptyString => acc
  | String c s' => digits_value (10 * acc + (code c - 48)) s'
  end.

Definition hex_value (c : ascii) : option Z :=
  let n := code c in
  if (48 <=? n) && (n <=? 57) then Some (n - 48)
  else if (97 <=? n) && (n <=? 102) then Some (n - 87)
  else if (65 <=? n) && (n <=? 70) then Some (n - 55)
  else None.

Definition hex4 (a b c d : ascii) : option Z :=
  match hex_value a, hex_value b, hex_value c, hex_value d with
  | Some x, Some y, Some z, Some w => Some (((x * 16 + y) * 16 + z) * 16 + w)
  | _, _, _, _ => None
  end.

(** The character after a backslash (other than [u]). *)
Definition unescape (c : ascii) : option ascii :=
  let n := code c in
  if n =? 34 then Some dquote
  else if n =? 92 then Some backslash
  else if n =? 47 then Some "/"%char
  else if n =? 98 then Some "008"%char
  else if n =? 102 then Some "012"%char
  else if n =? 110 then Some "010"%char
  else if n =? 114 then Some "013"%char
  else if n =? 116 then Some "009"%char
  else None.

Definition cons_char (c : ascii) (r : Py.res (string * string)) : Py.res (string * string) :=
  let* (str, rest) := r in Py.Ok (String c str, rest).

(** [scanstring] in strict mode, entered after the opening quote: the
    decoded string and the text after the closing quote.  A [\uXXXX]
    escape above 255 has no counterpart in this model of [str]. *)
Fixpoint scanstring (s : string) : Py.res (string * string) :=
  match s with
  | EmptyString => Py.Raise Py.JSONDecodeError
  | String c rest =>
      if code c =? 34 then Py.Ok (EmptyString, rest)
      else if code c =? 92 then
        match rest with
        | EmptyString => Py.Raise Py.JSONDecodeError
        | String e rest' =>
            if code e =? 117 then
              match rest' with
              | String h1 (String h2 (String h3 (String h4 rest''))) =>
                  match hex4 h1 h2 h3 h4 with
                  | Some n =>
                      if n <? 256
                      then cons_char (ascii_of_N (Z.to_N n)) (scanstring rest'')
                      else Py.Raise Py.OutsideModel
                  | None => Py.Raise Py.JSONDecodeError
                  end
              | _ => Py.Raise Py.JSONDecodeError
              end
            else
              match unescape e with
              | Some ch => cons_char ch (scanstring rest')
              | None => Py.Raise Py.JSONDecodeError
              end
        end
      else if code c <? 32 then Py.Raise Py.JSONDecodeError
      else cons_char c (scanstring rest)
  end.

(** The number grammar of the scanner: an optional minus sign; then a
    single zero, or a non-zero digit followed by digits; then optionally a
    dot and at least one digit; then optionally [e] or [E], an optional
    sign and at least one digit.  The value is an int when there is
    neither fraction nor exponent, a float otherwise. *)
Definition match_number (s : string) : option (pyval * string) :=
  let '(neg, s0) :=
    match s with
    | String "-" r => (true, r)
    | _ => (false, s)
    end in
  let int_part :=
    match s0 with
    | String "0" r => Some ("0"%string, r)
    | String c _ => if is_digit c then Some (span_digits s0) else None
    | EmptyString => None
    end in
  match int_part with
  | None => None
  | Some (ds, s1) =>
      let '(frac, s2) :=
        match s1 with
        | String "." (String c _ as r) =>
            if is_digit c then span_digits r else (EmptyString, s1)
        | _ => (EmptyString, s1)
        end in
      let '(ex, s3) :=
        match s2 with
        | String c r =>
            if (code c =? 101) || (code c =? 69) then
              let '(eneg, r') :=
                match r with
                | String "-" t => (true, t)
                | String "+" t => (false, t)
                | _ => (false, r)
                end in
              match span_digits r' with
              | (EmptyString, _) => (None, s2)
              | (xs, t) => (Some (if eneg : bool then - digits_value 0 xs else digits_value 0 xs), t)
              end
            else (None, s2)
        | EmptyString => (None, s2)
        end in
      let sgn := fun z : Z => if neg : bool then - z else z in
      match frac, ex with
      | EmptyString, None => Some (PyInt (sgn (digits_value 0 ds)), s3)
      | _, _ =>
          let x := match ex with Some z => z | None => 0 end in
          Some (PyFloat (float_norm (sgn (digits_value 0 (ds +:+ frac))) (x - strlen frac)), s3)
      end
  end.

(** [s[n:]]. *)
Fixpoint drop (n : nat) (s : string) : string :=
  match n, s with
  | O, _ => s
  | S k, String _ s' => drop k s'
  | S _, EmptyString => EmptyString
  end.

(** The members of an object, entered after [{] and white space. *)
Fixpoint parse_members (scan : string -> Py.res (pyval * string)) (fuel : nat)
    (acc : list (string * pyval)) (s : string) : Py.res (pyval * string) :=
  match fuel with
  | O => Py.Raise Py.RecursionError
  | S fuel' =>
      match s with
      | String c r =>
          if code c =? 34 then
            let* (key, s1) := scanstring r in
            match skip_ws s1 with
            | String ":" s2 =>
                let* (v, s3) := scan (skip_ws s2) in
                let acc' := dict_set key v acc in
                match skip_ws s3 with
                | String "}" s4 => Py.Ok (PyDict acc', s4)
                | String "," s4 => parse_members scan fuel' acc' (skip_ws s4)
                | _ => Py.Raise Py.JSONDecodeError
                end
            | _ => Py.Raise Py.JSONDecodeError
            end
          else Py.Raise Py.JSONDecodeError
      | EmptyString => Py.Raise Py.JSONDecodeError
      end
  end.

(** The elements of an array, entered after [[] and white space. *)
Fixpoint parse_elements (scan : string -> Py.res (pyval * string)) (fuel : nat)
    (acc : list pyval) (s : string) : Py.res (pyval * string) :=
  match fuel with
  | O => Py.Raise Py.RecursionError
  | S fuel' =>
      let* (v, s1) := scan s in
      let acc' := acc ++ [v] in
      match skip_ws s1 with
      | String "]" s2 => Py.Ok (PyList acc', s2)
      | String "," s2 => parse_elements scan fuel' acc' (skip_ws s2)
      | _ => Py.Raise Py.JSONDecodeError
      end
  end.

(** [scan_once]: one JSON value at the head of [s].  The fuel bounds the
    nesting depth, and the loops over members and elements have a fuel of
    their own; each is more than the text at hand has characters, which is
    enough ([loads_fuel_suffices] below).  The recursion limit of the
    Python interpreter is not modelled. *)
Fixpoint scan_once (fuel : nat) (s : string) : Py.res (pyval * string) :=
  match fuel with
  | O => Py.Raise Py.RecursionError
  | S fuel' =>
      match s with
      | EmptyString => Py.Raise Py.JSONDecodeError
      | String c rest =>
          if code c =? 34 then
            let* (str, r) := scanstring rest in Py.Ok (PyStr str, r)
          else if code c =? 123 then
            match skip_ws rest with
            | String "}" r => Py.Ok (PyDict [], r)
            | s1 => parse_members (scan_once fuel') (S (String.length s1)) [] s1
            end
          else if code c =? 91 then
            match skip_ws rest with
            | String "]" r => Py.Ok (PyList [], r)
            | s1 => parse_elements (scan_once fuel') (S (String.length s1)) [] s1
            end
          else if String.prefix "null" s then Py.Ok (PyNone, drop 4 s)
          else if String.prefix "true" s then Py.Ok (PyBool true, drop 4 s)
          else if String.prefix "false" s then Py.Ok (PyBool false, drop 5 s)
          else if String.prefix "NaN" s then Py.Ok (PyFloat NaN, drop 3 s)
          else if String.prefix "Infinity" s then Py.Ok (PyFloat PosInf, drop 8 s)
          else if String.prefix "-Infinity" s then Py.Ok (PyFloat NegInf, drop 9 s)
          else
            match match_number s with
            | Some r => Py.Ok r
            | None => Py.Raise Py.JSONDecodeError
            end
      end
  end.

(** [json.loads(s)]: white space, one value, white space, end of text;
    anything else raises [JSONDecodeError]. *)
Definition loads (s : string) : Py.res pyval :=
  let* (v, rest) := scan_once (S (String.length s)) (skip_ws s) in
  match skip_ws rest with
  | EmptyString => Py.Ok v
  | String _ _ => Py.Raise Py.JSONDecodeError
  end.

(** A scanning step consumes: it leaves a shorter rest, or fails with an
    error that is not a lack of fuel. *)
Definition consumes {A : Type} (s : string) (r : Py.res (A * string)) : Prop :=
  match r with
  | Py.Ok (_, rest) => (String.length rest < String.length s)%nat
  | Py.Raise e => e <> Py.RecursionError
  end.

(** A scanner is sound at size [n] when it consumes on every text shorter
    than [n]. *)
Definition scans (scan : string -> Py.res (pyval * string)) (n : nat) : Prop :=
  forall s : string, (String.length s < n)%nat -> consumes s (scan s).

End Json.

(** ** [ConfigConst]: the constants module

    [programmingtheiot/common/ConfigConst.py] is not among the sources under
    study, so its constants are parameters of the development: every
    definition below that needs one takes a [ConfigConst] record. *)

Record ConfigConst : Type := {
  NOT_SET : string;
  DEFAULT_VAL : pyfloat;
  DEFAULT_TYPE_ID : Z;
  DEFAULT_STATUS : Z;
  DEFAULT_COMMAND : Z;
  COMMAND_OFF : Z;
  COMMAND_ON : Z;
  TEMP_SENSOR_TYPE : Z;
  HVAC_ACTUATOR_TYPE : Z;
  HUMIDIFIER_ACTUATOR_TYPE : Z;
  LED_DISPLAY_ACTUATOR_TYPE : Z;
  HVAC_ACTUATOR_NAME : string;
  DEFAULT_QOS : Z
}.

(** ** [ResourceNameEnum]

    The members that the sources refer to.  The enumeration itself
    ([programmingtheiot/common/ResourceNameEnum.py]) is not among the
    sources: the topic string of a member ([.value]) and the reverse lookup
    [getResourceNameByValue] are parameters, the latter free to return
    [None] or to raise. *)

Inductive ResourceNameEnum : Type :=
| CDA_ACTUATOR_CMD_RESOURCE
| CDA_ACTUATOR_RESPONSE_MSG_RESOURCE
| CDA_MGMT_STATUS_CMD_RESOURCE
| CDA_SENSOR_MSG_RESOURCE
| CDA_SYSTEM_PERF_MSG_RESOURCE
| GDA_MGMT_STATUS_MSG_RESOURCE
| GDA_SYSTEM_PERF_MSG_RESOURCE.

Record ResourceNames : Type := {
  value : ResourceNameEnum -> string;
  getResourceNameByValue : string -> Py.res (option ResourceNameEnum)
}.

(** ** The data records *)

Module SensorData.

(** Modelled from the spec: [programmingtheiot/data/SensorData.py] is not
    among the sources.  The fields are those of the spec's SensorReading,
    [{name, typeID, locationID, value (numeric), timestamp}]; a name may be
    [None]. *)
Record t : Type := mk {
  name : option string;
  typeID : Z;
  locationID : string;
  value : pyfloat;
  timestamp : string
}.

Definition getName (o : t) : option string := name o.
Definition getTypeID (o : t) : Z := typeID o.
Definition getLocationID (o : t) : string := locationID o.
Definition getValue (o : t) : pyfloat := value o.

Definition setLocationID (o : t) (l : string) : t :=
  mk (name o) (typeID o) l (value o) (timestamp o).

(** [SensorData()] built at time [now]. *)
Definition new (cc : ConfigConst) (now : string) : t :=
  mk (Some (NOT_SET cc)) (DEFAULT_TYPE_ID cc) (NOT_SET cc) (DEFAULT_VAL cc) now.

Definition name_val (n : option string) : Json.pyval :=
  match n with
  | Some s => Json.PyStr s
  | None => Json.PyNone
  end.

(** [vars(o)], that is [o.__dict__]: attribute names and values. *)
Definition vars (o : t) : list (string * Json.pyval) :=
  [ ("name", name_val (name o));
    ("typeID", Json.PyInt (typeID o));
    ("locationID", Json.PyStr (locationID o));
    ("value", Json.PyFloat (value o));
    ("timestamp", Json.PyStr (timestamp o)) ].

End SensorData.

Module ActuatorData.

(** Modelled from the spec: [programmingtheiot/data/ActuatorData.py] is not
    among the sources.  The fields are those of the spec's ActuatorCommand,
    [{name, typeID, locationID, command, value (numeric), isResponse (bool),
    statusCode}]; a command is the integer code of [COMMAND_ON],
    [COMMAND_OFF] and the like. *)
Record t : Type := mk {
  name : option string;
  typeID : Z;
  locationID : string;
  command : Z;
  value : pyfloat;
  isResponse : bool;
  statusCode : Z
}.

Definition getName (o : t) : option string := name o.
Definition getTypeID (o : t) : Z := typeID o.
Definition getLocationID (o : t) : string := locationID o.
Definition getCommand (o : t) : Z := command o.
Definition getValue (o : t) : pyfloat := value o.
Definition getStatusCode (o : t) : Z := statusCode o.
Definition isResponseFlagEnabled (o : t) : bool := isResponse o.

Definition setName (o : t) (n : string) : t :=
  mk (Some n) (typeID o) (locationID o) (command o) (value o) (isResponse o) (statusCode o).
Definition setLocationID (o : t) (l : string) : t :=
  mk (name o) (typeID o) l (command o) (value o) (isResponse o) (statusCode o).
Definition setCommand (o : t) (c : Z) : t :=
  mk (name o) (typeID o) (locationID o) c (value o) (isResponse o) (statusCode o).
Definition setValue (o : t) (v : pyfloat) : t :=
  mk (name o) (typeID o) (locationID o) (command o) v (isResponse o) (statusCode o).
Definition setAsResponse (o : t) : t :=
  mk (name o) (typeID o) (locationID o) (command o) (value o) true (statusCode o).

(** [ActuatorData(typeID = ty)]. *)
Definition new (cc : ConfigConst) (ty : Z) : t :=
  mk (Some (NOT_SET cc)) ty (NOT_SET cc) (DEFAULT_COMMAND cc) (DEFAULT_VAL cc) false
     (DEFAULT_STATUS cc).

Definition vars (o : t) : list (string * Json.pyval) :=
  [ ("name", SensorData.name_val (name o));
    ("typeID", Json.PyInt (typeID o));
    ("locationID", Json.PyStr (locationID o));
    ("command", Json.PyInt (command o));
    ("value", Json.PyFloat (value o));
    ("isResponse", Json.PyBool (isResponse o));
    ("statusCode", Json.PyInt (statusCode o)) ].

(** The typed reading of an attribute dictionary; [None] when an attribute
    is missing or holds a value of another type than the record's. *)
Definition of_vars (d : list (string * Json.pyval)) : option t :=
  match Json.dict_get "name" d, Json.dict_get "typeID" d, Json.dict_get "locationID" d,
        Json.dict_get "command" d, Json.dict_get "value" d, Json.dict_get "isResponse" d,
        Json.dict_get "statusCode" d with
  | Some n, Some (Json.PyInt ty), Some (Json.PyStr l), Some (Json.PyInt c),
    Some (Json.PyFloat v), Some (Json.PyBool r), Some (Json.PyInt st) =>
      match n with
      | Json.PyStr s => Some (mk (Some s) ty l c v r st)
      | Json.PyNone => Some (mk None ty l c v r st)
      | _ => None
      end
  | _, _, _, _, _, _, _ => None
  end.

End ActuatorData.

Module SystemPerformanceData.

(** Modelled from the spec: [programmingtheiot/data/SystemPerformanceData.py]
    is not among the sources.  The fields are those of the spec's
    PerformanceReading, [{name, cpuUtilization, memoryUtilization,
    diskUtilization, timestamp}]. *)
Record t : Type := mk {
  name : option string;
  cpuUtilization : pyfloat;
  memoryUtilization : pyfloat;
  diskUtilization : pyfloat;
  timestamp : string
}.

Definition getName (o : t) : option string := name o.

Definition new (cc : ConfigConst) (now : string) : t :=
  mk (Some (NOT_SET cc)) (DEFAULT_VAL cc) (DEFAULT_VAL cc) (DEFAULT_VAL cc) now.

Definition vars (o : t) : list (string * Json.pyval) :=
  [ ("name", SensorData.name_val (name o));
    ("cpuUtilization", Json.PyFloat (cpuUtilization o));
    ("memoryUtilization", Json.PyFloat (memoryUtilization o));
    ("diskUtilization", Json.PyFloat (diskUtilization o));
    ("timestamp", Json.PyStr (timestamp o)) ].

End SystemPerformanceData.

(** ** [DataUtil]: the serialization codec *)

Module DataUtil.

Record t : Type := mk { encodeToUtf8 : bool }.

(** [DataUtil(encodeToUtf8 = False)]. *)
Definition new : t := mk false.

(** The rewriting applied to the text on both ways:
    [.replace("'", dquote).replace('False', 'false').replace('True', 'true')]. *)
Definition pythonToJsonText (jsonData : string) : string :=
  replace "True" "true"
    (replace "False" "false"
       (replace "'" (String dquote EmptyString) jsonData)).

(** [_generateJsonData]: the object is encoded through [JsonDataEncoder],
    that is as its [__dict__].  With [encodeToUtf8] the encoded text is a
    [bytes] object, and [bytes.replace] called with [str] arguments raises
    [TypeError]; otherwise the text is rewritten and returned. *)
Definition _generateJsonData (self : t) (obj : list (string * Json.pyval))
    (useDecForFloat : bool) : Py.res string :=
  if encodeToUtf8 self then Py.Raise Py.TypeError
  else Py.Ok (pythonToJsonText (Json.dumps (Json.PyDict obj))).

Definition actuatorDataToJson (self : t) (data : option ActuatorData.t)
    (useDecForFloat : bool) : Py.res string :=
  match data with
  | None => Py.Ok EmptyString
  | Some d => _generateJsonData self (ActuatorData.vars d) useDecForFloat
  end.

Definition sensorDataToJson (self : t) (data : option SensorData.t)
    (useDecForFloat : bool) : Py.res string :=
  match data with
  | None => Py.Ok EmptyString
  | Some d => _generateJsonData self (SensorData.vars d) useDecForFloat
  end.

Definition systemPerformanceDataToJson (self : t) (data : option SystemPerformanceData.t)
    (useDecForFloat : bool) : Py.res string :=
  match data with
  | None => Py.Ok EmptyString
  | Some d => _generateJsonData self (SystemPerformanceData.vars d) useDecForFloat
  end.

(** [_formatDataAndLoadDictionary]: rewrite, then [json.loads].  Both
    branches on [useDecForFloat] read a number as the decimal it is written
    as, which is how floats are modelled here. *)
Definition _formatDataAndLoadDictionary (jsonData : string) (useDecForFloat : bool)
    : Py.res Json.pyval :=
  let jsonData := pythonToJsonText jsonData in
  if useDecForFloat then Json.loads jsonData else Json.loads jsonData.

(** [for key in l: if key in varStruct: setattr(obj, key, l[key])] over a
    list: an element that is a list or a dict is unhashable, and a list
    cannot be indexed by an attribute name. *)
Fixpoint update_from_list (l : list Json.pyval) (obj : list (string * Json.pyval))
    : Py.res (list (string * Json.pyval)) :=
  match l with
  | [] => Py.Ok obj
  | Json.PyList _ :: _ => Py.Raise Py.TypeError
  | Json.PyDict _ :: _ => Py.Raise Py.TypeError
  | Json.PyStr k :: l' =>
      if Json.dict_has k obj then Py.Raise Py.TypeError else update_from_list l' obj
  | _ :: l' => update_from_list l' obj
  end.

(** The same loop over the characters of a string. *)
Fixpoint update_from_str (s : string) (obj : list (string * Json.pyval))
    : Py.res (list (string * Json.pyval)) :=
  match s with
  | EmptyString => Py.Ok obj
  | String c s' =>
      if Json.dict_has (String c EmptyString) obj then Py.Raise Py.TypeError
      else update_from_str s' obj
  end.

(** The loop over the keys of a dict: a key that names an attribute of the
    object overwrites it, any other key is ignored. *)
Fixpoint update_from_dict (d : list (string * Json.pyval)) (obj : list (string * Json.pyval))
    : list (string * Json.pyval) :=
  match d with
  | [] => obj
  | (key, v) :: d' =>
      update_from_dict d' (if Json.dict_has key obj then Json.dict_set key v obj else obj)
  end.

(** [_updateIotData]: [for key in jsonStruct] needs an iterable. *)
Definition _updateIotData (jsonStruct : Json.pyval) (obj : list (string * Json.pyval))
    : Py.res (list (string * Json.pyval)) :=
  match jsonStruct with
  | Json.PyDict d => Py.Ok (update_from_dict d obj)
  | Json.PyList l => update_from_list l obj
  | Json.PyStr s => update_from_str s obj
  | Json.PyNone | Json.PyBool _ | Json.PyInt _ | Json.PyFloat _ => Py.Raise Py.TypeError
  end.

(** The three decoders return the attributes of the object they filled. *)
Definition jsonToActuatorData (cc : ConfigConst) (jsonData : option string)
    (useDecForFloat : bool) : Py.res (option (list (string * Json.pyval))) :=
  match jsonData with
  | None | Some EmptyString => Py.Ok None
  | Some jsonData =>
      let* jsonStruct := _formatDataAndLoadDictionary jsonData useDecForFloat in
      let ad := ActuatorData.vars (ActuatorData.new cc (DEFAULT_TYPE_ID cc)) in
      let* ad := _updateIotData jsonStruct ad in
      Py.Ok (Some ad)
  end.

Definition jsonToSensorData (cc : ConfigConst) (now : string) (jsonData : option string)
    (useDecForFloat : bool) : Py.res (option (list (string * Json.pyval))) :=
  match jsonData with
  | None | Some EmptyString => Py.Ok None
  | Some jsonData =>
      let* jsonStruct := _formatDataAndLoadDictionary jsonData useDecForFloat in
      let sd := SensorData.vars (SensorData.new cc now) in
      let* sd := _updateIotData jsonStruct sd in
      Py.Ok (Some sd)
  end.

Definition jsonToSystemPerformanceData (cc : ConfigConst) (now : string)
    (jsonData : option string) (useDecForFloat : bool)
    : Py.res (option (list (string * Json.pyval))) :=
  match jsonData with
  | None | Some EmptyString => Py.Ok None
  | Some jsonData =>
      let* jsonStruct := _formatDataAndLoadDictionary jsonData useDecForFloat in
      let spd := SystemPerformanceData.vars (SystemPerformanceData.new cc now) in
      let* spd := _updateIotData jsonStruct spd in
      Py.Ok (Some spd)
  end.

End DataUtil.

(** ** [ActuatorAdapterManager]: the actuator dispatch manager *)

Module ActuatorAdapterManager.

(** An actuator backend.  [BaseActuatorSimTask] and its subclasses are not
    among the sources; a backend is what [sendActuatorCommand] uses of it,
    its [updateActuator] method, which answers a command with a response or
    with [None]. *)
Record ActuatorTask : Type := {
  updateActuator : ActuatorData.t -> option ActuatorData.t
}.

(** The state of the manager.  [calls] and [invocations] are not attributes
    of the Python object: they record, in order, the arguments of every
    [sendActuatorCommand] call and of every [updateActuator] call made on a
    backend, so that what the manager was asked and what it asked of its
    backends can be stated. *)
Record t : Type := mk {
  dataMsgListener : bool;
  locationID : string;
  humidifierActuator : option ActuatorTask;
  hvacActuator : option ActuatorTask;
  ledDisplayActuator : option ActuatorTask;
  calls : list (option ActuatorData.t);
  invocations : list ActuatorData.t
}.

Definition record_call (self : t) (data : option ActuatorData.t) : t :=
  mk (dataMsgListener self) (locationID self) (humidifierActuator self) (hvacActuator self)
     (ledDisplayActuator self) (calls self ++ [data]) (invocations self).

(** [task.updateActuator(data)]. *)
Definition invoke (self : t) (task : ActuatorTask) (data : ActuatorData.t)
    : t * option ActuatorData.t :=
  (mk (dataMsgListener self) (locationID self) (humidifierActuator self) (hvacActuator self)
      (ledDisplayActuator self) (calls self) (invocations self ++ [data]),
   updateActuator task data).

(** [if task:] on a backend attribute. *)
Definition is_set (task : option ActuatorTask) : bool :=
  match task with
  | Some _ => true
  | None => false
  end.

Definition update (self : t) (task : option ActuatorTask) (data : ActuatorData.t)
    : t * option ActuatorData.t :=
  match task with
  | Some task => invoke self task data
  | None => (self, None)
  end.

Definition sendActuatorCommand (cc : ConfigConst) (self : t) (data : option ActuatorData.t)
    : t * option ActuatorData.t :=
  let self := record_call self data in
  match data with
  | Some data =>
      if negb (ActuatorData.isResponseFlagEnabled data) then
        if String.eqb (ActuatorData.getLocationID data) (locationID self) then
          let aType := ActuatorData.getTypeID data in
          if (aType =? HUMIDIFIER_ACTUATOR_TYPE cc) && is_set (humidifierActuator self) then
            update self (humidifierActuator self) data
          else if (aType =? HVAC_ACTUATOR_TYPE cc) && is_set (hvacActuator self) then
            update self (hvacActuator self) data
          else if (aType =? LED_DISPLAY_ACTUATOR_TYPE cc) && is_set (ledDisplayActuator self) then
            update self (ledDisplayActuator self) data
          else (self, None)
        else (self, None)
      else (self, None)
  | None => (self, None)
  end.

Definition setDataMessageListener (self : t) (listener : bool) : t * bool :=
  if listener
  then (mk true (locationID self) (humidifierActuator self) (hvacActuator self)
           (ledDisplayActuator self) (calls self) (invocations self), true)
  else (self, false).

End ActuatorAdapterManager.

(** ** The MQTT client library

    [paho.mqtt.client] is an external library.  The connector uses two of
    its operations: [Client.publish], which returns a message-info object,
    and [MQTTMessageInfo.wait_for_publish]; either may raise.  The library
    is an interface here, and what a theorem needs of it is a hypothesis of
    that theorem. *)

Record MQTTMessageInfo : Type := { rc : Z; mid : Z }.

Class PahoClient (C : Type) : Type := {
  is_connected : C -> bool;
  publish : C -> string -> string -> Z -> Py.res (C * MQTTMessageInfo);
  wait_for_publish : C -> MQTTMessageInfo -> Py.res C
}.

(** The library's documented behaviour without a connection: the publish
    does not complete, either [publish] or [wait_for_publish] raises. *)
Definition fails_when_disconnected (C : Type) `{PahoClient C} : Prop :=
  forall (c : C) (topic payload : string) (qos : Z),
    is_connected c = false ->
    match publish c topic payload qos with
    | Py.Raise _ => True
    | Py.Ok (c', info) => exists e, wait_for_publish c' info = Py.Raise e
    end.

Module Paho.

(** A client as paho-mqtt 2.x behaves: [publish] on a client without a
    connection returns an info whose [rc] is [MQTT_ERR_NO_CONN], and
    [wait_for_publish] raises [RuntimeError] for any positive [rc] other
    than [MQTT_ERR_QUEUE_SIZE], for which it raises [ValueError]. *)
Record client : Type := mk {
  connected : bool;
  next_mid : Z;
  sent : list (string * string * Z)
}.

Definition MQTT_ERR_SUCCESS : Z := 0.
Definition MQTT_ERR_NO_CONN : Z := 4.
Definition MQTT_ERR_QUEUE_SIZE : Z := 15.

Definition client_publish (c : client) (topic payload : string) (qos : Z)
    : Py.res (client * MQTTMessageInfo) :=
  if connected c
  then Py.Ok (mk true (next_mid c + 1) (sent c ++ [(topic, payload, qos)]),
              {| rc := MQTT_ERR_SUCCESS; mid := next_mid c |})
  else Py.Ok (mk false (next_mid c + 1) (sent c),
              {| rc := MQTT_ERR_NO_CONN; mid := next_mid c |}).

Definition client_wait (c : client) (info : MQTTMessageInfo) : Py.res client :=
  if rc info =? MQTT_ERR_QUEUE_SIZE then Py.Raise Py.ValueError
  else if 0 <? rc info then Py.Raise Py.RuntimeError
  else Py.Ok c.

End Paho.

#[export] Instance paho_client : PahoClient Paho.client := {
  is_connected := Paho.connected;
  publish := Paho.client_publish;
  wait_for_publish := Paho.client_wait
}.

(** ** [MqttClientConnector]: the publish/subscribe connector *)

(** [bytes.decode('utf-8')] for text whose code points stay below 256: a
    byte below 128 is itself, the lead bytes 194 and 195 take one
    continuation byte.  A byte that cannot start a sequence raises; a lead
    byte of a code point above 255 is outside this model of [str]. *)
Fixpoint utf8_decode (b : string) : Py.res string :=
  match b with
  | EmptyString => Py.Ok EmptyString
  | String c r =>
      let n := code c in
      if n <? 128 then
        let* s := utf8_decode r in Py.Ok (String c s)
      else if n <? 194 then Py.Raise Py.UnicodeDecodeError
      else if n <? 196 then
        match r with
        | String d r' =>
            let k := code d in
            if (128 <=? k) && (k <? 192) then
              let* s := utf8_decode r' in
              Py.Ok (String (ascii_of_N (Z.to_N ((n - 192) * 64 + (k - 128)))) s)
            else Py.Raise Py.UnicodeDecodeError
        | EmptyString => Py.Raise Py.UnicodeDecodeError
        end
      else if n <? 245 then Py.Raise Py.OutsideModel
      else Py.Raise Py.UnicodeDecodeError
  end.

(** An inbound message of the transport: a topic and a payload of bytes. *)
Record MQTTMessage : Type := { topic : string; payload : string }.

Module MqttClientConnector.

Section Connector.

Context {C : Type} `{PahoClient C}.
Context (rn : ResourceNames).

(** The state of the connector.  [dataMsgListener] tells whether a listener
    object is registered.  [delivered] and [publishCalls] are not attributes
    of the Python object: they record, in order, the arguments of every
    [handleIncomingMessage] call made on the listener and of every
    [publishMessage] call received. *)
Record t : Type := mk {
  mc : C;
  dataMsgListener : bool;
  delivered : list (ResourceNameEnum * string);
  publishCalls : list (option ResourceNameEnum * option string * Z)
}.

Definition with_mc (self : t) (c : C) : t :=
  mk c (dataMsgListener self) (delivered self) (publishCalls self).

Definition deliver (self : t) (r : ResourceNameEnum) (p : string) : t :=
  mk (mc self) (dataMsgListener self) (delivered self ++ [(r, p)]) (publishCalls self).

Definition record_publish (self : t) (resource : option ResourceNameEnum)
    (msg : option string) (qos : Z) : t :=
  mk (mc self) (dataMsgListener self) (delivered self)
     (publishCalls self ++ [(resource, msg, qos)]).

(** [onMessage]: the payload is decoded before anything else, outside the
    [try]; the lookup of the topic and the call of the listener are inside
    it, so whatever they raise is logged and dropped. *)
Definition onMessage (self : t) (msg : MQTTMessage) : Py.res t :=
  let* payload := utf8_decode (payload msg) in
  if dataMsgListener self then
    match getResourceNameByValue rn (topic msg) with
    | Py.Ok (Some resourceEnum) => Py.Ok (deliver self resourceEnum payload)
    | Py.Ok None => Py.Ok self
    | Py.Raise _ => Py.Ok self
    end
  else Py.Ok self.

(** [publishMessage]: the two guards, then the library calls inside
    [try ... except Exception], which turns whatever they raise into
    [False]. *)
Definition publishMessage (self : t) (resource : option ResourceNameEnum)
    (msg : option string) (qos : Z) : Py.res (t * bool) :=
  let self := record_publish self resource msg qos in
  match resource with
  | None => Py.Ok (self, false)
  | Some resource =>
      match msg with
      | None | Some EmptyString => Py.Ok (self, false)
      | Some msg =>
          let topic := value rn resource in
          match publish (mc self) topic msg qos with
          | Py.Raise _ => Py.Ok (self, false)
          | Py.Ok (mc', msgInfo) =>
              match wait_for_publish mc' msgInfo with
              | Py.Raise _ => Py.Ok (with_mc self mc', false)
              | Py.Ok mc'' => Py.Ok (with_mc self mc'', true)
              end
          end
      end
  end.

Definition setDataMessageListener (self : t) (listener : bool) : t * bool :=
  if listener
  then (mk (mc self) true (delivered self) (publishCalls self), true)
  else (self, false).

End Connector.

Arguments t C : clear implicits.

End MqttClientConnector.

(** ** [SensorAdapterManager]: the sensor telemetry scheduler *)

Module SensorAdapterManager.

(** The sensor backends are simulator or emulator tasks; a task is the
    reading that its [generateTelemetry] returns. *)
Record SensorTask : Type := { generateTelemetry : SensorData.t }.

Record t : Type := mk {
  dataMsgListener : bool;
  locationID : string;
  humidityAdapter : SensorTask;
  pressureAdapter : SensorTask;
  tempAdapter : SensorTask
}.

(** [handleTelemetry]: the three backends are polled, each reading is
    stamped with the location of the device, and the readings are handed,
    in this order, to [handleSensorMessage] of the listener when there is
    one.  The result lists the readings handed over. *)
Definition handleTelemetry (self : t) : list SensorData.t :=
  let humidityData := generateTelemetry (humidityAdapter self) in
  let pressureData := generateTelemetry (pressureAdapter self) in
  let tempData := generateTelemetry (tempAdapter self) in
  let humidityData := SensorData.setLocationID humidityData (locationID self) in
  let pressureData := SensorData.setLocationID pressureData (locationID self) in
  let tempData := SensorData.setLocationID tempData (locationID self) in
  if dataMsgListener self then [humidityData; pressureData; tempData] else [].

Definition setDataMessageListener (self : t) (listener : bool) : t * bool :=
  if listener
  then (mk true (locationID self) (humidityAdapter self) (pressureAdapter self)
           (tempAdapter self), true)
  else (self, false).

End SensorAdapterManager.

(** ** [SystemPerformanceManager]: the system performance monitor *)

Module SystemPerformanceManager.

(** [SystemCpuUtilTask] and [SystemMemUtilTask] are not among the sources;
    a task is the value that its [getTelemetryValue] reads. *)
Record TelemetryTask : Type := { getTelemetryValue : pyfloat }.

(** The object has no attribute for a listener. *)
Record t : Type := mk {
  pollRate : Z;
  isStarted : bool;
  cpuUtilTask : TelemetryTask;
  memUtilTask : TelemetryTask
}.

(** What one run of the periodic task does to the outside: the lines it
    logs and the readings it hands to a data message listener. *)
Record Effects : Type := {
  logged : list string;
  forwarded : list SystemPerformanceData.t
}.

(** [handleTelemetry]: two values are read and one line is logged. *)
Definition handleTelemetry (self : t) : Effects :=
  let cpuUtil := getTelemetryValue (cpuUtilTask self) in
  let memUtil := getTelemetryValue (memUtilTask self) in
  {| logged := [ "CPU utilization: " +:+ float_repr cpuUtil
                   +:+ "%, Memory utilization: " +:+ float_repr memUtil +:+ "%" ];
     forwarded := [] |}.

(** [setDataMessageListener]: the body is [pass]. *)
Definition setDataMessageListener (self : t) (listener : bool) : t := self.

Definition startManager (self : t) : t :=
  if negb (isStarted self)
  then mk (pollRate self) true (cpuUtilTask self) (memUtilTask self)
  else self.

Definition stopManager (self : t) : t :=
  if isStarted self
  then mk (pollRate self) false (cpuUtilTask self) (memUtilTask self)
  else self.

End SystemPerformanceManager.

(** ** [DeviceDataManager]: the central coordinator *)

Module DeviceDataManager.

Section Coordinator.

Context {C : Type} `{PahoClient C}.
Context (cc : ConfigConst) (rn : ResourceNames).

(** The state of the coordinator.  [coapClient] is [None] on both branches
    of the constructor, so it is a field that never holds a client.  The
    sensor adapter manager only calls into the coordinator and is left
    out. *)
Record t : Type := mk {
  handleTempChangeOnDevice : bool;
  triggerHvacTempFloor : pyfloat;
  triggerHvacTempCeiling : pyfloat;
  sysPerfMgr : option SystemPerformanceManager.t;
  actuatorAdapterMgr : ActuatorAdapterManager.t;
  mqttClient : option (MqttClientConnector.t C);
  coapClient : option unit;
  latestSensorDataCache : gmap string SensorData.t;
  latestActuatorDataCache : gmap string ActuatorData.t;
  latestSystemPerfDataCache : gmap string SystemPerformanceData.t
}.

Definition with_actuatorAdapterMgr (self : t) (m : ActuatorAdapterManager.t) : t :=
  mk (handleTempChangeOnDevice self) (triggerHvacTempFloor self) (triggerHvacTempCeiling self)
     (sysPerfMgr self) m (mqttClient self) (coapClient self)
     (latestSensorDataCache self) (latestActuatorDataCache self)
     (latestSystemPerfDataCache self).

Definition with_mqttClient (self : t) (c : MqttClientConnector.t C) : t :=
  mk (handleTempChangeOnDevice self) (triggerHvacTempFloor self) (triggerHvacTempCeiling self)
     (sysPerfMgr self) (actuatorAdapterMgr self) (Some c) (coapClient self)
     (latestSensorDataCache self) (latestActuatorDataCache self)
     (latestSystemPerfDataCache self).

Definition with_latestSensorDataCache (self : t) (m : gmap string SensorData.t) : t :=
  mk (handleTempChangeOnDevice self) (triggerHvacTempFloor self) (triggerHvacTempCeiling self)
     (sysPerfMgr self) (actuatorAdapterMgr self) (mqttClient self) (coapClient self)
     m (latestActuatorDataCache self) (latestSystemPerfDataCache self).

Definition with_latestActuatorDataCache (self : t) (m : gmap string ActuatorData.t) : t :=
  mk (handleTempChangeOnDevice self) (triggerHvacTempFloor self) (triggerHvacTempCeiling self)
     (sysPerfMgr self) (actuatorAdapterMgr self) (mqttClient self) (coapClient self)
     (latestSensorDataCache self) m (latestSystemPerfDataCache self).

Definition with_latestSystemPerfDataCache (self : t)
    (m : gmap string SystemPerformanceData.t) : t :=
  mk (handleTempChangeOnDevice self) (triggerHvacTempFloor self) (triggerHvacTempCeiling self)
     (sysPerfMgr self) (actuatorAdapterMgr self) (mqttClient self) (coapClient self)
     (latestSensorDataCache self) (latestActuatorDataCache self) m.

(** [if name and name in cache: return cache[name]]. *)
Definition getLatestActuatorDataResponseFromCache (self : t) (name : option string)
    : option ActuatorData.t :=
  match name with
  | None | Some EmptyString => None
  | Some name => latestActuatorDataCache self !! name
  end.

Definition getLatestSensorDataFromCache (self : t) (name : option string)
    : option SensorData.t :=
  match name with
  | None | Some EmptyString => None
  | Some name => latestSensorDataCache self !! name
  end.

Definition getLatestSystemPerformanceDataFromCache (self : t) (name : option string)
    : option SystemPerformanceData.t :=
  match name with
  | None | Some EmptyString => None
  | Some name => latestSystemPerfDataCache self !! name
  end.

Definition handleActuatorCommandMessage (self : t) (data : option ActuatorData.t)
    : t * option ActuatorData.t :=
  match data with
  | Some data =>
      let '(m, response) :=
        ActuatorAdapterManager.sendActuatorCommand cc (actuatorAdapterMgr self) (Some data) in
      (with_actuatorAdapterMgr self m, response)
  | None => (self, None)
  end.

(** [_handleUpstreamTransmission]: a publish through the MQTT connector when
    there is one; nothing for CoAP. *)
Definition _handleUpstreamTransmission (self : t) (resourceName : ResourceNameEnum)
    (msg : string) : Py.res t :=
  let* self :=
    match mqttClient self with
    | Some client =>
        let* (client, _) :=
          MqttClientConnector.publishMessage rn client (Some resourceName) (Some msg)
            (DEFAULT_QOS cc) in
        Py.Ok (with_mqttClient self client)
    | None => Py.Ok self
    end in
  match coapClient self with
  | Some _ => Py.Ok self
  | None => Py.Ok self
  end.

(** The command that the control rule builds for a temperature reading. *)
Definition hvacCommand (self : t) (data : SensorData.t) : ActuatorData.t :=
  let ad := ActuatorData.new cc (HVAC_ACTUATOR_TYPE cc) in
  let ad := ActuatorData.setLocationID ad (SensorData.getLocationID data) in
  let ad := ActuatorData.setName ad (HVAC_ACTUATOR_NAME cc) in
  if float_gt (SensorData.getValue data) (triggerHvacTempCeiling self) then
    ActuatorData.setValue (ActuatorData.setCommand ad (COMMAND_ON cc))
      (triggerHvacTempCeiling self)
  else if float_lt (SensorData.getValue data) (triggerHvacTempFloor self) then
    ActuatorData.setValue (ActuatorData.setCommand ad (COMMAND_ON cc))
      (triggerHvacTempFloor self)
  else
    ActuatorData.setValue (ActuatorData.setCommand ad (COMMAND_OFF cc)) (Finite 0 0).

Definition _handleSensorDataAnalysis (self : t) (data : SensorData.t) : t :=
  if handleTempChangeOnDevice self && (SensorData.getTypeID data =? TEMP_SENSOR_TYPE cc)
  then fst (handleActuatorCommandMessage self (Some (hvacCommand self data)))
  else self.

Definition handleActuatorCommandResponse (self : t) (data : option ActuatorData.t)
    : Py.res (t * bool) :=
  match data with
  | Some data =>
      let self :=
        match ActuatorData.getName data with
        | None | Some EmptyString => self
        | Some name =>
            with_latestActuatorDataCache self (<[name := data]> (latestActuatorDataCache self))
        end in
      let* msg := DataUtil.actuatorDataToJson DataUtil.new (Some data) false in
      let* self := _handleUpstreamTransmission self CDA_ACTUATOR_RESPONSE_MSG_RESOURCE msg in
      Py.Ok (self, true)
  | None => Py.Ok (self, false)
  end.

Definition handleSensorMessage (self : t) (data : option SensorData.t) : Py.res (t * bool) :=
  match data with
  | Some data =>
      let self :=
        match SensorData.getName data with
        | None | Some EmptyString => self
        | Some name =>
            with_latestSensorDataCache self (<[name := data]> (latestSensorDataCache self))
        end in
      let self := _handleSensorDataAnalysis self data in
      let* msg := DataUtil.sensorDataToJson DataUtil.new (Some data) false in
      let* self := _handleUpstreamTransmission self CDA_SENSOR_MSG_RESOURCE msg in
      Py.Ok (self, true)
  | None => Py.Ok (self, false)
  end.

Definition handleSystemPerformanceMessage (self : t) (data : option SystemPerformanceData.t)
    : Py.res (t * bool) :=
  match data with
  | Some data =>
      let self :=
        match SystemPerformanceData.getName data with
        | None | Some EmptyString => self
        | Some name =>
            with_latestSystemPerfDataCache self
              (<[name := data]> (latestSystemPerfDataCache self))
        end in
      let* msg := DataUtil.systemPerformanceDataToJson DataUtil.new (Some data) false in
      let* self := _handleUpstreamTransmission self CDA_SYSTEM_PERF_MSG_RESOURCE msg in
      Py.Ok (self, true)
  | None => Py.Ok (self, false)
  end.

(** [_handleIncomingDataAnalysis]: the decoding and the dispatch are inside
    [try ... except Exception].  A decoded object whose attributes are not
    of the record's types is outside the typed model of [ActuatorData]. *)
Definition _handleIncomingDataAnalysis (self : t) (msg : string) : Py.res t :=
  Py.try_except
    (let* actuatorData := DataUtil.jsonToActuatorData cc (Some msg) false in
     match actuatorData with
     | Some attrs =>
         match ActuatorData.of_vars attrs with
         | Some ad => Py.Ok (fst (handleActuatorCommandMessage self (Some ad)))
         | None => Py.Raise Py.OutsideModel
         end
     | None => Py.Ok self
     end)
    (fun _ => Py.Ok self).

Definition handleIncomingMessage (self : t) (resourceEnum : ResourceNameEnum)
    (msg : option string) : Py.res (t * bool) :=
  match msg with
  | None | Some EmptyString => Py.Ok (self, false)
  | Some msg =>
      let* self := _handleIncomingDataAnalysis self msg in
      Py.Ok (self, true)
  end.

(** One firing of the job that [SystemPerformanceManager.startManager]
    registers with the scheduler: [handleTelemetry] runs, and each reading
    that it hands to its listener reaches [handleSystemPerformanceMessage]
    of the coordinator, which is the listener that the constructor
    registers. *)
Fixpoint deliverSystemPerformance (self : t) (l : list SystemPerformanceData.t) : Py.res t :=
  match l with
  | [] => Py.Ok self
  | data :: l' =>
      let* (self, _) := handleSystemPerformanceMessage self (Some data) in
      deliverSystemPerformance self l'
  end.

Definition systemPerformanceJob (self : t) : Py.res t :=
  match sysPerfMgr self with
  | Some m =>
      deliverSystemPerformance self
        (SystemPerformanceManager.forwarded (SystemPerformanceManager.handleTelemetry m))
  | None => Py.Ok self
  end.

(** A run of [handleSensorMessage] over a sequence of readings. *)
Fixpoint handleSensorMessages (self : t) (l : list (option SensorData.t)) : Py.res t :=
  match l with
  | [] => Py.Ok self
  | data :: l' =>
      let* (self, _) := handleSensorMessage self data in
      handleSensorMessages self l'
  end.

(** One firing of the job that [SensorAdapterManager] registers with its
    scheduler, the coordinator being the listener. *)
Definition sensorJob (self : t) (m : SensorAdapterManager.t) : Py.res t :=
  handleSensorMessages self (map Some (SensorAdapterManager.handleTelemetry m)).

End Coordinator.

Arguments t C : clear implicits.

End DeviceDataManager.

(** ** Sample values

    Concrete constants, topics, backends and states, on which the
    definitions above can be run. *)

Definition sample_cc : ConfigConst := {|
  NOT_SET := "Not Set";
  DEFAULT_VAL := Finite 0 0;
  DEFAULT_TYPE_ID := 0;
  DEFAULT_STATUS := 0;
  DEFAULT_COMMAND := 0;
  COMMAND_OFF := 0;
  COMMAND_ON := 1;
  TEMP_SENSOR_TYPE := 1013;
  HVAC_ACTUATOR_TYPE := 1001;
  HUMIDIFIER_ACTUATOR_TYPE := 1002;
  LED_DISPLAY_ACTUATOR_TYPE := 1100;
  HVAC_ACTUATOR_NAME := "HvacActuator";
  DEFAULT_QOS := 0
|}.

Definition sample_topic (r : ResourceNameEnum) : string :=
  match r with
  | CDA_ACTUATOR_CMD_RESOURCE => "PIOT/ConstrainedDevice/ActuatorCmd"
  | CDA_ACTUATOR_RESPONSE_MSG_RESOURCE => "PIOT/ConstrainedDevice/ActuatorResponse"
  | CDA_MGMT_STATUS_CMD_RESOURCE => "PIOT/ConstrainedDevice/MgmtStatusCmd"
  | CDA_SENSOR_MSG_RESOURCE => "PIOT/ConstrainedDevice/SensorMsg"
  | CDA_SYSTEM_PERF_MSG_RESOURCE => "PIOT/ConstrainedDevice/SystemPerfMsg"
  | GDA_MGMT_STATUS_MSG_RESOURCE => "PIOT/GatewayDevice/MgmtStatusMsg"
  | GDA_SYSTEM_PERF_MSG_RESOURCE => "PIOT/GatewayDevice/SystemPerfMsg"
  end.

Definition all_resources : list ResourceNameEnum :=
  [ CDA_ACTUATOR_CMD_RESOURCE; CDA_ACTUATOR_RESPONSE_MSG_RESOURCE;
    CDA_MGMT_STATUS_CMD_RESOURCE; CDA_SENSOR_MSG_RESOURCE; CDA_SYSTEM_PERF_MSG_RESOURCE;
    GDA_MGMT_STATUS_MSG_RESOURCE; GDA_SYSTEM_PERF_MSG_RESOURCE ].

Definition sample_rn : ResourceNames := {|
  value := sample_topic;
  getResourceNameByValue := fun v =>
    Py.Ok (List.find (fun r => String.eqb (sample_topic r) v) all_resources)
|}.

(** A backend that answers every command with the command marked as a
    response. *)
Definition echo_task : ActuatorAdapterManager.ActuatorTask :=
  {| ActuatorAdapterManager.updateActuator := fun d => Some (ActuatorData.setAsResponse d) |}.

Definition sample_location : string := "constraineddevice001".

Definition sample_actuators : ActuatorAdapterManager.t :=
  ActuatorAdapterManager.mk true sample_location (Some echo_task) (Some echo_task) None [] [].

Definition sample_connector (connected : bool) : MqttClientConnector.t Paho.client :=
  MqttClientConnector.mk (Paho.mk connected 1 []) true [] [].

Definition sample_sensors : SensorAdapterManager.t :=
  SensorAdapterManager.mk true sample_location
    {| SensorAdapterManager.generateTelemetry :=
         SensorData.mk (Some "HumiditySensor") 1010 "Not Set" (decimal 405 (-1))
           "2025-01-01T00:00:00+00:00" |}
    {| SensorAdapterManager.generateTelemetry :=
         SensorData.mk (Some "PressureSensor") 1012 "Not Set" (decimal 10132 (-1))
           "2025-01-01T00:00:00+00:00" |}
    {| SensorAdapterManager.generateTelemetry :=
         SensorData.mk (Some "TempSensor") 1013 "Not Set" (decimal 215 (-1))
           "2025-01-01T00:00:00+00:00" |}.

Definition sample_monitor : SystemPerformanceManager.t :=
  SystemPerformanceManager.mk 5 true
    {| SystemPerformanceManager.getTelemetryValue := decimal 125 (-1) |}
    {| SystemPerformanceManager.getTelemetryValue := decimal 403 (-1) |}.

(** A coordinator with local temperature handling between 18.0 and 20.0,
    a connected MQTT client and empty caches. *)
Definition sample_coordinator : DeviceDataManager.t Paho.client :=
  DeviceDataManager.mk true (decimal 18 0) (decimal 20 0) (Some sample_monitor)
    sample_actuators (Some (sample_connector true)) None ∅ ∅ ∅.

Definition sample_time : string := "2025-01-01T00:00:00+00:00".

Definition temperature_reading (name : option string) (v : pyfloat) : SensorData.t :=
  SensorData.mk name 1013 sample_location v sample_time.

(** Records whose names meet the rewriting of the codec. *)
Definition true_temp_reading : SensorData.t :=
  temperature_reading (Some "TrueTemp") (decimal 215 (-1)).

Definition false_alarm_command : ActuatorData.t :=
  ActuatorData.mk (Some "FalseAlarm") 1001 sample_location 1 (decimal 20 0) false 0.

Definition bobs_pi_reading : SystemPerformanceData.t :=
  SystemPerformanceData.mk (Some "Bob's Pi") (decimal 125 (-1)) (decimal 403 (-1))
    (decimal 71 0) sample_time.

(** The JSON text of a record, as the coordinator's [DataUtil] produces it. *)
Definition encoded (attrs : list (string * Json.pyval)) : string :=
  DataUtil.pythonToJsonText (Json.dumps (Json.PyDict attrs)).

(** The cache after a record named [name] was offered to it. *)
Definition cached {A : Type} (name : option string) (data : A) (cache : gmap string A)
    : gmap string A :=
  match name with
  | None | Some EmptyString => cache
  | Some n => <[n := data]> cache
  end.

(** The most recent reading named [X] in a sequence of ingested readings,
    [init] when there is none. *)
Fixpoint last_named (X : string) (l : list (option SensorData.t)) (init : option SensorData.t)
    : option SensorData.t :=
  match l with
  | [] => init
  | Some r :: l' =>
      last_named X l' (if decide (SensorData.name r = Some X) then Some r else init)
  | None :: l' => last_named X l' init
  end.

(** ** Notions used in the statements of Part III *)

(** The settings of a coordinator: what no ingest operation touches. *)
Definition same_settings {C : Type} (self self' : DeviceDataManager.t C) : Prop :=
  DeviceDataManager.handleTempChangeOnDevice self' =
    DeviceDataManager.handleTempChangeOnDevice self
  /\ DeviceDataManager.triggerHvacTempFloor self' = DeviceDataManager.triggerHvacTempFloor self
  /\ DeviceDataManager.triggerHvacTempCeiling self' =
       DeviceDataManager.triggerHvacTempCeiling self
  /\ DeviceDataManager.sysPerfMgr self' = DeviceDataManager.sysPerfMgr self
  /\ DeviceDataManager.coapClient self' = DeviceDataManager.coapClient self.

(** The sample coordinator with a client that holds no connection. *)
Definition offline_coordinator : DeviceDataManager.t Paho.client :=
  DeviceDataManager.mk true (decimal 18 0) (decimal 20 0) (Some sample_monitor)
    sample_actuators (Some (sample_connector false)) None ∅ ∅ ∅.

(** ** [ActuatorAdapterManager]: construction

    The constructor reads the configuration and creates the backends: the
    simulator tasks, or, when emulators are enabled, the emulator tasks,
    each loaded with [import_module] inside a [try] whose two handlers
    ([ImportError] and [Exception]) both fall back to the simulators. *)

Module ActuatorAdapterManagerInit.

(** What the constructor finds: the configuration values it reads, the
    simulator tasks, and for each emulator task the outcome of loading and
    instantiating it, [None] when that raised. *)
Record Environment : Type := {
  useEmulator : bool;
  deviceLocationID : string;
  HumidifierActuatorSimTask : ActuatorAdapterManager.ActuatorTask;
  HvacActuatorSimTask : ActuatorAdapterManager.ActuatorTask;
  HumidifierEmulatorTask : option ActuatorAdapterManager.ActuatorTask;
  HvacEmulatorTask : option ActuatorAdapterManager.ActuatorTask;
  LedDisplayEmulatorTask : option ActuatorAdapterManager.ActuatorTask
}.

Definition with_humidifierActuator (self : ActuatorAdapterManager.t)
    (task : ActuatorAdapterManager.ActuatorTask) : ActuatorAdapterManager.t :=
  ActuatorAdapterManager.mk (ActuatorAdapterManager.dataMsgListener self)
    (ActuatorAdapterManager.locationID self) (Some task)
    (ActuatorAdapterManager.hvacActuator self)
    (ActuatorAdapterManager.ledDisplayActuator self)
    (ActuatorAdapterManager.calls self) (ActuatorAdapterManager.invocations self).

Definition with_hvacActuator (self : ActuatorAdapterManager.t)
    (task : ActuatorAdapterManager.ActuatorTask) : ActuatorAdapterManager.t :=
  ActuatorAdapterManager.mk (ActuatorAdapterManager.dataMsgListener self)
    (ActuatorAdapterManager.locationID self)
    (ActuatorAdapterManager.humidifierActuator self) (Some task)
    (ActuatorAdapterManager.ledDisplayActuator self)
    (ActuatorAdapterManager.calls self) (ActuatorAdapterManager.invocations self).

Definition with_ledDisplayActuator (self : ActuatorAdapterManager.t)
    (task : ActuatorAdapterManager.ActuatorTask) : ActuatorAdapterManager.t :=
  ActuatorAdapterManager.mk (ActuatorAdapterManager.dataMsgListener self)
    (ActuatorAdapterManager.locationID self)
    (ActuatorAdapterManager.humidifierActuator self)
    (ActuatorAdapterManager.hvacActuator self) (Some task)
    (ActuatorAdapterManager.calls self) (ActuatorAdapterManager.invocations self).

Definition _initEnvironmentalActuationTasks (env : Environment)
    (self : ActuatorAdapterManager.t) : ActuatorAdapterManager.t :=
  let self := with_humidifierActuator self (HumidifierActuatorSimTask env) in
  with_hvacActuator self (HvacActuatorSimTask env).

(** The three loads run in this order; the first that raises ends the
    [try] block, with the attributes assigned so far left in place, and
    the handler calls [_initEnvironmentalActuationTasks]. *)
Definition _initActuatorEmulationTasks (env : Environment)
    (self : ActuatorAdapterManager.t) : ActuatorAdapterManager.t :=
  match HumidifierEmulatorTask env with
  | None => _initEnvironmentalActuationTasks env self
  | Some hue =>
      let self := with_humidifierActuator self hue in
      match HvacEmulatorTask env with
      | None => _initEnvironmentalActuationTasks env self
      | Some hve =>
          let self := with_hvacActuator self hve in
          match LedDisplayEmulatorTask env with
          | None => _initEnvironmentalActuationTasks env self
          | Some le => with_ledDisplayActuator self le
          end
      end
  end.

(** [ActuatorAdapterManager(dataMsgListener)]. *)
Definition init (env : Environment) (dataMsgListener : bool) : ActuatorAdapterManager.t :=
  let self :=
    ActuatorAdapterManager.mk dataMsgListener (deviceLocationID env) None None None [] [] in
  if useEmulator env then _initActuatorEmulationTasks env self
  else _initEnvironmentalActuationTasks env self.

(** All three emulator tasks could be loaded. *)
Definition emulators_loaded (env : Environment) : bool :=
  ActuatorAdapterManager.is_set (HumidifierEmulatorTask env)
  && ActuatorAdapterManager.is_set (HvacEmulatorTask env)
  && ActuatorAdapterManager.is_set (LedDisplayEmulatorTask env).

End ActuatorAdapterManagerInit.

(** A device configured for emulators on which the LED display emulator
    cannot be loaded. *)
Definition sample_environment : ActuatorAdapterManagerInit.Environment := {|
  ActuatorAdapterManagerInit.useEmulator := true;
  ActuatorAdapterManagerInit.deviceLocationID := sample_location;
  ActuatorAdapterManagerInit.HumidifierActuatorSimTask := echo_task;
  ActuatorAdapterManagerInit.HvacActuatorSimTask := echo_task;
  ActuatorAdapterManagerInit.HumidifierEmulatorTask :=
    Some {| ActuatorAdapterManager.updateActuator := fun _ => None |};
  ActuatorAdapterManagerInit.HvacEmulatorTask :=
    Some {| ActuatorAdapterManager.updateActuator := fun _ => None |};
  ActuatorAdapterManagerInit.LedDisplayEmulatorTask := None
|}.

(** ** [MqttClientConnector]: the callback for actuator commands *)

(** [str.isascii()]: every code point is below 128. *)
Fixpoint isascii (s : string) : bool :=
  match s with
  | EmptyString => true
  | String c r => (code c <? 128) && isascii r
  end.

(** [onActuatorCommandMessage]: written as [onMessage] is, the payload
    decoded outside the [try]; an unknown topic is not logged. *)
Definition onActuatorCommandMessage {C : Type} `{PahoClient C} (rn : ResourceNames)
    (self : MqttClientConnector.t C) (msg : MQTTMessage) : Py.res (MqttClientConnector.t C) :=
  let* payload := utf8_decode (payload msg) in
  if MqttClientConnector.dataMsgListener self then
    match getResourceNameByValue rn (topic msg) with
    | Py.Ok (Some resourceEnum) =>
        Py.Ok (MqttClientConnector.deliver self resourceEnum payload)
    | Py.Ok None => Py.Ok self
    | Py.Raise _ => Py.Ok self
    end
  else Py.Ok self.

(** ** The CoAP client library

    [coapthon.client.helperclient.HelperClient] is an external library.
    The connector calls [discover], [get], [post], [put], [delete] and
    [observe] on it and drops what they return; each may raise. *)

Class CoapHelperClient (H : Type) : Type := {
  coap_discover : H -> Z -> Py.res H;
  coap_get : H -> string -> Z -> Py.res H;
  coap_post : H -> string -> string -> Z -> Py.res H;
  coap_put : H -> string -> string -> Z -> Py.res H;
  coap_delete : H -> string -> Z -> Py.res H;
  coap_observe : H -> string -> Py.res H
}.

(** ** [CoapClientConnector]: the request/response connector *)

Module CoapClientConnector.

Section Connector.

Context {H : Type} `{CoapHelperClient H}.
Context (rn : ResourceNames).

(** The state of the connector.  [coapClient] is [None] when
    [_initClient] could not create the library client; [observeRequests]
    is the dict of observed resource paths. *)
Record t : Type := mk {
  coapClient : option H;
  dataMsgListener : bool;
  observeRequests : gmap string bool
}.

(** [_initClient] within the constructor: [client] is the outcome of
    creating the library client, [None] when that raised. *)
Definition init (client : option H) : t := mk client false ∅.

(** [try: self.coapClient.op(...); return True / except Exception: return
    False].  On a connector without a client the attribute lookup on [None]
    raises [AttributeError], which the handler catches as well. *)
Definition request (self : t) (op : H -> Py.res H) : t * bool :=
  match coapClient self with
  | None => (self, false)
  | Some h =>
      match op h with
      | Py.Ok h' => (mk (Some h') (dataMsgListener self) (observeRequests self), true)
      | Py.Raise _ => (self, false)
      end
  end.

Definition sendDiscoveryRequest (self : t) (timeout : Z) : t * bool :=
  request self (fun h => coap_discover h timeout).

Definition sendDeleteRequest (self : t) (resource : option ResourceNameEnum)
    (name : option string) (enableCON : bool) (timeout : Z) : t * bool :=
  match resource with
  | None => (self, false)
  | Some resource => request self (fun h => coap_delete h (value rn resource) timeout)
  end.

Definition sendGetRequest (self : t) (resource : option ResourceNameEnum)
    (name : option string) (enableCON : bool) (timeout : Z) : t * bool :=
  match resource with
  | None => (self, false)
  | Some resource => request self (fun h => coap_get h (value rn resource) timeout)
  end.

Definition sendPostRequest (self : t) (resource : option ResourceNameEnum)
    (name : option string) (enableCON : bool) (payload : option string) (timeout : Z)
    : t * bool :=
  match resource with
  | None => (self, false)
  | Some resource =>
      match payload with
      | None | Some EmptyString => (self, false)
      | Some payload =>
          request self (fun h => coap_post h (value rn resource) payload timeout)
      end
  end.

Definition sendPutRequest (self : t) (resource : option ResourceNameEnum)
    (name : option string) (enableCON : bool) (payload : option string) (timeout : Z)
    : t * bool :=
  match resource with
  | None => (self, false)
  | Some resource =>
      match payload with
      | None | Some EmptyString => (self, false)
      | Some payload =>
          request self (fun h => coap_put h (value rn resource) payload timeout)
      end
  end.

Definition setDataMessageListener (self : t) (listener : bool) : t * bool :=
  if listener then (mk (coapClient self) true (observeRequests self), true)
  else (self, false).

(** [startObserver]: the path is entered in [observeRequests] after
    [observe] returned, inside the same [try]. *)
Definition startObserver (self : t) (resource : option ResourceNameEnum)
    (name : option string) (ttl : Z) : t * bool :=
  match resource with
  | None => (self, false)
  | Some resource =>
      let resourcePath := value rn resource in
      match coapClient self with
      | None => (self, false)
      | Some h =>
          match coap_observe h resourcePath with
          | Py.Ok h' =>
              (mk (Some h') (dataMsgListener self)
                  (<[resourcePath := true]> (observeRequests self)), true)
          | Py.Raise _ => (self, false)
          end
      end
  end.

(** [stopObserver]: the entry is deleted; the library is not called. *)
Definition stopObserver (self : t) (resource : option ResourceNameEnum)
    (name : option string) (timeout : Z) : t * bool :=
  match resource with
  | None => (self, false)
  | Some resource =>
      let resourcePath := value rn resource in
      match observeRequests self !! resourcePath with
      | Some _ =>
          (mk (coapClient self) (dataMsgListener self)
              (delete resourcePath (observeRequests self)), true)
      | None => (self, false)
      end
  end.

End Connector.

Arguments t H : clear implicits.

End CoapClientConnector.

(** A library client that counts the requests it served and refuses to
    observe once [limit] requests were made. *)
Record counting_client : Type := { served : Z; limit : Z }.

Definition count_request (h : counting_client) : Py.res counting_client :=
  if served h <? limit h then Py.Ok {| served := served h + 1; limit := limit h |}
  else Py.Raise Py.RuntimeError.

#[export] Instance counting_coap : CoapHelperClient counting_client := {
  coap_discover := fun h _ => count_request h;
  coap_get := fun h _ _ => count_request h;
  coap_post := fun h _ _ _ => count_request h;
  coap_put := fun h _ _ _ => count_request h;
  coap_delete := fun h _ _ => count_request h;
  coap_observe := fun h _ => count_request h
}.

Definition sample_coap : CoapClientConnector.t counting_client :=
  CoapClientConnector.init (Some {| served := 0; limit := 10 |}).


(** The text after a value inside an indented object: a comma or a line
    feed. *)
Definition ends_value (r : string) : bool :=
  match r with
  | String c _ => (code c =? 44) || (code c =? 10)
  | EmptyString => false
  end.

(** A number literal: an optional minus sign, an integer part, an optional
    fraction (absent when [frac] is empty) and an optional exponent with
    its sign. *)
Definition number_text (neg : bool) (int_part frac : string) (ex : option (bool * string))
    : string :=
  (if neg then "-" else EmptyString)
    +:+ int_part
    +:+ (match frac with EmptyString => EmptyString | _ => "." +:+ frac end)
    +:+ (match ex with
         | None => EmptyString
         | Some (eneg, ed) => "e" +:+ (if eneg : bool then "-" else "+") +:+ ed
         end).

Definition all_digits (s : string) : bool := forallb Json.is_digit (list_ascii_of_string s).

(** An integer part as the grammar wants it: a single zero, or digits that
    do not start with a zero. *)
Definition int_digits (s : string) : bool :=
  match s with
  | EmptyString => false
  | String "0" EmptyString => true
  | String "0" _ => false
  | String _ _ => all_digits s
  end.

(** A canonical float: a finite one is written without trailing zeros in
    its significand, as [float_norm] leaves it. *)
Definition canonical (x : pyfloat) : Prop :=
  match x with
  | Finite m e => float_norm m e = Finite m e
  | _ => True
  end.

(** The values of the attributes of the data records: no list, no dict. *)
Definition flat_value (v : Json.pyval) : Prop :=
  match v with
  | Json.PyFloat x => canonical x
  | Json.PyList _ | Json.PyDict _ => False
  | _ => True
  end.

(** The text of one member of an indented object, and of its members. *)
Definition member_text (kv : string * Json.pyval) : string :=
  match kv with
  | (k, x) => Json.encode_basestring_ascii k +:+ ": " +:+ Json.dumps_at 1 x
  end.

Definition members_text (d : list (string * Json.pyval)) : string :=
  String.concat ("," +:+ Json.newline_indent 1) (map member_text d).

(** The dict that [json.loads] builds from a sequence of members. *)
Definition stored (d acc : list (string * Json.pyval)) : list (string * Json.pyval) :=
  fold_left (fun acc kv => Json.dict_set (fst kv) (snd kv) acc) d acc.

(* ===================================================================== *)
(** * Part II: properties                                                *)
(* ===================================================================== *)

Arguments ActuatorAdapterManager.sendActuatorCommand : simpl never.
Arguments MqttClientConnector.publishMessage : simpl never.
Arguments DataUtil.pythonToJsonText : simpl never.
Arguments Json.dumps : simpl never.
Arguments Json.loads : simpl never.

(** ** The decoder has fuel enough *)

Module JsonFacts.

Import Json.

Lemma skip_ws_length (s : string) :
  (String.length (skip_ws s) <= String.length s)%nat.
Proof.
  induction s as [| c s IH]; simpl; [lia |].
  destruct (is_ws c); simpl; lia.
Qed.

Lemma drop_length (n : nat) (s : string) :
  String.length (drop n s) = (String.length s - n)%nat.
Proof.
  revert s. induction n as [| n IH]; intros s; destruct s as [| c s]; simpl; try lia.
  apply IH.
Qed.

Lemma span_digits_length (s d r : string) :
  span_digits s = (d, r) ->
  String.length s = (String.length d + String.length r)%nat.
Proof.
  revert d r. induction s as [| c s IH]; intros d r; simpl.
  - intros [= <- <-]. reflexivity.
  - destruct (is_digit c).
    + destruct (span_digits s) as [d' r'] eqn:E. intros [= <- <-].
      simpl. rewrite (IH d' r' eq_refl). reflexivity.
    + intros [= <- <-]. reflexivity.
Qed.

Lemma consumes_cons_char (c : ascii) (s s' : string) (r : Py.res (string * string)) :
  consumes s' r -> (String.length s' <= String.length s)%nat -> consumes s (cons_char c r).
Proof.
  destruct r as [[str rest] | e]; simpl; intros; [lia | assumption].
Qed.

Lemma scanstring_consumes (n : nat) :
  forall s : string, (String.length s <= n)%nat -> consumes s (scanstring s).
Proof.
  induction n as [| n IH]; intros s Hlen.
  - destruct s; [simpl; discriminate | simpl in Hlen; lia].
  - destruct s as [| c rest]; [simpl; discriminate |].
    simpl in Hlen. cbn [scanstring].
    destruct (code c =? 34); [simpl; lia |].
    destruct (code c =? 92).
    + destruct rest as [| e rest']; [simpl; discriminate |].
      simpl in Hlen.
      destruct (code e =? 117).
      * destruct rest' as [| h1 [| h2 [| h3 [| h4 rest'']]]]; try (simpl; discriminate).
        destruct (hex4 h1 h2 h3 h4) as [k |]; [| simpl; discriminate].
        destruct (k <? 256); [| simpl; discriminate].
        apply (consumes_cons_char _ _ rest''); [apply IH; simpl in Hlen; lia | simpl; lia].
      * destruct (unescape e); [| simpl; discriminate].
        apply (consumes_cons_char _ _ rest'); [apply IH; lia | simpl; lia].
    + destruct (code c <? 32); [simpl; discriminate |].
      apply (consumes_cons_char _ _ rest); [apply IH; lia | simpl; lia].
Qed.

Lemma match_number_consumes (s : string) (v : pyval) (r : string) :
  match_number s = Some (v, r) -> (String.length r < String.length s)%nat.
Proof.
  unfold match_number.
  set (p := match s with String "-" r0 => (true, r0) | _ => (false, s) end).
  assert (Hp : (String.length (snd p) <= String.length s)%nat).
  { unfold p. destruct s as [| c s']; [simpl; lia |].
    destruct (Ascii.eqb_spec c "-"%char) as [-> | Hne]; [simpl; lia |].
    destruct c as [[] [] [] [] [] [] [] []]; simpl; try lia. }
  destruct p as [neg s0]. simpl in Hp.
  set (ip := match s0 with
             | String "0" r0 => Some ("0"%string, r0)
             | String c _ => if is_digit c then Some (span_digits s0) else None
             | EmptyString => None
             end).
  assert (Hip : forall ds s1, ip = Some (ds, s1) ->
                  (String.length s1 < String.length s0)%nat).
  { unfold ip. intros ds s1. destruct s0 as [| c s0']; [discriminate |].
    destruct (Ascii.eqb_spec c "0"%char) as [-> | Hne].
    - intros [= <- <-]. simpl. lia.
    - assert (Hgen : (if is_digit c then Some (span_digits (String c s0')) else None)
                     = Some (ds, s1) -> (String.length s1 < String.length (String c s0'))%nat).
      { destruct (is_digit c) eqn:Ed; [| discriminate].
        intros [= Hsp].
        pose proof (span_digits_length (String c s0') ds s1 Hsp) as Hl.
        cbn [span_digits] in Hsp. rewrite Ed in Hsp.
        destruct (span_digits s0') as [d' r']. injection Hsp as <- <-.
        simpl in Hl. simpl. lia. }
      destruct c as [[] [] [] [] [] [] [] []]; try exact Hgen; congruence. }
  destruct ip as [[ds s1] |]; [| discriminate].
  specialize (Hip ds s1 eq_refl).
  set (fr := match s1 with
             | String "." (String c _ as r0) =>
                 if is_digit c then span_digits r0 else (EmptyString, s1)
             | _ => (EmptyString, s1)
             end).
  assert (Hfr : (String.length (snd fr) <= String.length s1)%nat).
  { unfold fr. destruct s1 as [| c1 s1']; [simpl; lia |].
    destruct (Ascii.eqb_spec c1 "."%char) as [-> | Hne].
    - destruct s1' as [| c2 s1'']; [simpl; lia |].
      destruct (is_digit c2) eqn:Ed; [| simpl; lia].
      destruct (span_digits (String c2 s1'')) as [d r0] eqn:Es.
      pose proof (span_digits_length _ _ _ Es) as Hl. simpl in Hl |- *. lia.
    - destruct c1 as [[] [] [] [] [] [] [] []]; simpl; try lia; congruence. }
  destruct fr as [frac s2]. simpl in Hfr.
  set (ex := match s2 with
             | String c r0 =>
                 if (code c =? 101) || (code c =? 69) then
                   let '(eneg, r') :=
                     match r0 with
                     | String "-" t => (true, t)
                     | String "+" t => (false, t)
                     | _ => (false, r0)
                     end in
                   match span_digits r' with
                   | (EmptyString, _) => (None, s2)
                   | (xs, t) =>
                       (Some (if eneg : bool then - digits_value 0 xs else digits_value 0 xs), t)
                   end
                 else (None, s2)
             | EmptyString => (None, s2)
             end).
  assert (Hex : (String.length (snd ex) <= String.length s2)%nat).
  { unfold ex. destruct s2 as [| c r0]; [simpl; lia |].
    destruct ((code c =? 101) || (code c =? 69)); [| simpl; lia].
    set (sg := match r0 with
               | String "-" t => (true, t)
               | String "+" t => (false, t)
               | _ => (false, r0)
               end).
    assert (Hsg : (String.length (snd sg) <= String.length r0)%nat).
    { unfold sg. destruct r0 as [| c0 t]; [simpl; lia |].
      destruct (Ascii.eqb_spec c0 "-"%char) as [-> | Hn1]; [simpl; lia |].
      destruct (Ascii.eqb_spec c0 "+"%char) as [-> | Hn2]; [simpl; lia |].
      destruct c0 as [[] [] [] [] [] [] [] []]; simpl; try lia; congruence. }
    destruct sg as [eneg r']. simpl in Hsg.
    destruct (span_digits r') as [xs t] eqn:Es.
    pose proof (span_digits_length _ _ _ Es) as Hl.
    destruct xs; simpl in *; lia. }
  destruct ex as [x s3]. simpl in Hex.
  destruct frac; destruct x; intros [= <- <-]; lia.
Qed.

Lemma parse_members_consumes (scan : string -> Py.res (pyval * string)) (n : nat) :
  scans scan n ->
  forall (fuel : nat) (acc : list (string * pyval)) (s : string),
    (String.length s < fuel)%nat -> (String.length s <= n)%nat ->
    consumes (String "{" s) (parse_members scan fuel acc s).
Proof.
  intros Hscan. induction fuel as [| fuel IH]; intros acc s Hfuel Hn; [lia |].
  cbn [parse_members].
  destruct s as [| c r]; [simpl; discriminate |].
  destruct (code c =? 34); [| simpl; discriminate].
  pose proof (scanstring_consumes _ r (le_n _)) as Hkey.
  destruct (scanstring r) as [[key s1] | e]; [| exact Hkey].
  cbn [Py.bind consumes] in Hkey |- *.
  pose proof (skip_ws_length s1) as Hw1.
  destruct (skip_ws s1) as [| c1 s2] eqn:E1; [simpl; discriminate |].
  assert (Hcolon : forall X : Py.res (pyval * string),
             consumes (String "{" (String c r)) X ->
             consumes (String "{" (String c r))
               (match c1 with
                | ":"%char => X
                | _ => Py.Raise Py.JSONDecodeError
                end)).
  { intros X HX. destruct c1 as [[] [] [] [] [] [] [] []]; try (simpl; discriminate).
    exact HX. }
  simpl in Hw1, Hfuel, Hn.
  pose proof (skip_ws_length s2) as Hw2.
  pose proof (Hscan (skip_ws s2) ltac:(lia)) as Hval.
  apply Hcolon.
  destruct (scan (skip_ws s2)) as [[v s3] | e]; [| exact Hval].
  cbn [Py.bind consumes] in Hval |- *.
  pose proof (skip_ws_length s3) as Hw3.
  destruct (skip_ws s3) as [| c3 s4] eqn:E3; [simpl; discriminate |].
  simpl in Hw3.
  pose proof (skip_ws_length s4) as Hw4.
  assert (Hrec : consumes (String "{" (String c r))
                   (parse_members scan fuel (dict_set key v acc) (skip_ws s4))).
  { pose proof (IH (dict_set key v acc) (skip_ws s4) ltac:(lia) ltac:(lia)) as Hr.
    destruct (parse_members scan fuel _ _) as [[v' r'] | e]; simpl in Hr |- *;
      [lia | exact Hr]. }
  destruct c3 as [[] [] [] [] [] [] [] []]; try (simpl; discriminate);
    first [exact Hrec | simpl; lia].
Qed.

Lemma parse_elements_consumes (scan : string -> Py.res (pyval * string)) (n : nat) :
  scans scan n ->
  forall (fuel : nat) (acc : list pyval) (s : string),
    (String.length s < fuel)%nat -> (String.length s < n)%nat ->
    consumes (String "[" s) (parse_elements scan fuel acc s).
Proof.
  intros Hscan. induction fuel as [| fuel IH]; intros acc s Hfuel Hn; [lia |].
  cbn [parse_elements].
  pose proof (Hscan s Hn) as Hval.
  destruct (scan s) as [[v s1] | e]; [| exact Hval].
  cbn [Py.bind consumes] in Hval |- *.
  pose proof (skip_ws_length s1) as Hw1.
  destruct (skip_ws s1) as [| c1 s2] eqn:E1; [simpl; discriminate |].
  simpl in Hw1.
  pose proof (skip_ws_length s2) as Hw2.
  assert (Hrec : consumes (String "[" s)
                   (parse_elements scan fuel (acc ++ [v]) (skip_ws s2))).
  { pose proof (IH (acc ++ [v]) (skip_ws s2) ltac:(lia) ltac:(lia)) as Hr.
    destruct (parse_elements scan fuel _ _) as [[v' r'] | e]; simpl in Hr |- *;
      [lia | exact Hr]. }
  destruct c1 as [[] [] [] [] [] [] [] []]; try (simpl; discriminate);
    first [exact Hrec | simpl; lia].
Qed.

Lemma scan_once_consumes (fuel : nat) : scans (scan_once fuel) fuel.
Proof.
  induction fuel as [| fuel IH]; intros s Hlen; [lia |].
  cbn [scan_once].
  destruct s as [| c rest]; [simpl; discriminate |].
  simpl in Hlen.
  destruct (code c =? 34).
  { pose proof (scanstring_consumes _ rest (le_n _)) as Hs.
    destruct (scanstring rest) as [[str r] | e]; simpl in Hs |- *; [lia | exact Hs]. }
  destruct (code c =? 123).
  { pose proof (skip_ws_length rest) as Hw.
    assert (Hm : consumes (String c rest)
                   (parse_members (scan_once fuel) (S (String.length (skip_ws rest))) []
                      (skip_ws rest))).
    { pose proof (parse_members_consumes (scan_once fuel) fuel IH
                    (S (String.length (skip_ws rest))) [] (skip_ws rest)
                    ltac:(lia) ltac:(lia)) as Hr.
      destruct (parse_members _ _ _ _) as [[v r] | e]; simpl in Hr |- *; [lia | exact Hr]. }
    destruct (skip_ws rest) as [| c1 r1] eqn:E; [exact Hm |].
    simpl in Hw.
    destruct c1 as [[] [] [] [] [] [] [] []]; first [exact Hm | simpl; lia]. }
  destruct (code c =? 91).
  { pose proof (skip_ws_length rest) as Hw.
    assert (Hm : consumes (String c rest)
                   (parse_elements (scan_once fuel) (S (String.length (skip_ws rest))) []
                      (skip_ws rest))).
    { pose proof (parse_elements_consumes (scan_once fuel) fuel IH
                    (S (String.length (skip_ws rest))) [] (skip_ws rest)
                    ltac:(lia) ltac:(lia)) as Hr.
      destruct (parse_elements _ _ _ _) as [[v r] | e]; simpl in Hr |- *; [lia | exact Hr]. }
    destruct (skip_ws rest) as [| c1 r1] eqn:E; [exact Hm |].
    simpl in Hw.
    destruct c1 as [[] [] [] [] [] [] [] []]; first [exact Hm | simpl; lia]. }
  repeat match goal with
         | |- consumes _ (if ?b then Py.Ok (_, drop ?k _) else _) =>
             destruct b; [cbn [consumes]; rewrite drop_length; simpl; lia |]
         end.
  destruct (match_number (String c rest)) as [[v r] |] eqn:E; [| simpl; discriminate].
  apply match_number_consumes in E. exact E.
Qed.

(** [loads] never runs out of fuel. *)
Lemma loads_fuel_suffices (s : string) : loads s <> Py.Raise Py.RecursionError.
Proof.
  unfold loads.
  pose proof (skip_ws_length s) as Hw.
  pose proof (scan_once_consumes (S (String.length s)) (skip_ws s) ltac:(lia)) as Hs.
  destruct (scan_once _ _) as [[v rest] | e]; cbn [Py.bind].
  - destruct (skip_ws rest); discriminate.
  - simpl in Hs. congruence.
Qed.

End JsonFacts.

(** ** The order on floats *)

Lemma float_lt_finite (m1 e1 m2 e2 : Z) :
  float_lt (Finite m1 e1) (Finite m2 e2) = true <-> (float_Q m1 e1 < float_Q m2 e2)%Q.
Proof.
  unfold float_lt. rewrite negb_true_iff. split.
  - intros Hle. apply Qnot_le_lt. intros Hq.
    apply Qle_bool_iff in Hq. congruence.
  - intros Hlt. destruct (Qle_bool (float_Q m2 e2) (float_Q m1 e1)) eqn:E; [| reflexivity].
    apply Qle_bool_iff in E. exfalso. exact (Qlt_not_le _ _ Hlt E).
Qed.

(** The order is transitive and irreflexive, so a value below the floor is
    not above a ceiling that is itself above the floor. *)
Lemma float_lt_trans (a b c : pyfloat) :
  float_lt a b = true -> float_lt b c = true -> float_lt a c = true.
Proof.
  destruct a as [m1 e1 | | |], b as [m2 e2 | | |], c as [m3 e3 | | |];
    try (simpl; congruence).
  rewrite !float_lt_finite. apply Qlt_trans.
Qed.

Lemma float_lt_irrefl (a : pyfloat) : float_lt a a = false.
Proof.
  destruct a as [m e | | |]; try reflexivity.
  destruct (float_lt (Finite m e) (Finite m e)) eqn:E; [| reflexivity].
  apply float_lt_finite in E. exfalso. exact (Qlt_irrefl _ E).
Qed.

Lemma float_below_floor_not_above_ceiling (v lo hi : pyfloat) :
  float_lt lo hi = true -> float_lt v lo = true -> float_gt v hi = false.
Proof.
  intros Hlohi Hv. unfold float_gt.
  destruct (float_lt hi v) eqn:E; [| reflexivity].
  pose proof (float_lt_trans _ _ _ (float_lt_trans _ _ _ Hv Hlohi) E) as Hcyc.
  rewrite float_lt_irrefl in Hcyc. discriminate.
Qed.

(** ** The control rule *)

Section ControlRule.

Context {C : Type} `{PahoClient C}.
Variables (cc : ConfigConst) (rn : ResourceNames).

(** The command that a temperature reading triggers is handed to the
    actuator manager: the analysis is one [sendActuatorCommand] call. *)
Lemma analysis_sends_hvacCommand (self : DeviceDataManager.t C) (data : SensorData.t) :
  DeviceDataManager.handleTempChangeOnDevice self = true ->
  SensorData.typeID data = TEMP_SENSOR_TYPE cc ->
  DeviceDataManager._handleSensorDataAnalysis cc self data =
    DeviceDataManager.with_actuatorAdapterMgr self
      (fst (ActuatorAdapterManager.sendActuatorCommand cc
              (DeviceDataManager.actuatorAdapterMgr self)
              (Some (DeviceDataManager.hvacCommand cc self data)))).
Proof.
  intros Hon Hty. unfold DeviceDataManager._handleSensorDataAnalysis.
  unfold SensorData.getTypeID. rewrite Hon, Hty, Z.eqb_refl. cbn [andb].
  unfold DeviceDataManager.handleActuatorCommandMessage.
  destruct (ActuatorAdapterManager.sendActuatorCommand _ _ _) as [m r]. reflexivity.
Qed.

Lemma sendActuatorCommand_calls (m : ActuatorAdapterManager.t) (data : option ActuatorData.t) :
  ActuatorAdapterManager.calls (fst (ActuatorAdapterManager.sendActuatorCommand cc m data)) =
  ActuatorAdapterManager.calls m ++ [data].
Proof.
  unfold ActuatorAdapterManager.sendActuatorCommand.
  destruct data as [d |]; [| reflexivity].
  destruct (negb (ActuatorData.isResponseFlagEnabled d)); [| reflexivity].
  destruct (String.eqb _ _); [| reflexivity].
  repeat match goal with
         | |- context [if ?b then _ else _] => destruct b
         end;
    try reflexivity;
    unfold ActuatorAdapterManager.update;
    match goal with
    | |- context [match ?o with Some _ => _ | None => _ end] => destruct o
    end; reflexivity.
Qed.

(** Whatever the reading, the command is addressed to the HVAC actuator at
    the location of the reading, and is not a response. *)
Lemma hvacCommand_identity (self : DeviceDataManager.t C) (data : SensorData.t) :
  ActuatorData.name (DeviceDataManager.hvacCommand cc self data) = Some (HVAC_ACTUATOR_NAME cc)
  /\ ActuatorData.typeID (DeviceDataManager.hvacCommand cc self data) = HVAC_ACTUATOR_TYPE cc
  /\ ActuatorData.locationID (DeviceDataManager.hvacCommand cc self data) =
       SensorData.locationID data
  /\ ActuatorData.isResponse (DeviceDataManager.hvacCommand cc self data) = false.
Proof.
  unfold DeviceDataManager.hvacCommand.
  destruct (float_gt _ _); [| destruct (float_lt _ _)]; repeat split; reflexivity.
Qed.

End ControlRule.

(** C1. For a reading of temperature type, with local temperature handling
    enabled and floor < ceiling, the control rule hands exactly one command
    to the actuator manager.  The command has the fixed HVAC name and type
    and the location of the reading; it is ON with the ceiling as value
    when the reading is above the ceiling, ON with the floor as value when
    the reading is below the floor, and OFF with value 0.0 otherwise.
    Command and value depend on the reading's value, the floor and the
    ceiling only. *)
Theorem C1_control_rule {C : Type} `{PahoClient C} (cc : ConfigConst)
    (self : DeviceDataManager.t C) (data : SensorData.t) :
  SensorData.typeID data = TEMP_SENSOR_TYPE cc ->
  DeviceDataManager.handleTempChangeOnDevice self = true ->
  float_lt (DeviceDataManager.triggerHvacTempFloor self)
           (DeviceDataManager.triggerHvacTempCeiling self) = true ->
  let v := SensorData.value data in
  let floor := DeviceDataManager.triggerHvacTempFloor self in
  let ceiling := DeviceDataManager.triggerHvacTempCeiling self in
  let self' := DeviceDataManager._handleSensorDataAnalysis cc self data in
  exists cmd : ActuatorData.t,
    ActuatorAdapterManager.calls (DeviceDataManager.actuatorAdapterMgr self') =
      ActuatorAdapterManager.calls (DeviceDataManager.actuatorAdapterMgr self) ++ [Some cmd]
    /\ self' = DeviceDataManager.with_actuatorAdapterMgr self
                 (fst (ActuatorAdapterManager.sendActuatorCommand cc
                         (DeviceDataManager.actuatorAdapterMgr self) (Some cmd)))
    /\ ActuatorData.name cmd = Some (HVAC_ACTUATOR_NAME cc)
    /\ ActuatorData.typeID cmd = HVAC_ACTUATOR_TYPE cc
    /\ ActuatorData.locationID cmd = SensorData.locationID data
    /\ ActuatorData.isResponse cmd = false
    /\ (float_gt v ceiling = true ->
        ActuatorData.command cmd = COMMAND_ON cc /\ ActuatorData.value cmd = ceiling)
    /\ (float_lt v floor = true ->
        ActuatorData.command cmd = COMMAND_ON cc /\ ActuatorData.value cmd = floor)
    /\ (float_gt v ceiling = false -> float_lt v floor = false ->
        ActuatorData.command cmd = COMMAND_OFF cc /\ ActuatorData.value cmd = Finite 0 0)
    /\ (forall (other : DeviceDataManager.t C) (data' : SensorData.t),
          SensorData.value data' = v ->
          DeviceDataManager.triggerHvacTempFloor other = floor ->
          DeviceDataManager.triggerHvacTempCeiling other = ceiling ->
          ActuatorData.command (DeviceDataManager.hvacCommand cc other data') =
            ActuatorData.command cmd
          /\ ActuatorData.value (DeviceDataManager.hvacCommand cc other data') =
            ActuatorData.value cmd).
Proof.
  intros Hty Hon Hlt v floor ceiling self'.
  exists (DeviceDataManager.hvacCommand cc self data).
  assert (Hself' : self' = DeviceDataManager.with_actuatorAdapterMgr self
                 (fst (ActuatorAdapterManager.sendActuatorCommand cc
                         (DeviceDataManager.actuatorAdapterMgr self)
                         (Some (DeviceDataManager.hvacCommand cc self data)))))
    by (apply analysis_sends_hvacCommand; assumption).
  split; [rewrite Hself'; simpl; apply sendActuatorCommand_calls |].
  split; [exact Hself' |].
  pose proof (float_below_floor_not_above_ceiling v floor ceiling Hlt) as Hexcl.
  assert (Hcmd : forall (o : DeviceDataManager.t C) (d : SensorData.t),
             SensorData.value d = v ->
             DeviceDataManager.triggerHvacTempFloor o = floor ->
             DeviceDataManager.triggerHvacTempCeiling o = ceiling ->
             ActuatorData.command (DeviceDataManager.hvacCommand cc o d) =
               (if float_gt v ceiling then COMMAND_ON cc
                else if float_lt v floor then COMMAND_ON cc else COMMAND_OFF cc)
             /\ ActuatorData.value (DeviceDataManager.hvacCommand cc o d) =
               (if float_gt v ceiling then ceiling
                else if float_lt v floor then floor else Finite 0 0)).
  { intros o d Hv Hf Hc. unfold DeviceDataManager.hvacCommand, SensorData.getValue.
    rewrite Hv, Hf, Hc.
    destruct (float_gt v ceiling), (float_lt v floor); split; reflexivity. }
  destruct (Hcmd self data eq_refl eq_refl eq_refl) as [Hc Hv].
  destruct (hvacCommand_identity cc self data) as (Hn & Ht & Hl & Hr).
  split; [exact Hn |]. split; [exact Ht |]. split; [exact Hl |]. split; [exact Hr |].
  rewrite Hc, Hv. split; [| split; [| split]].
  - intros Ha. rewrite Ha. split; reflexivity.
  - intros Hb. rewrite (Hexcl Hb), Hb. split; reflexivity.
  - intros Ha Hb. rewrite Ha, Hb. split; reflexivity.
  - intros other data' Hv' Hf' Hc'. exact (Hcmd other data' Hv' Hf' Hc').
Qed.

(** The three readings of the specification, with floor 18.0 and ceiling
    20.0: 21.0 gives ON at 20.0. *)
Lemma C1_control_rule_witness :
  exists cmd : ActuatorData.t,
    ActuatorAdapterManager.calls
      (DeviceDataManager.actuatorAdapterMgr
         (DeviceDataManager._handleSensorDataAnalysis sample_cc sample_coordinator
            (temperature_reading (Some "TempSensor") (decimal 21 0)))) = [Some cmd]
    /\ ActuatorData.typeID cmd = 1001
    /\ ActuatorData.command cmd = 1
    /\ ActuatorData.value cmd = decimal 20 0.
Proof.
  destruct (C1_control_rule sample_cc sample_coordinator
              (temperature_reading (Some "TempSensor") (decimal 21 0))
              eq_refl eq_refl eq_refl)
    as (cmd & Hcalls & _ & _ & Hty & _ & _ & Habove & _).
  exists cmd. split; [exact Hcalls |]. split; [exact Hty |]. exact (Habove eq_refl).
Defined.

(** ** The actuator dispatch manager *)

(** C5. A command that is null, or has its response flag enabled, or is
    addressed to a location other than the device's, is answered with
    [None], and no backend is invoked for it. *)
Theorem C5_sendActuatorCommand_rejects (cc : ConfigConst) (self : ActuatorAdapterManager.t)
    (data : option ActuatorData.t) :
  (data = None
   \/ exists d : ActuatorData.t,
        data = Some d
        /\ (ActuatorData.isResponse d = true
            \/ ActuatorData.locationID d <> ActuatorAdapterManager.locationID self)) ->
  snd (ActuatorAdapterManager.sendActuatorCommand cc self data) = None
  /\ ActuatorAdapterManager.invocations
       (fst (ActuatorAdapterManager.sendActuatorCommand cc self data)) =
     ActuatorAdapterManager.invocations self.
Proof.
  intros [-> | (d & -> & Hrej)].
  - split; reflexivity.
  - unfold ActuatorAdapterManager.sendActuatorCommand, ActuatorData.isResponseFlagEnabled,
      ActuatorData.getLocationID.
    destruct Hrej as [Hresp | Hloc].
    + rewrite Hresp. split; reflexivity.
    + destruct (ActuatorData.isResponse d); [split; reflexivity |].
      cbn [negb ActuatorAdapterManager.record_call ActuatorAdapterManager.locationID].
      destruct (String.eqb_spec (ActuatorData.locationID d)
                  (ActuatorAdapterManager.locationID self)) as [Heq | _];
        [contradiction | split; reflexivity].
Qed.

(** A response sent as a command, and a command for another device, on a
    manager whose HVAC backend would answer. *)
Lemma C5_sendActuatorCommand_rejects_witness :
  (snd (ActuatorAdapterManager.sendActuatorCommand sample_cc sample_actuators
          (Some (ActuatorData.mk (Some "HvacActuator") 1001 sample_location 1 (decimal 20 0)
                   true 0))) = None
   /\ ActuatorAdapterManager.invocations
        (fst (ActuatorAdapterManager.sendActuatorCommand sample_cc sample_actuators
                (Some (ActuatorData.mk (Some "HvacActuator") 1001 sample_location 1
                         (decimal 20 0) true 0)))) = [])
  /\ (snd (ActuatorAdapterManager.sendActuatorCommand sample_cc sample_actuators
             (Some (ActuatorData.mk (Some "HvacActuator") 1001 "otherdevice" 1 (decimal 20 0)
                      false 0))) = None
      /\ ActuatorAdapterManager.invocations
           (fst (ActuatorAdapterManager.sendActuatorCommand sample_cc sample_actuators
                   (Some (ActuatorData.mk (Some "HvacActuator") 1001 "otherdevice" 1
                            (decimal 20 0) false 0)))) = []).
Proof.
  split.
  - apply (C5_sendActuatorCommand_rejects sample_cc sample_actuators).
    right. eexists. split; [reflexivity |]. left. reflexivity.
  - apply (C5_sendActuatorCommand_rejects sample_cc sample_actuators).
    right. eexists. split; [reflexivity |]. right. simpl. discriminate.
Defined.

(** ** The publish/subscribe connector *)

Section ConnectorProperties.

Context {C : Type} `{PahoClient C}.
Variable rn : ResourceNames.

(** [publishMessage] returns: nothing that the library raises escapes it.
    The call is recorded, and only the library client can change. *)
Lemma publishMessage_returns (self : MqttClientConnector.t C)
    (resource : option ResourceNameEnum) (msg : option string) (qos : Z) :
  exists (self' : MqttClientConnector.t C) (ok : bool),
    MqttClientConnector.publishMessage rn self resource msg qos = Py.Ok (self', ok)
    /\ MqttClientConnector.publishCalls self' =
         MqttClientConnector.publishCalls self ++ [(resource, msg, qos)]
    /\ MqttClientConnector.delivered self' = MqttClientConnector.delivered self
    /\ MqttClientConnector.dataMsgListener self' = MqttClientConnector.dataMsgListener self.
Proof.
  unfold MqttClientConnector.publishMessage.
  destruct resource as [r |]; [| eexists _, _; repeat split; reflexivity].
  destruct msg as [[| c m] |]; try (eexists _, _; repeat split; reflexivity).
  destruct (publish _ _ _ _) as [[mc' info] | e];
    [| eexists _, _; repeat split; reflexivity].
  destruct (wait_for_publish mc' info) as [mc'' | e];
    eexists _, _; repeat split; reflexivity.
Qed.

End ConnectorProperties.

(** The sample library client fails without a connection. *)
Lemma paho_fails_when_disconnected : fails_when_disconnected Paho.client.
Proof.
  intros c topic payload qos Hc. simpl in *. unfold Paho.client_publish.
  rewrite Hc. exists Py.RuntimeError. reflexivity.
Defined.

(** C4. [publishMessage] returns [False], and does not raise, when the
    resource or the payload is empty or [None]; it does the same when the
    library client holds no connection, the library failing the publish in
    that case; and no call of it raises. *)
Theorem C4_publishMessage_false {C : Type} `{PahoClient C} (rn : ResourceNames)
    (self : MqttClientConnector.t C) (resource : option ResourceNameEnum)
    (msg : option string) (qos : Z) :
  (resource = None \/ Py.truthy_str msg = false ->
   exists self', MqttClientConnector.publishMessage rn self resource msg qos
                 = Py.Ok (self', false))
  /\ (fails_when_disconnected C ->
      is_connected (MqttClientConnector.mc self) = false ->
      exists self', MqttClientConnector.publishMessage rn self resource msg qos
                    = Py.Ok (self', false))
  /\ (exists self' ok, MqttClientConnector.publishMessage rn self resource msg qos
                       = Py.Ok (self', ok)).
Proof.
  assert (Hguard : resource = None \/ Py.truthy_str msg = false ->
                   exists self', MqttClientConnector.publishMessage rn self resource msg qos
                                 = Py.Ok (self', false)).
  { unfold MqttClientConnector.publishMessage.
    intros [-> | Hmsg]; [eexists; reflexivity |].
    destruct resource as [r |]; [| eexists; reflexivity].
    destruct msg as [[| c m] |]; try discriminate; eexists; reflexivity. }
  split; [exact Hguard |]. split.
  - intros Hlib Hconn.
    destruct resource as [r |]; [| apply Hguard; left; reflexivity].
    destruct msg as [[| c m] |]; try (apply Hguard; right; reflexivity).
    unfold MqttClientConnector.publishMessage.
    cbn [MqttClientConnector.mc MqttClientConnector.record_publish].
    specialize (Hlib (MqttClientConnector.mc self) (value rn r) (String c m) qos Hconn).
    destruct (publish _ _ _ _) as [[mc' info] | e]; [| eexists; reflexivity].
    destruct Hlib as [e He]. rewrite He. eexists; reflexivity.
  - destruct (publishMessage_returns rn self resource msg qos) as (self' & ok & Hp & _).
    exists self', ok. exact Hp.
Qed.

(** A connector whose client is not connected, asked to publish a sensor
    message, and a connected one asked to publish an empty payload. *)
Lemma C4_publishMessage_false_witness :
  (exists self', MqttClientConnector.publishMessage sample_rn (sample_connector true)
                   (Some CDA_SENSOR_MSG_RESOURCE) (Some EmptyString) 0 = Py.Ok (self', false))
  /\ (exists self', MqttClientConnector.publishMessage sample_rn (sample_connector false)
                      (Some CDA_SENSOR_MSG_RESOURCE) (Some "{}"%string) 0
                    = Py.Ok (self', false)).
Proof.
  split.
  - apply (proj1 (C4_publishMessage_false sample_rn (sample_connector true)
                    (Some CDA_SENSOR_MSG_RESOURCE) (Some EmptyString) 0)).
    right. reflexivity.
  - apply (proj1 (proj2 (C4_publishMessage_false sample_rn (sample_connector false)
                           (Some CDA_SENSOR_MSG_RESOURCE) (Some "{}"%string) 0))).
    + exact paho_fails_when_disconnected.
    + reflexivity.
Defined.

(** C8. An inbound message whose topic does not resolve to a resource name
    (the lookup returns [None] or raises) never reaches the listener:
    [onMessage] decodes the payload and leaves the connector as it was, the
    record of listener calls included. *)
Theorem C8_onMessage_unresolved_topic_dropped {C : Type} `{PahoClient C}
    (rn : ResourceNames) (self : MqttClientConnector.t C) (msg : MQTTMessage) :
  (forall r : ResourceNameEnum, getResourceNameByValue rn (topic msg) <> Py.Ok (Some r)) ->
  MqttClientConnector.onMessage rn self msg =
    (let* _ := utf8_decode (payload msg) in Py.Ok self)
  /\ (forall self', MqttClientConnector.onMessage rn self msg = Py.Ok self' ->
        MqttClientConnector.delivered self' = MqttClientConnector.delivered self).
Proof.
  intros Hun.
  assert (Hon : MqttClientConnector.onMessage rn self msg =
                (let* _ := utf8_decode (payload msg) in Py.Ok self)).
  { unfold MqttClientConnector.onMessage.
    destruct (utf8_decode (payload msg)) as [p | e]; [| reflexivity].
    cbn [Py.bind].
    destruct (MqttClientConnector.dataMsgListener self); [| reflexivity].
    destruct (getResourceNameByValue rn (topic msg)) as [[r |] | e] eqn:E;
      [exfalso; exact (Hun r eq_refl) | reflexivity | reflexivity]. }
  split; [exact Hon |].
  intros self' Hok. rewrite Hon in Hok.
  destruct (utf8_decode (payload msg)); cbn [Py.bind] in Hok; [| discriminate].
  injection Hok as <-. reflexivity.
Qed.

(** A message on a topic that is no resource name, with a listener
    registered. *)
Lemma C8_onMessage_unresolved_topic_dropped_witness :
  MqttClientConnector.onMessage sample_rn (sample_connector true)
    {| topic := "PIOT/Unknown/Topic"; payload := "{}" |} = Py.Ok (sample_connector true).
Proof.
  apply (proj1 (C8_onMessage_unresolved_topic_dropped sample_rn (sample_connector true)
                  {| topic := "PIOT/Unknown/Topic"; payload := "{}" |}
                  ltac:(intros r; destruct r; discriminate))).
Defined.

(** ** The coordinator: ingest operations *)

Section CoordinatorProperties.

Context {C : Type} `{PahoClient C}.
Variables (cc : ConfigConst) (rn : ResourceNames).

(** What the upstream relay changes: the MQTT connector, when there is one,
    receives one [publishMessage] call; the caches and the actuator manager
    are left alone. *)
Lemma upstream_relays (self : DeviceDataManager.t C) (resource : ResourceNameEnum)
    (msg : string) :
  exists self',
    DeviceDataManager._handleUpstreamTransmission cc rn self resource msg = Py.Ok self'
    /\ DeviceDataManager.latestSensorDataCache self' = DeviceDataManager.latestSensorDataCache self
    /\ DeviceDataManager.latestActuatorDataCache self' =
         DeviceDataManager.latestActuatorDataCache self
    /\ DeviceDataManager.latestSystemPerfDataCache self' =
         DeviceDataManager.latestSystemPerfDataCache self
    /\ DeviceDataManager.actuatorAdapterMgr self' = DeviceDataManager.actuatorAdapterMgr self
    /\ match DeviceDataManager.mqttClient self with
       | Some client =>
           exists client',
             DeviceDataManager.mqttClient self' = Some client'
             /\ MqttClientConnector.publishCalls client' =
                  MqttClientConnector.publishCalls client
                    ++ [(Some resource, Some msg, DEFAULT_QOS cc)]
       | None => DeviceDataManager.mqttClient self' = None
       end.
Proof.
  unfold DeviceDataManager._handleUpstreamTransmission.
  destruct (DeviceDataManager.mqttClient self) as [client |] eqn:Hclient.
  - destruct (publishMessage_returns rn client (Some resource) (Some msg) (DEFAULT_QOS cc))
      as (client' & ok & Hpub & Hcalls & _).
    rewrite Hpub. cbn [Py.bind].
    exists (DeviceDataManager.with_mqttClient self client').
    split; [destruct (DeviceDataManager.coapClient _); reflexivity |].
    repeat split; try reflexivity.
    exists client'. split; [reflexivity | exact Hcalls].
  - cbn [Py.bind]. exists self.
    split; [destruct (DeviceDataManager.coapClient _); reflexivity |].
    repeat split; try reflexivity. exact Hclient.
Qed.

(** The analysis of a reading touches the actuator manager only. *)
Lemma analysis_frame (self : DeviceDataManager.t C) (data : SensorData.t) :
  exists m,
    DeviceDataManager._handleSensorDataAnalysis cc self data =
      DeviceDataManager.with_actuatorAdapterMgr self m.
Proof.
  unfold DeviceDataManager._handleSensorDataAnalysis,
    DeviceDataManager.handleActuatorCommandMessage.
  destruct (_ && _).
  - destruct (ActuatorAdapterManager.sendActuatorCommand _ _ _) as [m r].
    exists m. reflexivity.
  - exists (DeviceDataManager.actuatorAdapterMgr self). destruct self; reflexivity.
Qed.

Lemma handleSensorMessage_returns (self : DeviceDataManager.t C) (data : SensorData.t) :
  exists self',
    DeviceDataManager.handleSensorMessage cc rn self (Some data) = Py.Ok (self', true)
    /\ DeviceDataManager.latestSensorDataCache self' =
         cached (SensorData.name data) data (DeviceDataManager.latestSensorDataCache self)
    /\ DeviceDataManager.latestActuatorDataCache self' =
         DeviceDataManager.latestActuatorDataCache self
    /\ DeviceDataManager.latestSystemPerfDataCache self' =
         DeviceDataManager.latestSystemPerfDataCache self
    /\ match DeviceDataManager.mqttClient self with
       | Some client =>
           exists client',
             DeviceDataManager.mqttClient self' = Some client'
             /\ MqttClientConnector.publishCalls client' =
                  MqttClientConnector.publishCalls client
                    ++ [(Some CDA_SENSOR_MSG_RESOURCE, Some (encoded (SensorData.vars data)),
                         DEFAULT_QOS cc)]
       | None => DeviceDataManager.mqttClient self' = None
       end.
Proof.
  unfold DeviceDataManager.handleSensorMessage.
  set (self1 := match SensorData.getName data with
                | Some (String _ _ as name) =>
                    DeviceDataManager.with_latestSensorDataCache self
                      (<[name := data]> (DeviceDataManager.latestSensorDataCache self))
                | _ => self
                end).
  assert (H1 : DeviceDataManager.latestSensorDataCache self1 =
               cached (SensorData.name data) data (DeviceDataManager.latestSensorDataCache self)
               /\ DeviceDataManager.latestActuatorDataCache self1 =
                    DeviceDataManager.latestActuatorDataCache self
               /\ DeviceDataManager.latestSystemPerfDataCache self1 =
                    DeviceDataManager.latestSystemPerfDataCache self
               /\ DeviceDataManager.mqttClient self1 = DeviceDataManager.mqttClient self).
  { unfold self1, SensorData.getName, cached.
    destruct (SensorData.name data) as [[| c n] |]; repeat split; reflexivity. }
  destruct H1 as (Hs1 & Ha1 & Hp1 & Hm1).
  destruct (analysis_frame self1 data) as [m Hm]. rewrite Hm.
  cbn [DataUtil.sensorDataToJson DataUtil._generateJsonData DataUtil.encodeToUtf8
         DataUtil.new Py.bind].
  destruct (upstream_relays (DeviceDataManager.with_actuatorAdapterMgr self1 m)
              CDA_SENSOR_MSG_RESOURCE (encoded (SensorData.vars data)))
    as (self' & Hup & Hs & Ha & Hp & _ & Hq).
  unfold encoded in Hup. rewrite Hup. cbn [Py.bind].
  exists self'. split; [reflexivity |].
  cbn [DeviceDataManager.with_actuatorAdapterMgr DeviceDataManager.latestSensorDataCache
         DeviceDataManager.latestActuatorDataCache DeviceDataManager.latestSystemPerfDataCache
         DeviceDataManager.mqttClient] in Hs, Ha, Hp, Hq.
  rewrite Hs, Ha, Hp, Hs1, Ha1, Hp1. repeat split; try reflexivity.
  rewrite Hm1 in Hq. exact Hq.
Qed.

Lemma handleActuatorCommandResponse_returns (self : DeviceDataManager.t C)
    (data : ActuatorData.t) :
  exists self',
    DeviceDataManager.handleActuatorCommandResponse cc rn self (Some data) = Py.Ok (self', true)
    /\ DeviceDataManager.latestActuatorDataCache self' =
         cached (ActuatorData.name data) data (DeviceDataManager.latestActuatorDataCache self)
    /\ DeviceDataManager.latestSensorDataCache self' =
         DeviceDataManager.latestSensorDataCache self
    /\ DeviceDataManager.latestSystemPerfDataCache self' =
         DeviceDataManager.latestSystemPerfDataCache self
    /\ match DeviceDataManager.mqttClient self with
       | Some client =>
           exists client',
             DeviceDataManager.mqttClient self' = Some client'
             /\ MqttClientConnector.publishCalls client' =
                  MqttClientConnector.publishCalls client
                    ++ [(Some CDA_ACTUATOR_RESPONSE_MSG_RESOURCE,
                         Some (encoded (ActuatorData.vars data)), DEFAULT_QOS cc)]
       | None => DeviceDataManager.mqttClient self' = None
       end.
Proof.
  unfold DeviceDataManager.handleActuatorCommandResponse.
  set (self1 := match ActuatorData.getName data with
                | Some (String _ _ as name) =>
                    DeviceDataManager.with_latestActuatorDataCache self
                      (<[name := data]> (DeviceDataManager.latestActuatorDataCache self))
                | _ => self
                end).
  assert (H1 : DeviceDataManager.latestActuatorDataCache self1 =
               cached (ActuatorData.name data) data
                 (DeviceDataManager.latestActuatorDataCache self)
               /\ DeviceDataManager.latestSensorDataCache self1 =
                    DeviceDataManager.latestSensorDataCache self
               /\ DeviceDataManager.latestSystemPerfDataCache self1 =
                    DeviceDataManager.latestSystemPerfDataCache self
               /\ DeviceDataManager.mqttClient self1 = DeviceDataManager.mqttClient self).
  { unfold self1, ActuatorData.getName, cached.
    destruct (ActuatorData.name data) as [[| c n] |]; repeat split; reflexivity. }
  destruct H1 as (Ha1 & Hs1 & Hp1 & Hm1).
  cbn [DataUtil.actuatorDataToJson DataUtil._generateJsonData DataUtil.encodeToUtf8
         DataUtil.new Py.bind].
  destruct (upstream_relays self1 CDA_ACTUATOR_RESPONSE_MSG_RESOURCE
              (encoded (ActuatorData.vars data)))
    as (self' & Hup & Hs & Ha & Hp & _ & Hq).
  unfold encoded in Hup. rewrite Hup. cbn [Py.bind].
  exists self'. split; [reflexivity |].
  rewrite Hs, Ha, Hp, Hs1, Ha1, Hp1. repeat split; try reflexivity.
  rewrite Hm1 in Hq. exact Hq.
Qed.

Lemma handleSystemPerformanceMessage_returns (self : DeviceDataManager.t C)
    (data : SystemPerformanceData.t) :
  exists self',
    DeviceDataManager.handleSystemPerformanceMessage cc rn self (Some data)
      = Py.Ok (self', true)
    /\ DeviceDataManager.latestSystemPerfDataCache self' =
         cached (SystemPerformanceData.name data) data
           (DeviceDataManager.latestSystemPerfDataCache self)
    /\ DeviceDataManager.latestSensorDataCache self' =
         DeviceDataManager.latestSensorDataCache self
    /\ DeviceDataManager.latestActuatorDataCache self' =
         DeviceDataManager.latestActuatorDataCache self
    /\ match DeviceDataManager.mqttClient self with
       | Some client =>
           exists client',
             DeviceDataManager.mqttClient self' = Some client'
             /\ MqttClientConnector.publishCalls client' =
                  MqttClientConnector.publishCalls client
                    ++ [(Some CDA_SYSTEM_PERF_MSG_RESOURCE,
                         Some (encoded (SystemPerformanceData.vars data)), DEFAULT_QOS cc)]
       | None => DeviceDataManager.mqttClient self' = None
       end.
Proof.
  unfold DeviceDataManager.handleSystemPerformanceMessage.
  set (self1 := match SystemPerformanceData.getName data with
                | Some (String _ _ as name) =>
                    DeviceDataManager.with_latestSystemPerfDataCache self
                      (<[name := data]> (DeviceDataManager.latestSystemPerfDataCache self))
                | _ => self
                end).
  assert (H1 : DeviceDataManager.latestSystemPerfDataCache self1 =
               cached (SystemPerformanceData.name data) data
                 (DeviceDataManager.latestSystemPerfDataCache self)
               /\ DeviceDataManager.latestSensorDataCache self1 =
                    DeviceDataManager.latestSensorDataCache self
               /\ DeviceDataManager.latestActuatorDataCache self1 =
                    DeviceDataManager.latestActuatorDataCache self
               /\ DeviceDataManager.mqttClient self1 = DeviceDataManager.mqttClient self).
  { unfold self1, SystemPerformanceData.getName, cached.
    destruct (SystemPerformanceData.name data) as [[| c n] |]; repeat split; reflexivity. }
  destruct H1 as (Hp1 & Hs1 & Ha1 & Hm1).
  cbn [DataUtil.systemPerformanceDataToJson DataUtil._generateJsonData
         DataUtil.encodeToUtf8 DataUtil.new Py.bind].
  destruct (upstream_relays self1 CDA_SYSTEM_PERF_MSG_RESOURCE
              (encoded (SystemPerformanceData.vars data)))
    as (self' & Hup & Hs & Ha & Hp & _ & Hq).
  unfold encoded in Hup. rewrite Hup. cbn [Py.bind].
  exists self'. split; [reflexivity |].
  rewrite Hs, Ha, Hp, Hs1, Ha1, Hp1. repeat split; try reflexivity.
  rewrite Hm1 in Hq. exact Hq.
Qed.

End CoordinatorProperties.

(** C6. Ingesting a null sensor reading returns [False] and leaves the
    coordinator exactly as it was: the three caches, the record of commands
    handed to the actuator manager (no control rule ran) and the record of
    publish calls of the connector (no publish was attempted). *)
Theorem C6_handleSensorMessage_null {C : Type} `{PahoClient C} (cc : ConfigConst)
    (rn : ResourceNames) (self : DeviceDataManager.t C) :
  exists self',
    DeviceDataManager.handleSensorMessage cc rn self None = Py.Ok (self', false)
    /\ self' = self
    /\ DeviceDataManager.latestSensorDataCache self' =
         DeviceDataManager.latestSensorDataCache self
    /\ DeviceDataManager.latestActuatorDataCache self' =
         DeviceDataManager.latestActuatorDataCache self
    /\ DeviceDataManager.latestSystemPerfDataCache self' =
         DeviceDataManager.latestSystemPerfDataCache self
    /\ ActuatorAdapterManager.calls (DeviceDataManager.actuatorAdapterMgr self') =
         ActuatorAdapterManager.calls (DeviceDataManager.actuatorAdapterMgr self)
    /\ option_map MqttClientConnector.publishCalls (DeviceDataManager.mqttClient self') =
         option_map MqttClientConnector.publishCalls (DeviceDataManager.mqttClient self).
Proof.
  exists self. repeat split; reflexivity.
Qed.

(** ** The coordinator: the sensor cache *)

Lemma lookup_cached {A : Type} (X : string) (n : option string) (data : A)
    (cache : gmap string A) :
  X <> EmptyString ->
  cached n data cache !! X = if decide (n = Some X) then Some data else cache !! X.
Proof.
  intros HX. unfold cached. destruct n as [[| c n] |].
  - destruct (decide (Some EmptyString = Some X)) as [E | _]; [| reflexivity].
    injection E as E. congruence.
  - rewrite lookup_insert. destruct (decide (String c n = X)) as [-> | Hne].
    + rewrite decide_True by reflexivity. reflexivity.
    + rewrite decide_False by congruence. reflexivity.
  - rewrite decide_False by discriminate. reflexivity.
Qed.

Lemma getLatestSensorDataFromCache_named {C : Type} `{PahoClient C}
    (self : DeviceDataManager.t C) (X : string) :
  X <> EmptyString ->
  DeviceDataManager.getLatestSensorDataFromCache self (Some X) =
  DeviceDataManager.latestSensorDataCache self !! X.
Proof.
  intros HX. destruct X; [contradiction | reflexivity].
Qed.

(** After any run of ingests, the cache answers for a non-empty name with
    the last reading that carried it. *)
Lemma handleSensorMessages_latest {C : Type} `{PahoClient C} (cc : ConfigConst)
    (rn : ResourceNames) (X : string) (l : list (option SensorData.t)) :
  X <> EmptyString ->
  forall self : DeviceDataManager.t C,
  exists self',
    DeviceDataManager.handleSensorMessages cc rn self l = Py.Ok self'
    /\ DeviceDataManager.getLatestSensorDataFromCache self' (Some X) =
         last_named X l (DeviceDataManager.getLatestSensorDataFromCache self (Some X)).
Proof.
  intros HX. induction l as [| [r |] l IH]; intros self.
  - exists self. split; reflexivity.
  - destruct (handleSensorMessage_returns cc rn self r) as (self1 & Hret & Hcache & _).
    destruct (IH self1) as (self' & Hrun & Hlook).
    exists self'. cbn [DeviceDataManager.handleSensorMessages last_named].
    rewrite Hret. cbn [Py.bind]. split; [exact Hrun |].
    rewrite Hlook. f_equal.
    rewrite !getLatestSensorDataFromCache_named by exact HX.
    rewrite Hcache. apply lookup_cached. exact HX.
  - destruct (IH self) as (self' & Hrun & Hlook).
    exists self'. cbn [DeviceDataManager.handleSensorMessages last_named
                         DeviceDataManager.handleSensorMessage Py.bind].
    split; [exact Hrun | exact Hlook].
Qed.

(** The claim as first written fails for the empty name: two readings
    named by the empty string are ingested, and the lookup of that name
    answers [None], not the second reading. *)
Lemma C7_empty_name_counterexample :
  exists self1 self2,
    DeviceDataManager.handleSensorMessage sample_cc sample_rn sample_coordinator
      (Some (temperature_reading (Some EmptyString) (decimal 19 0))) = Py.Ok (self1, true)
    /\ DeviceDataManager.handleSensorMessage sample_cc sample_rn self1
         (Some (temperature_reading (Some EmptyString) (decimal 21 0))) = Py.Ok (self2, true)
    /\ DeviceDataManager.getLatestSensorDataFromCache self2 (Some EmptyString) = None
    /\ DeviceDataManager.getLatestSensorDataFromCache self2 (Some EmptyString)
         <> Some (temperature_reading (Some EmptyString) (decimal 21 0)).
Proof.
  destruct (handleSensorMessage_returns sample_cc sample_rn sample_coordinator
              (temperature_reading (Some EmptyString) (decimal 19 0))) as (self1 & H1 & _).
  destruct (handleSensorMessage_returns sample_cc sample_rn self1
              (temperature_reading (Some EmptyString) (decimal 21 0))) as (self2 & H2 & _).
  exists self1, self2. split; [exact H1 |]. split; [exact H2 |].
  split; [reflexivity | discriminate].
Qed.

(** C7 (amended). For every non-empty name X: after two sensor readings
    both named X are ingested in sequence, the lookup of X in the sensor
    cache answers with the second reading; and after any sequence of
    ingests (null readings included) the lookup of X answers with the most
    recently ingested reading named X, or with what the cache held for X
    before when the sequence has none. *)
Theorem C7_sensor_cache_holds_latest {C : Type} `{PahoClient C} (cc : ConfigConst)
    (rn : ResourceNames) (self : DeviceDataManager.t C) (X : string) :
  X <> EmptyString ->
  (forall r1 r2 : SensorData.t,
     SensorData.name r1 = Some X -> SensorData.name r2 = Some X ->
     exists self1 self2,
       DeviceDataManager.handleSensorMessage cc rn self (Some r1) = Py.Ok (self1, true)
       /\ DeviceDataManager.handleSensorMessage cc rn self1 (Some r2) = Py.Ok (self2, true)
       /\ DeviceDataManager.getLatestSensorDataFromCache self2 (Some X) = Some r2)
  /\ (forall l : list (option SensorData.t),
        exists self',
          DeviceDataManager.handleSensorMessages cc rn self l = Py.Ok self'
          /\ DeviceDataManager.getLatestSensorDataFromCache self' (Some X) =
               last_named X l (DeviceDataManager.getLatestSensorDataFromCache self (Some X))).
Proof.
  intros HX. split.
  - intros r1 r2 Hn1 Hn2.
    destruct (handleSensorMessage_returns cc rn self r1) as (self1 & H1 & _).
    destruct (handleSensorMessage_returns cc rn self1 r2) as (self2 & H2 & Hcache & _).
    exists self1, self2. split; [exact H1 |]. split; [exact H2 |].
    rewrite getLatestSensorDataFromCache_named by exact HX.
    rewrite Hcache, lookup_cached by exact HX.
    rewrite decide_True by exact Hn2. reflexivity.
  - intros l. apply handleSensorMessages_latest. exact HX.
Qed.

(** Two readings named "TempSensor" on the sample coordinator. *)
Lemma C7_sensor_cache_holds_latest_witness :
  exists self1 self2,
    DeviceDataManager.handleSensorMessage sample_cc sample_rn sample_coordinator
      (Some (temperature_reading (Some "TempSensor"%string) (decimal 19 0)))
      = Py.Ok (self1, true)
    /\ DeviceDataManager.handleSensorMessage sample_cc sample_rn self1
         (Some (temperature_reading (Some "TempSensor"%string) (decimal 21 0)))
       = Py.Ok (self2, true)
    /\ DeviceDataManager.getLatestSensorDataFromCache self2 (Some "TempSensor"%string)
       = Some (temperature_reading (Some "TempSensor"%string) (decimal 21 0)).
Proof.
  apply (proj1 (C7_sensor_cache_holds_latest sample_cc sample_rn sample_coordinator
                  "TempSensor" ltac:(discriminate))
           (temperature_reading (Some "TempSensor"%string) (decimal 19 0))
           (temperature_reading (Some "TempSensor"%string) (decimal 21 0))
           eq_refl eq_refl).
Defined.

(** ** The coordinator: records without a name *)

(** C10. A non-null record whose name is [None] or empty still makes each
    ingest operation return [True] and still goes upstream (the connector,
    when there is one, receives the publish call with the record's JSON
    text), while none of the three caches changes. *)
Theorem C10_unnamed_record_relayed_not_cached {C : Type} `{PahoClient C}
    (cc : ConfigConst) (rn : ResourceNames) (self : DeviceDataManager.t C) :
  let unchanged (self' : DeviceDataManager.t C) :=
    DeviceDataManager.latestSensorDataCache self' =
      DeviceDataManager.latestSensorDataCache self
    /\ DeviceDataManager.latestActuatorDataCache self' =
         DeviceDataManager.latestActuatorDataCache self
    /\ DeviceDataManager.latestSystemPerfDataCache self' =
         DeviceDataManager.latestSystemPerfDataCache self in
  let published (self' : DeviceDataManager.t C) (resource : ResourceNameEnum)
      (msg : string) :=
    match DeviceDataManager.mqttClient self with
    | Some client =>
        exists client',
          DeviceDataManager.mqttClient self' = Some client'
          /\ MqttClientConnector.publishCalls client' =
               MqttClientConnector.publishCalls client
                 ++ [(Some resource, Some msg, DEFAULT_QOS cc)]
    | None => DeviceDataManager.mqttClient self' = None
    end in
  (forall data : SensorData.t,
     Py.truthy_str (SensorData.name data) = false ->
     exists self',
       DeviceDataManager.handleSensorMessage cc rn self (Some data) = Py.Ok (self', true)
       /\ unchanged self'
       /\ published self' CDA_SENSOR_MSG_RESOURCE (encoded (SensorData.vars data)))
  /\ (forall data : ActuatorData.t,
        Py.truthy_str (ActuatorData.name data) = false ->
        exists self',
          DeviceDataManager.handleActuatorCommandResponse cc rn self (Some data)
            = Py.Ok (self', true)
          /\ unchanged self'
          /\ published self' CDA_ACTUATOR_RESPONSE_MSG_RESOURCE
               (encoded (ActuatorData.vars data)))
  /\ (forall data : SystemPerformanceData.t,
        Py.truthy_str (SystemPerformanceData.name data) = false ->
        exists self',
          DeviceDataManager.handleSystemPerformanceMessage cc rn self (Some data)
            = Py.Ok (self', true)
          /\ unchanged self'
          /\ published self' CDA_SYSTEM_PERF_MSG_RESOURCE
               (encoded (SystemPerformanceData.vars data))).
Proof.
  intros unchanged published. unfold unchanged, published.
  assert (Hcached : forall (A : Type) (n : option string) (d : A) (m : gmap string A),
             Py.truthy_str n = false -> cached n d m = m).
  { intros A n d m Hn. destruct n as [[| c n] |]; [reflexivity | discriminate | reflexivity]. }
  split; [| split].
  - intros data Hname.
    destruct (handleSensorMessage_returns cc rn self data)
      as (self' & Hret & Hs & Ha & Hp & Hq).
    rewrite Hcached in Hs by exact Hname.
    exists self'. repeat split; assumption.
  - intros data Hname.
    destruct (handleActuatorCommandResponse_returns cc rn self data)
      as (self' & Hret & Ha & Hs & Hp & Hq).
    rewrite Hcached in Ha by exact Hname.
    exists self'. repeat split; assumption.
  - intros data Hname.
    destruct (handleSystemPerformanceMessage_returns cc rn self data)
      as (self' & Hret & Hp & Hs & Ha & Hq).
    rewrite Hcached in Hp by exact Hname.
    exists self'. repeat split; assumption.
Qed.

(** A temperature reading without a name on the sample coordinator: [True]
    is returned, and the sensor cache stays empty. *)
Lemma C10_unnamed_record_relayed_not_cached_witness :
  exists self',
    DeviceDataManager.handleSensorMessage sample_cc sample_rn sample_coordinator
      (Some (temperature_reading None (decimal 21 0))) = Py.Ok (self', true)
    /\ DeviceDataManager.latestSensorDataCache self' = ∅.
Proof.
  destruct (proj1 (C10_unnamed_record_relayed_not_cached sample_cc sample_rn
                     sample_coordinator)
              (temperature_reading None (decimal 21 0)) eq_refl)
    as (self' & Hret & (Hs & _) & _).
  exists self'. split; [exact Hret | exact Hs].
Defined.

(** ** The codec: malformed text *)

Section Decoders.

Variable cc : ConfigConst.

(** A decoder answers [None] for an empty or missing text and for no
    other. *)
Lemma jsonToActuatorData_none (jsonData : option string) (useDecForFloat : bool) :
  DataUtil.jsonToActuatorData cc jsonData useDecForFloat = Py.Ok None
  <-> Py.truthy_str jsonData = false.
Proof.
  unfold DataUtil.jsonToActuatorData.
  destruct jsonData as [[| c s] |]; cbn [Py.truthy_str]; split; try reflexivity;
    try discriminate.
  destruct (DataUtil._formatDataAndLoadDictionary _ _) as [j | e]; cbn [Py.bind];
    [| discriminate].
  destruct (DataUtil._updateIotData _ _); cbn [Py.bind]; discriminate.
Qed.

Lemma jsonToSensorData_none (now : string) (jsonData : option string)
    (useDecForFloat : bool) :
  DataUtil.jsonToSensorData cc now jsonData useDecForFloat = Py.Ok None
  <-> Py.truthy_str jsonData = false.
Proof.
  unfold DataUtil.jsonToSensorData.
  destruct jsonData as [[| c s] |]; cbn [Py.truthy_str]; split; try reflexivity;
    try discriminate.
  destruct (DataUtil._formatDataAndLoadDictionary _ _) as [j | e]; cbn [Py.bind];
    [| discriminate].
  destruct (DataUtil._updateIotData _ _); cbn [Py.bind]; discriminate.
Qed.

Lemma jsonToSystemPerformanceData_none (now : string) (jsonData : option string)
    (useDecForFloat : bool) :
  DataUtil.jsonToSystemPerformanceData cc now jsonData useDecForFloat = Py.Ok None
  <-> Py.truthy_str jsonData = false.
Proof.
  unfold DataUtil.jsonToSystemPerformanceData.
  destruct jsonData as [[| c s] |]; cbn [Py.truthy_str]; split; try reflexivity;
    try discriminate.
  destruct (DataUtil._formatDataAndLoadDictionary _ _) as [j | e]; cbn [Py.bind];
    [| discriminate].
  destruct (DataUtil._updateIotData _ _); cbn [Py.bind]; discriminate.
Qed.

Lemma load_raises (text : string) (useDecForFloat : bool) :
  Json.loads (DataUtil.pythonToJsonText text) = Py.Raise Py.JSONDecodeError ->
  DataUtil._formatDataAndLoadDictionary text useDecForFloat = Py.Raise Py.JSONDecodeError.
Proof.
  intros Hbad. unfold DataUtil._formatDataAndLoadDictionary.
  destruct useDecForFloat; exact Hbad.
Qed.

End Decoders.

(** The claim as first written fails on the text [not json]: [json.loads]
    rejects it, and each decoder raises that error instead of returning
    [None]. *)
Lemma C3_malformed_text_counterexample :
  Json.loads "not json" = Py.Raise Py.JSONDecodeError
  /\ DataUtil.jsonToActuatorData sample_cc (Some "not json"%string) false
       = Py.Raise Py.JSONDecodeError
  /\ DataUtil.jsonToSensorData sample_cc sample_time (Some "not json"%string) false
       = Py.Raise Py.JSONDecodeError
  /\ DataUtil.jsonToSystemPerformanceData sample_cc sample_time (Some "not json"%string) false
       = Py.Raise Py.JSONDecodeError
  /\ DataUtil.jsonToActuatorData sample_cc (Some "not json"%string) false <> Py.Ok None.
Proof.
  repeat split; try (vm_compute; reflexivity). discriminate.
Qed.

(** C3 (amended). For every non-empty text that [json.loads] rejects once
    the codec has rewritten its quotes and booleans, each of the three
    decoders raises the decode error to its caller; the coordinator's
    [_handleIncomingDataAnalysis], which calls [jsonToActuatorData] inside
    [try ... except], catches it and leaves the coordinator unchanged.  A
    decoder returns [None] for an empty or missing text, and only then. *)
Theorem C3_malformed_text_raises {C : Type} `{PahoClient C} (cc : ConfigConst)
    (now : string) (useDecForFloat : bool) :
  (forall text : string,
     text <> EmptyString ->
     Json.loads (DataUtil.pythonToJsonText text) = Py.Raise Py.JSONDecodeError ->
     DataUtil.jsonToActuatorData cc (Some text) useDecForFloat = Py.Raise Py.JSONDecodeError
     /\ DataUtil.jsonToSensorData cc now (Some text) useDecForFloat
          = Py.Raise Py.JSONDecodeError
     /\ DataUtil.jsonToSystemPerformanceData cc now (Some text) useDecForFloat
          = Py.Raise Py.JSONDecodeError
     /\ forall self : DeviceDataManager.t C,
          DeviceDataManager._handleIncomingDataAnalysis cc self text = Py.Ok self)
  /\ (forall jsonData : option string,
        (DataUtil.jsonToActuatorData cc jsonData useDecForFloat = Py.Ok None
         <-> Py.truthy_str jsonData = false)
        /\ (DataUtil.jsonToSensorData cc now jsonData useDecForFloat = Py.Ok None
            <-> Py.truthy_str jsonData = false)
        /\ (DataUtil.jsonToSystemPerformanceData cc now jsonData useDecForFloat = Py.Ok None
            <-> Py.truthy_str jsonData = false)).
Proof.
  split.
  - intros text Hne Hbad.
    destruct text as [| c s]; [contradiction |].
    assert (Hact : forall b, DataUtil.jsonToActuatorData cc (Some (String c s)) b
                             = Py.Raise Py.JSONDecodeError).
    { intros b. unfold DataUtil.jsonToActuatorData.
      rewrite (load_raises _ b Hbad). reflexivity. }
    split; [apply Hact |]. split; [| split].
    + unfold DataUtil.jsonToSensorData.
      rewrite (load_raises _ useDecForFloat Hbad). reflexivity.
    + unfold DataUtil.jsonToSystemPerformanceData.
      rewrite (load_raises _ useDecForFloat Hbad). reflexivity.
    + intros self. unfold DeviceDataManager._handleIncomingDataAnalysis.
      rewrite Hact. reflexivity.
  - intros jsonData. split; [apply jsonToActuatorData_none |].
    split; [apply jsonToSensorData_none | apply jsonToSystemPerformanceData_none].
Qed.

(** The text [not json] again: the decoder raises, and the coordinator
    that receives it as an inbound message carries on unchanged. *)
Lemma C3_malformed_text_raises_witness :
  DataUtil.jsonToActuatorData sample_cc (Some "not json"%string) false
    = Py.Raise Py.JSONDecodeError
  /\ DeviceDataManager._handleIncomingDataAnalysis sample_cc sample_coordinator "not json"
     = Py.Ok sample_coordinator.
Proof.
  destruct (proj1 (C3_malformed_text_raises (C := Paho.client) sample_cc sample_time false)
              "not json"%string ltac:(discriminate) ltac:(vm_compute; reflexivity))
    as (Hact & _ & _ & Hcatch).
  split; [exact Hact | exact (Hcatch sample_coordinator)].
Defined.

(** ** The codec: round trips *)

(** A record whose text holds neither an apostrophe nor [True] or [False]
    comes back from the codec as it went in. *)
Example roundtrip_plain_reading :
  (let* text := DataUtil.sensorDataToJson DataUtil.new
                  (Some (temperature_reading (Some "TempSensor"%string) (decimal 215 (-1))))
                  false in
   DataUtil.jsonToSensorData sample_cc "later" (Some text) false)
  = Py.Ok (Some (SensorData.vars
                   (temperature_reading (Some "TempSensor"%string) (decimal 215 (-1))))).
Proof. vm_compute. reflexivity. Qed.

(** C2 (the code departs from the claim). The rewriting of [True],
    [False] and the apostrophe is applied to the whole text, the values of
    string fields included.  A sensor reading named [TrueTemp] comes back
    named [trueTemp]; an actuator command named [FalseAlarm] comes back
    named [falseAlarm]; a performance reading named [Bob's Pi] is encoded
    to a text that is not JSON, and decoding it raises. *)
Theorem C2_roundtrip_broken_by_rewriting :
  ((let* text := DataUtil.sensorDataToJson DataUtil.new (Some true_temp_reading) false in
    DataUtil.jsonToSensorData sample_cc sample_time (Some text) false)
   = Py.Ok (Some (SensorData.vars
                    (SensorData.mk (Some "trueTemp"%string) 1013 sample_location
                       (decimal 215 (-1)) sample_time)))
   /\ SensorData.vars (SensorData.mk (Some "trueTemp"%string) 1013 sample_location
                         (decimal 215 (-1)) sample_time)
      <> SensorData.vars true_temp_reading)
  /\ ((let* text := DataUtil.actuatorDataToJson DataUtil.new (Some false_alarm_command)
                      false in
       DataUtil.jsonToActuatorData sample_cc (Some text) false)
      = Py.Ok (Some (ActuatorData.vars
                       (ActuatorData.mk (Some "falseAlarm"%string) 1001 sample_location 1
                          (decimal 20 0) false 0)))
      /\ ActuatorData.vars (ActuatorData.mk (Some "falseAlarm"%string) 1001 sample_location 1
                              (decimal 20 0) false 0)
         <> ActuatorData.vars false_alarm_command)
  /\ (let* text := DataUtil.systemPerformanceDataToJson DataUtil.new (Some bobs_pi_reading)
                     false in
      DataUtil.jsonToSystemPerformanceData sample_cc sample_time (Some text) false)
     = Py.Raise Py.JSONDecodeError.
Proof.
  split; [split; [vm_compute; reflexivity | discriminate] |].
  split; [split; [vm_compute; reflexivity | discriminate] |].
  vm_compute. reflexivity.
Qed.

(** ** The system performance monitor *)

(** C9 (the code departs from the claim). One run of [handleTelemetry]
    reads the CPU and the memory utilisation and logs them; it hands no
    reading to any listener, whether one was registered or not, so the
    firing of the periodic task leaves the coordinator, its performance
    cache and its connector as they were. *)
Theorem C9_handleTelemetry_forwards_nothing {C : Type} `{PahoClient C} (cc : ConfigConst)
    (rn : ResourceNames) (m : SystemPerformanceManager.t) (listener : bool)
    (self : DeviceDataManager.t C) :
  SystemPerformanceManager.forwarded
    (SystemPerformanceManager.handleTelemetry
       (SystemPerformanceManager.setDataMessageListener m listener)) = []
  /\ SystemPerformanceManager.logged
       (SystemPerformanceManager.handleTelemetry
          (SystemPerformanceManager.setDataMessageListener m listener)) =
     [ "CPU utilization: "
         +:+ float_repr (SystemPerformanceManager.getTelemetryValue
                           (SystemPerformanceManager.cpuUtilTask m))
         +:+ "%, Memory utilization: "
         +:+ float_repr (SystemPerformanceManager.getTelemetryValue
                           (SystemPerformanceManager.memUtilTask m))
         +:+ "%" ]
  /\ DeviceDataManager.systemPerformanceJob cc rn self = Py.Ok self.
Proof.
  split; [reflexivity |]. split; [reflexivity |].
  unfold DeviceDataManager.systemPerformanceJob.
  destruct (DeviceDataManager.sysPerfMgr self); reflexivity.
Qed.

(** The sibling scheduler does forward: with a listener, its periodic task
    hands the three readings over, and the coordinator caches them. *)
Lemma sensor_handleTelemetry_forwards (m : SensorAdapterManager.t) :
  SensorAdapterManager.dataMsgListener m = true ->
  length (SensorAdapterManager.handleTelemetry m) = 3%nat.
Proof.
  intros Hl. unfold SensorAdapterManager.handleTelemetry. rewrite Hl. reflexivity.
Qed.

Example sample_sensor_cache_filled :
  exists self',
    DeviceDataManager.sensorJob sample_cc sample_rn sample_coordinator sample_sensors
      = Py.Ok self'
    /\ DeviceDataManager.getLatestSensorDataFromCache self' (Some "TempSensor"%string)
       = Some (temperature_reading (Some "TempSensor"%string) (decimal 215 (-1))).
Proof.
  destruct (handleSensorMessages_latest sample_cc sample_rn "TempSensor"
              (map Some (SensorAdapterManager.handleTelemetry sample_sensors))
              ltac:(discriminate) sample_coordinator) as (self' & Hrun & Hlook).
  exists self'. split; [exact Hrun |]. rewrite Hlook. reflexivity.
Qed.

(** On the sample coordinator, whose monitor is started, the performance
    cache is still empty after the task has fired. *)
Example sample_performance_cache_stays_empty :
  exists self',
    DeviceDataManager.systemPerformanceJob sample_cc sample_rn sample_coordinator
      = Py.Ok self'
    /\ DeviceDataManager.latestSystemPerfDataCache self' = ∅.
Proof. exists sample_coordinator. split; reflexivity. Qed.

(** ** The readings of the specification *)

(** Floor 18.0, ceiling 20.0: 21.0 gives ON at 20.0, 15.0 gives ON at 18.0,
    19.0 gives OFF at 0.0. *)
Example control_rule_samples :
  let cmd v := DeviceDataManager.hvacCommand sample_cc sample_coordinator
                 (temperature_reading (Some "TempSensor"%string) v) in
  (ActuatorData.command (cmd (decimal 21 0)), ActuatorData.value (cmd (decimal 21 0)))
    = (1, decimal 20 0)
  /\ (ActuatorData.command (cmd (decimal 15 0)), ActuatorData.value (cmd (decimal 15 0)))
     = (1, decimal 18 0)
  /\ (ActuatorData.command (cmd (decimal 19 0)), ActuatorData.value (cmd (decimal 19 0)))
     = (0, Finite 0 0)
  /\ (ActuatorData.command (cmd NaN), ActuatorData.value (cmd NaN)) = (0, Finite 0 0).
Proof. vm_compute. repeat split; reflexivity. Qed.

(* ===================================================================== *)
(** * Part III: further properties of the code                           *)
(* ===================================================================== *)

(** ** The actuator dispatch manager: routing *)

Section Routing.

Variable cc : ConfigConst.

Lemma sendActuatorCommand_accepted (self : ActuatorAdapterManager.t) (data : ActuatorData.t) :
  ActuatorData.isResponse data = false ->
  ActuatorData.locationID data = ActuatorAdapterManager.locationID self ->
  ActuatorAdapterManager.sendActuatorCommand cc self (Some data) =
    let self1 := ActuatorAdapterManager.record_call self (Some data) in
    let aType := ActuatorData.typeID data in
    if (aType =? HUMIDIFIER_ACTUATOR_TYPE cc)
       && ActuatorAdapterManager.is_set (ActuatorAdapterManager.humidifierActuator self)
    then ActuatorAdapterManager.update self1 (ActuatorAdapterManager.humidifierActuator self) data
    else if (aType =? HVAC_ACTUATOR_TYPE cc)
            && ActuatorAdapterManager.is_set (ActuatorAdapterManager.hvacActuator self)
    then ActuatorAdapterManager.update self1 (ActuatorAdapterManager.hvacActuator self) data
    else if (aType =? LED_DISPLAY_ACTUATOR_TYPE cc)
            && ActuatorAdapterManager.is_set (ActuatorAdapterManager.ledDisplayActuator self)
    then ActuatorAdapterManager.update self1 (ActuatorAdapterManager.ledDisplayActuator self) data
    else (self1, None).
Proof.
  intros Hresp Hloc. unfold ActuatorAdapterManager.sendActuatorCommand,
    ActuatorData.isResponseFlagEnabled, ActuatorData.getLocationID, ActuatorData.getTypeID.
  rewrite Hresp. cbn [negb ActuatorAdapterManager.record_call
                        ActuatorAdapterManager.locationID
                        ActuatorAdapterManager.humidifierActuator
                        ActuatorAdapterManager.hvacActuator
                        ActuatorAdapterManager.ledDisplayActuator].
  rewrite Hloc, String.eqb_refl. reflexivity.
Qed.

Lemma eqb_excluded (x y : Z) (task : option ActuatorAdapterManager.ActuatorTask) :
  x <> y \/ task = None -> (x =? y) && ActuatorAdapterManager.is_set task = false.
Proof.
  intros [Hne | ->]; [| apply andb_false_r].
  apply Z.eqb_neq in Hne. rewrite Hne. reflexivity.
Qed.

Lemma is_set_registered (x y : Z) (task : option ActuatorAdapterManager.ActuatorTask) :
  (x =? y) && ActuatorAdapterManager.is_set task = true -> exists t, task = Some t.
Proof.
  destruct task as [t |]; [eauto | rewrite andb_false_r; discriminate].
Qed.

(** A command that is a response, or is meant for another device, stops at
    the guards. *)
Lemma sendActuatorCommand_not_accepted (self : ActuatorAdapterManager.t)
    (data : ActuatorData.t) :
  ActuatorData.isResponse data = true
  \/ ActuatorData.locationID data <> ActuatorAdapterManager.locationID self ->
  ActuatorAdapterManager.sendActuatorCommand cc self (Some data) =
    (ActuatorAdapterManager.record_call self (Some data), None).
Proof.
  intros Hrej. unfold ActuatorAdapterManager.sendActuatorCommand,
    ActuatorData.isResponseFlagEnabled, ActuatorData.getLocationID.
  destruct (ActuatorData.isResponse data); [reflexivity |].
  destruct Hrej as [Hresp | Hloc]; [discriminate |].
  cbn [negb ActuatorAdapterManager.record_call ActuatorAdapterManager.locationID].
  destruct (String.eqb_spec (ActuatorData.locationID data)
              (ActuatorAdapterManager.locationID self)) as [Heq | _];
    [contradiction | reflexivity].
Qed.

End Routing.

(** X1. An accepted command (not a response, addressed to this device) is
    routed by its type, the humidifier being tried first, then the HVAC,
    then the LED display: the first backend that is registered for the
    type is invoked once with the command, and its answer is the result. *)
Theorem sendActuatorCommand_routes_by_type (cc : ConfigConst)
    (self : ActuatorAdapterManager.t) (data : ActuatorData.t)
    (task : ActuatorAdapterManager.ActuatorTask) :
  ActuatorData.isResponse data = false ->
  ActuatorData.locationID data = ActuatorAdapterManager.locationID self ->
  (ActuatorData.typeID data = HUMIDIFIER_ACTUATOR_TYPE cc
   /\ ActuatorAdapterManager.humidifierActuator self = Some task)
  \/ (ActuatorData.typeID data = HVAC_ACTUATOR_TYPE cc
      /\ ActuatorAdapterManager.hvacActuator self = Some task
      /\ (HVAC_ACTUATOR_TYPE cc <> HUMIDIFIER_ACTUATOR_TYPE cc
          \/ ActuatorAdapterManager.humidifierActuator self = None))
  \/ (ActuatorData.typeID data = LED_DISPLAY_ACTUATOR_TYPE cc
      /\ ActuatorAdapterManager.ledDisplayActuator self = Some task
      /\ (LED_DISPLAY_ACTUATOR_TYPE cc <> HUMIDIFIER_ACTUATOR_TYPE cc
          \/ ActuatorAdapterManager.humidifierActuator self = None)
      /\ (LED_DISPLAY_ACTUATOR_TYPE cc <> HVAC_ACTUATOR_TYPE cc
          \/ ActuatorAdapterManager.hvacActuator self = None)) ->
  snd (ActuatorAdapterManager.sendActuatorCommand cc self (Some data)) =
    ActuatorAdapterManager.updateActuator task data
  /\ ActuatorAdapterManager.invocations
       (fst (ActuatorAdapterManager.sendActuatorCommand cc self (Some data))) =
     ActuatorAdapterManager.invocations self ++ [data].
Proof.
  intros Hresp Hloc Hroute.
  rewrite (sendActuatorCommand_accepted cc self data Hresp Hloc). cbv zeta.
  destruct Hroute as [(Hty & Htask) | [(Hty & Htask & Hhum) | (Hty & Htask & Hhum & Hhvac)]];
    rewrite Hty.
  - rewrite Htask, Z.eqb_refl. split; reflexivity.
  - rewrite (eqb_excluded _ _ _ Hhum), Htask, Z.eqb_refl. split; reflexivity.
  - rewrite (eqb_excluded _ _ _ Hhum), (eqb_excluded _ _ _ Hhvac), Htask, Z.eqb_refl.
    split; reflexivity.
Qed.

(** An HVAC command for the sample device reaches the HVAC backend. *)
Lemma sendActuatorCommand_routes_by_type_witness :
  snd (ActuatorAdapterManager.sendActuatorCommand sample_cc sample_actuators
         (Some (ActuatorData.mk (Some "HvacActuator"%string) 1001 sample_location 1
                  (decimal 20 0) false 0)))
  = Some (ActuatorData.mk (Some "HvacActuator"%string) 1001 sample_location 1
            (decimal 20 0) true 0).
Proof.
  apply (proj1 (sendActuatorCommand_routes_by_type sample_cc sample_actuators
                  (ActuatorData.mk (Some "HvacActuator"%string) 1001 sample_location 1
                     (decimal 20 0) false 0)
                  echo_task eq_refl eq_refl
                  ltac:(right; left; split; [reflexivity | split; [reflexivity |
                          left; discriminate]]))).
Defined.

(** X2. An accepted command whose type has no registered backend is
    answered with [None], and no backend is invoked. *)
Theorem sendActuatorCommand_unregistered_type (cc : ConfigConst)
    (self : ActuatorAdapterManager.t) (data : ActuatorData.t) :
  (ActuatorData.typeID data <> HUMIDIFIER_ACTUATOR_TYPE cc
   \/ ActuatorAdapterManager.humidifierActuator self = None) ->
  (ActuatorData.typeID data <> HVAC_ACTUATOR_TYPE cc
   \/ ActuatorAdapterManager.hvacActuator self = None) ->
  (ActuatorData.typeID data <> LED_DISPLAY_ACTUATOR_TYPE cc
   \/ ActuatorAdapterManager.ledDisplayActuator self = None) ->
  snd (ActuatorAdapterManager.sendActuatorCommand cc self (Some data)) = None
  /\ ActuatorAdapterManager.invocations
       (fst (ActuatorAdapterManager.sendActuatorCommand cc self (Some data))) =
     ActuatorAdapterManager.invocations self.
Proof.
  intros Hhum Hhvac Hled.
  destruct (ActuatorData.isResponse data) eqn:Hresp.
  { rewrite (sendActuatorCommand_not_accepted cc self data (or_introl Hresp)).
    split; reflexivity. }
  destruct (String.eqb_spec (ActuatorData.locationID data)
              (ActuatorAdapterManager.locationID self)) as [Hloc | Hloc].
  - rewrite (sendActuatorCommand_accepted cc self data Hresp Hloc). cbv zeta.
    rewrite (eqb_excluded _ _ _ Hhum), (eqb_excluded _ _ _ Hhvac), (eqb_excluded _ _ _ Hled).
    split; reflexivity.
  - rewrite (sendActuatorCommand_not_accepted cc self data (or_intror Hloc)).
    split; reflexivity.
Qed.

(** The sample device has no LED display backend. *)
Lemma sendActuatorCommand_unregistered_type_witness :
  snd (ActuatorAdapterManager.sendActuatorCommand sample_cc sample_actuators
         (Some (ActuatorData.mk (Some "LedActuator"%string) 1100 sample_location 1
                  (decimal 1 0) false 0))) = None.
Proof.
  apply (proj1 (sendActuatorCommand_unregistered_type sample_cc sample_actuators
                  (ActuatorData.mk (Some "LedActuator"%string) 1100 sample_location 1
                     (decimal 1 0) false 0)
                  ltac:(left; discriminate) ltac:(left; discriminate)
                  ltac:(right; reflexivity))).
Defined.

(** X3. Whatever it is sent, the manager keeps its location, its backends
    and its listener; it records the call; and it invokes at most one
    backend, which it does only for a command that is not a response and
    is addressed to this device, handing the command over unchanged and
    returning what the backend answers. *)
Theorem sendActuatorCommand_invariants (cc : ConfigConst)
    (self : ActuatorAdapterManager.t) (data : option ActuatorData.t) :
  let self' := fst (ActuatorAdapterManager.sendActuatorCommand cc self data) in
  let response := snd (ActuatorAdapterManager.sendActuatorCommand cc self data) in
  ActuatorAdapterManager.locationID self' = ActuatorAdapterManager.locationID self
  /\ ActuatorAdapterManager.humidifierActuator self' =
       ActuatorAdapterManager.humidifierActuator self
  /\ ActuatorAdapterManager.hvacActuator self' = ActuatorAdapterManager.hvacActuator self
  /\ ActuatorAdapterManager.ledDisplayActuator self' =
       ActuatorAdapterManager.ledDisplayActuator self
  /\ ActuatorAdapterManager.dataMsgListener self' =
       ActuatorAdapterManager.dataMsgListener self
  /\ ActuatorAdapterManager.calls self' = ActuatorAdapterManager.calls self ++ [data]
  /\ ((ActuatorAdapterManager.invocations self' = ActuatorAdapterManager.invocations self
       /\ response = None)
      \/ exists (d : ActuatorData.t) (task : ActuatorAdapterManager.ActuatorTask),
           data = Some d
           /\ ActuatorData.isResponse d = false
           /\ ActuatorData.locationID d = ActuatorAdapterManager.locationID self
           /\ In (Some task) [ ActuatorAdapterManager.humidifierActuator self;
                               ActuatorAdapterManager.hvacActuator self;
                               ActuatorAdapterManager.ledDisplayActuator self ]
           /\ ActuatorAdapterManager.invocations self' =
                ActuatorAdapterManager.invocations self ++ [d]
           /\ response = ActuatorAdapterManager.updateActuator task d).
Proof.
  cbv zeta. destruct data as [d |];
    [| repeat split; left; split; reflexivity].
  destruct (ActuatorData.isResponse d) eqn:Hresp.
  { rewrite (sendActuatorCommand_not_accepted cc self d (or_introl Hresp)).
    repeat split. left. split; reflexivity. }
  destruct (String.eqb_spec (ActuatorData.locationID d)
              (ActuatorAdapterManager.locationID self)) as [Hloc | Hloc].
  2: { rewrite (sendActuatorCommand_not_accepted cc self d (or_intror Hloc)).
       repeat split. left. split; reflexivity. }
  rewrite (sendActuatorCommand_accepted cc self d Hresp Hloc). cbv zeta.
  assert (Hupd : forall o : option ActuatorAdapterManager.ActuatorTask,
             let r := ActuatorAdapterManager.update
                        (ActuatorAdapterManager.record_call self (Some d)) o d in
             ActuatorAdapterManager.locationID (fst r) = ActuatorAdapterManager.locationID self
             /\ ActuatorAdapterManager.humidifierActuator (fst r) =
                  ActuatorAdapterManager.humidifierActuator self
             /\ ActuatorAdapterManager.hvacActuator (fst r) =
                  ActuatorAdapterManager.hvacActuator self
             /\ ActuatorAdapterManager.ledDisplayActuator (fst r) =
                  ActuatorAdapterManager.ledDisplayActuator self
             /\ ActuatorAdapterManager.dataMsgListener (fst r) =
                  ActuatorAdapterManager.dataMsgListener self
             /\ ActuatorAdapterManager.calls (fst r) =
                  ActuatorAdapterManager.calls self ++ [Some d]
             /\ forall task, o = Some task ->
                  ActuatorAdapterManager.invocations (fst r) =
                    ActuatorAdapterManager.invocations self ++ [d]
                  /\ snd r = ActuatorAdapterManager.updateActuator task d).
  { intros o. cbv zeta. repeat (split; [destruct o; reflexivity |]).
    intros task ->. split; reflexivity. }
  assert (Hdone : forall o task, o = Some task ->
             In (Some task) [ ActuatorAdapterManager.humidifierActuator self;
                              ActuatorAdapterManager.hvacActuator self;
                              ActuatorAdapterManager.ledDisplayActuator self ] ->
             let r := ActuatorAdapterManager.update
                        (ActuatorAdapterManager.record_call self (Some d)) o d in
             ActuatorAdapterManager.locationID (fst r) = ActuatorAdapterManager.locationID self
             /\ ActuatorAdapterManager.humidifierActuator (fst r) =
                  ActuatorAdapterManager.humidifierActuator self
             /\ ActuatorAdapterManager.hvacActuator (fst r) =
                  ActuatorAdapterManager.hvacActuator self
             /\ ActuatorAdapterManager.ledDisplayActuator (fst r) =
                  ActuatorAdapterManager.ledDisplayActuator self
             /\ ActuatorAdapterManager.dataMsgListener (fst r) =
                  ActuatorAdapterManager.dataMsgListener self
             /\ ActuatorAdapterManager.calls (fst r) =
                  ActuatorAdapterManager.calls self ++ [Some d]
             /\ ((ActuatorAdapterManager.invocations (fst r) =
                    ActuatorAdapterManager.invocations self /\ snd r = None)
                 \/ exists (d0 : ActuatorData.t) (task0 : ActuatorAdapterManager.ActuatorTask),
                      Some d = Some d0
                      /\ ActuatorData.isResponse d0 = false
                      /\ ActuatorData.locationID d0 = ActuatorAdapterManager.locationID self
                      /\ In (Some task0) [ ActuatorAdapterManager.humidifierActuator self;
                                           ActuatorAdapterManager.hvacActuator self;
                                           ActuatorAdapterManager.ledDisplayActuator self ]
                      /\ ActuatorAdapterManager.invocations (fst r) =
                           ActuatorAdapterManager.invocations self ++ [d0]
                      /\ snd r = ActuatorAdapterManager.updateActuator task0 d0)).
  { intros o task Ho Hin r.
    destruct (Hupd o) as (H1 & H2 & H3 & H4 & H5 & H6 & H7).
    destruct (H7 task Ho) as [H8 H9].
    repeat (split; [assumption |]).
    right. exists d, task. repeat (split; [assumption || reflexivity |]). exact H9. }
  destruct ((ActuatorData.typeID d =? HUMIDIFIER_ACTUATOR_TYPE cc)
            && ActuatorAdapterManager.is_set (ActuatorAdapterManager.humidifierActuator self)) eqn:E1.
  { destruct (is_set_registered _ _ _ E1) as [task Ht].
    apply (Hdone _ task Ht). rewrite Ht. simpl. auto. }
  destruct ((ActuatorData.typeID d =? HVAC_ACTUATOR_TYPE cc)
            && ActuatorAdapterManager.is_set (ActuatorAdapterManager.hvacActuator self)) eqn:E2.
  { destruct (is_set_registered _ _ _ E2) as [task Ht].
    apply (Hdone _ task Ht). rewrite Ht. simpl. auto. }
  destruct ((ActuatorData.typeID d =? LED_DISPLAY_ACTUATOR_TYPE cc)
            && ActuatorAdapterManager.is_set (ActuatorAdapterManager.ledDisplayActuator self)) eqn:E3.
  { destruct (is_set_registered _ _ _ E3) as [task Ht].
    apply (Hdone _ task Ht). rewrite Ht. simpl. auto. }
  repeat split. left. split; reflexivity.
Qed.


(** ** The coordinator: what an ingest changes *)

Section CoordinatorFrames.

Context {C : Type} `{PahoClient C}.
Variables (cc : ConfigConst) (rn : ResourceNames).

(** The upstream relay changes the MQTT connector only, by one
    [publishMessage] call whose result it drops. *)
Lemma upstream_frame (self : DeviceDataManager.t C) (resource : ResourceNameEnum)
    (msg : string) :
  exists self',
    DeviceDataManager._handleUpstreamTransmission cc rn self resource msg = Py.Ok self'
    /\ same_settings self self'
    /\ DeviceDataManager.latestSensorDataCache self' =
         DeviceDataManager.latestSensorDataCache self
    /\ DeviceDataManager.latestActuatorDataCache self' =
         DeviceDataManager.latestActuatorDataCache self
    /\ DeviceDataManager.latestSystemPerfDataCache self' =
         DeviceDataManager.latestSystemPerfDataCache self
    /\ DeviceDataManager.actuatorAdapterMgr self' = DeviceDataManager.actuatorAdapterMgr self
    /\ match DeviceDataManager.mqttClient self with
       | Some client =>
           exists client' ok,
             MqttClientConnector.publishMessage rn client (Some resource) (Some msg)
               (DEFAULT_QOS cc) = Py.Ok (client', ok)
             /\ DeviceDataManager.mqttClient self' = Some client'
       | None => DeviceDataManager.mqttClient self' = None
       end.
Proof.
  unfold DeviceDataManager._handleUpstreamTransmission, same_settings.
  destruct (DeviceDataManager.mqttClient self) as [client |] eqn:Hclient.
  - destruct (publishMessage_returns rn client (Some resource) (Some msg) (DEFAULT_QOS cc))
      as (client' & ok & Hpub & _).
    rewrite Hpub. cbn [Py.bind].
    exists (DeviceDataManager.with_mqttClient self client').
    split; [destruct (DeviceDataManager.coapClient _); reflexivity |].
    repeat split; try reflexivity.
    exists client', ok. split; reflexivity.
  - cbn [Py.bind]. exists self.
    split; [destruct (DeviceDataManager.coapClient _); reflexivity |].
    repeat split; try reflexivity. exact Hclient.
Qed.

(** The control rule reads the thresholds and the actuator manager, not
    the sensor cache. *)
Lemma analysis_ignores_sensor_cache (self : DeviceDataManager.t C) (data : SensorData.t)
    (m : gmap string SensorData.t) :
  DeviceDataManager._handleSensorDataAnalysis cc
    (DeviceDataManager.with_latestSensorDataCache self m) data =
  DeviceDataManager.with_latestSensorDataCache
    (DeviceDataManager._handleSensorDataAnalysis cc self data) m.
Proof.
  unfold DeviceDataManager._handleSensorDataAnalysis,
    DeviceDataManager.handleActuatorCommandMessage, DeviceDataManager.hvacCommand.
  cbn [DeviceDataManager.with_latestSensorDataCache DeviceDataManager.handleTempChangeOnDevice
         DeviceDataManager.triggerHvacTempCeiling DeviceDataManager.triggerHvacTempFloor
         DeviceDataManager.actuatorAdapterMgr].
  destruct (_ && _); [| reflexivity].
  destruct (ActuatorAdapterManager.sendActuatorCommand _ _ _) as [mgr r]. reflexivity.
Qed.

Lemma analysis_settings (self : DeviceDataManager.t C) (data : SensorData.t) :
  same_settings self (DeviceDataManager._handleSensorDataAnalysis cc self data)
  /\ DeviceDataManager.latestSensorDataCache
       (DeviceDataManager._handleSensorDataAnalysis cc self data) =
     DeviceDataManager.latestSensorDataCache self
  /\ DeviceDataManager.latestActuatorDataCache
       (DeviceDataManager._handleSensorDataAnalysis cc self data) =
     DeviceDataManager.latestActuatorDataCache self
  /\ DeviceDataManager.latestSystemPerfDataCache
       (DeviceDataManager._handleSensorDataAnalysis cc self data) =
     DeviceDataManager.latestSystemPerfDataCache self
  /\ DeviceDataManager.mqttClient (DeviceDataManager._handleSensorDataAnalysis cc self data) =
     DeviceDataManager.mqttClient self.
Proof.
  destruct (analysis_frame cc self data) as [m ->]. unfold same_settings.
  repeat split; reflexivity.
Qed.

(** The whole effect of ingesting a sensor reading. *)
Lemma handleSensorMessage_effect (self : DeviceDataManager.t C) (data : SensorData.t) :
  exists self',
    DeviceDataManager.handleSensorMessage cc rn self (Some data) = Py.Ok (self', true)
    /\ same_settings self self'
    /\ DeviceDataManager.latestSensorDataCache self' =
         cached (SensorData.name data) data (DeviceDataManager.latestSensorDataCache self)
    /\ DeviceDataManager.latestActuatorDataCache self' =
         DeviceDataManager.latestActuatorDataCache self
    /\ DeviceDataManager.latestSystemPerfDataCache self' =
         DeviceDataManager.latestSystemPerfDataCache self
    /\ DeviceDataManager.actuatorAdapterMgr self' =
         DeviceDataManager.actuatorAdapterMgr
           (DeviceDataManager._handleSensorDataAnalysis cc self data)
    /\ match DeviceDataManager.mqttClient self with
       | Some client =>
           exists client' ok,
             MqttClientConnector.publishMessage rn client (Some CDA_SENSOR_MSG_RESOURCE)
               (Some (encoded (SensorData.vars data))) (DEFAULT_QOS cc) = Py.Ok (client', ok)
             /\ DeviceDataManager.mqttClient self' = Some client'
       | None => DeviceDataManager.mqttClient self' = None
       end.
Proof.
  assert (Hstep : exists self1,
             DeviceDataManager.handleSensorMessage cc rn self (Some data) =
               (let* self2 := DeviceDataManager._handleUpstreamTransmission cc rn
                                (DeviceDataManager._handleSensorDataAnalysis cc self1 data)
                                CDA_SENSOR_MSG_RESOURCE (encoded (SensorData.vars data)) in
                Py.Ok (self2, true))
             /\ (self1 = self
                 \/ self1 = DeviceDataManager.with_latestSensorDataCache self
                              (cached (SensorData.name data) data
                                 (DeviceDataManager.latestSensorDataCache self)))
             /\ DeviceDataManager.latestSensorDataCache self1 =
                  cached (SensorData.name data) data
                    (DeviceDataManager.latestSensorDataCache self)).
  { unfold DeviceDataManager.handleSensorMessage, SensorData.getName, cached.
    destruct (SensorData.name data) as [[| c n] |]; eexists; (split; [reflexivity |]);
      split; auto. }
  destruct Hstep as (self1 & -> & Hself1 & Hcache1).
  assert (Han : same_settings self (DeviceDataManager._handleSensorDataAnalysis cc self1 data)
                /\ DeviceDataManager.latestSensorDataCache
                     (DeviceDataManager._handleSensorDataAnalysis cc self1 data) =
                   cached (SensorData.name data) data
                     (DeviceDataManager.latestSensorDataCache self)
                /\ DeviceDataManager.latestActuatorDataCache
                     (DeviceDataManager._handleSensorDataAnalysis cc self1 data) =
                   DeviceDataManager.latestActuatorDataCache self
                /\ DeviceDataManager.latestSystemPerfDataCache
                     (DeviceDataManager._handleSensorDataAnalysis cc self1 data) =
                   DeviceDataManager.latestSystemPerfDataCache self
                /\ DeviceDataManager.mqttClient
                     (DeviceDataManager._handleSensorDataAnalysis cc self1 data) =
                   DeviceDataManager.mqttClient self
                /\ DeviceDataManager.actuatorAdapterMgr
                     (DeviceDataManager._handleSensorDataAnalysis cc self1 data) =
                   DeviceDataManager.actuatorAdapterMgr
                     (DeviceDataManager._handleSensorDataAnalysis cc self data)).
  { destruct (analysis_settings self data) as (Hset & Hs & Ha & Hp & Hm).
    destruct Hself1 as [-> | ->].
    - split; [exact Hset |]. split; [rewrite Hs; exact Hcache1 |].
      split; [exact Ha |]. split; [exact Hp |]. split; [exact Hm | reflexivity].
    - rewrite analysis_ignores_sensor_cache. unfold same_settings in *.
      cbn [DeviceDataManager.with_latestSensorDataCache
             DeviceDataManager.handleTempChangeOnDevice
             DeviceDataManager.triggerHvacTempFloor DeviceDataManager.triggerHvacTempCeiling
             DeviceDataManager.sysPerfMgr DeviceDataManager.coapClient
             DeviceDataManager.latestSensorDataCache DeviceDataManager.latestActuatorDataCache
             DeviceDataManager.latestSystemPerfDataCache DeviceDataManager.mqttClient
             DeviceDataManager.actuatorAdapterMgr].
      split; [exact Hset |]. split; [reflexivity |].
      split; [exact Ha |]. split; [exact Hp |]. split; [exact Hm | reflexivity]. }
  destruct Han as (Hset & Hs & Ha & Hp & Hm & Hmgr).
  destruct (upstream_frame (DeviceDataManager._handleSensorDataAnalysis cc self1 data)
              CDA_SENSOR_MSG_RESOURCE (encoded (SensorData.vars data)))
    as (self' & Hup & Hset' & Hs' & Ha' & Hp' & Hmgr' & Hq).
  rewrite Hup. cbn [Py.bind]. exists self'.
  split; [reflexivity |].
  rewrite Hs', Ha', Hp', Hmgr', Hs, Ha, Hp, Hmgr.
  rewrite Hm in Hq.
  repeat split; try reflexivity; try exact Hq.
  all: unfold same_settings in *;
    destruct Hset as (S1 & S2 & S3 & S4 & S5), Hset' as (T1 & T2 & T3 & T4 & T5);
    congruence.
Qed.

End CoordinatorFrames.

(** X4. Ingesting a sensor reading changes one entry of the sensor cache
    at most: the lookup of every name other than the reading's answers as
    before, the actuator and performance caches answer as before, and the
    settings of the coordinator are untouched. *)
Theorem handleSensorMessage_touches_one_entry {C : Type} `{PahoClient C} (cc : ConfigConst)
    (rn : ResourceNames) (self : DeviceDataManager.t C) (data : SensorData.t) :
  exists self',
    DeviceDataManager.handleSensorMessage cc rn self (Some data) = Py.Ok (self', true)
    /\ (forall Y : string,
          SensorData.name data <> Some Y ->
          DeviceDataManager.getLatestSensorDataFromCache self' (Some Y) =
          DeviceDataManager.getLatestSensorDataFromCache self (Some Y))
    /\ (forall n : option string,
          DeviceDataManager.getLatestActuatorDataResponseFromCache self' n =
          DeviceDataManager.getLatestActuatorDataResponseFromCache self n)
    /\ (forall n : option string,
          DeviceDataManager.getLatestSystemPerformanceDataFromCache self' n =
          DeviceDataManager.getLatestSystemPerformanceDataFromCache self n)
    /\ same_settings self self'.
Proof.
  destruct (handleSensorMessage_effect cc rn self data)
    as (self' & Hret & Hset & Hs & Ha & Hp & _).
  exists self'. split; [exact Hret |]. split; [| split; [| split]].
  - intros Y HY. destruct Y as [| c Y]; [reflexivity |].
    rewrite !getLatestSensorDataFromCache_named by discriminate.
    rewrite Hs, lookup_cached by discriminate.
    rewrite decide_False by exact HY. reflexivity.
  - intros n. unfold DeviceDataManager.getLatestActuatorDataResponseFromCache.
    rewrite Ha. reflexivity.
  - intros n. unfold DeviceDataManager.getLatestSystemPerformanceDataFromCache.
    rewrite Hp. reflexivity.
  - exact Hset.
Qed.

(** X5. The actuator response cache keeps the latest response of each
    name: after a response with a non-empty name X is handed in, the
    lookup of X answers with it, the lookup of every other name answers as
    before, and the sensor and performance caches are unchanged; a null
    response is refused and changes nothing. *)
Theorem handleActuatorCommandResponse_caches_latest {C : Type} `{PahoClient C}
    (cc : ConfigConst) (rn : ResourceNames) (self : DeviceDataManager.t C)
    (data : ActuatorData.t) (X : string) :
  X <> EmptyString ->
  ActuatorData.name data = Some X ->
  (exists self',
     DeviceDataManager.handleActuatorCommandResponse cc rn self (Some data)
       = Py.Ok (self', true)
     /\ DeviceDataManager.getLatestActuatorDataResponseFromCache self' (Some X) = Some data
     /\ (forall Y : string,
           Y <> X ->
           DeviceDataManager.getLatestActuatorDataResponseFromCache self' (Some Y) =
           DeviceDataManager.getLatestActuatorDataResponseFromCache self (Some Y))
     /\ DeviceDataManager.latestSensorDataCache self' =
          DeviceDataManager.latestSensorDataCache self
     /\ DeviceDataManager.latestSystemPerfDataCache self' =
          DeviceDataManager.latestSystemPerfDataCache self)
  /\ DeviceDataManager.handleActuatorCommandResponse cc rn self None = Py.Ok (self, false).
Proof.
  intros HX Hname. split; [| reflexivity].
  destruct (handleActuatorCommandResponse_returns cc rn self data)
    as (self' & Hret & Ha & Hs & Hp & _).
  exists self'. split; [exact Hret |].
  assert (Hlook : forall Y : string,
             Y <> EmptyString ->
             DeviceDataManager.getLatestActuatorDataResponseFromCache self' (Some Y) =
             if decide (ActuatorData.name data = Some Y) then Some data
             else DeviceDataManager.getLatestActuatorDataResponseFromCache self (Some Y)).
  { intros Y HY. destruct Y as [| c Y]; [contradiction |].
    cbn [DeviceDataManager.getLatestActuatorDataResponseFromCache].
    rewrite Ha. apply lookup_cached. discriminate. }
  split; [| split; [| split]].
  - rewrite Hlook by exact HX. rewrite decide_True by exact Hname. reflexivity.
  - intros Y HY. destruct Y as [| c Y]; [reflexivity |].
    rewrite Hlook by discriminate. rewrite decide_False; [reflexivity |].
    rewrite Hname. intros [= E]. congruence.
  - exact Hs.
  - exact Hp.
Qed.

(** The response of the sample HVAC backend, handed to the sample
    coordinator. *)
Lemma handleActuatorCommandResponse_caches_latest_witness :
  exists self',
    DeviceDataManager.handleActuatorCommandResponse sample_cc sample_rn sample_coordinator
      (Some (ActuatorData.mk (Some "HvacActuator"%string) 1001 sample_location 1
               (decimal 20 0) true 0)) = Py.Ok (self', true)
    /\ DeviceDataManager.getLatestActuatorDataResponseFromCache self'
         (Some "HvacActuator"%string)
       = Some (ActuatorData.mk (Some "HvacActuator"%string) 1001 sample_location 1
                 (decimal 20 0) true 0).
Proof.
  destruct (proj1 (handleActuatorCommandResponse_caches_latest sample_cc sample_rn
                     sample_coordinator
                     (ActuatorData.mk (Some "HvacActuator"%string) 1001 sample_location 1
                        (decimal 20 0) true 0)
                     "HvacActuator" ltac:(discriminate) eq_refl))
    as (self' & Hret & Hlook & _).
  exists self'. split; [exact Hret | exact Hlook].
Defined.

(** X6. The performance cache keeps the latest reading of each name: after
    a reading with a non-empty name X is ingested, the lookup of X answers
    with it, the lookup of every other name answers as before, and the
    sensor and actuator caches are unchanged; a null reading is refused and
    changes nothing. *)
Theorem handleSystemPerformanceMessage_caches_latest {C : Type} `{PahoClient C}
    (cc : ConfigConst) (rn : ResourceNames) (self : DeviceDataManager.t C)
    (data : SystemPerformanceData.t) (X : string) :
  X <> EmptyString ->
  SystemPerformanceData.name data = Some X ->
  (exists self',
     DeviceDataManager.handleSystemPerformanceMessage cc rn self (Some data)
       = Py.Ok (self', true)
     /\ DeviceDataManager.getLatestSystemPerformanceDataFromCache self' (Some X) = Some data
     /\ (forall Y : string,
           Y <> X ->
           DeviceDataManager.getLatestSystemPerformanceDataFromCache self' (Some Y) =
           DeviceDataManager.getLatestSystemPerformanceDataFromCache self (Some Y))
     /\ DeviceDataManager.latestSensorDataCache self' =
          DeviceDataManager.latestSensorDataCache self
     /\ DeviceDataManager.latestActuatorDataCache self' =
          DeviceDataManager.latestActuatorDataCache self)
  /\ DeviceDataManager.handleSystemPerformanceMessage cc rn self None = Py.Ok (self, false).
Proof.
  intros HX Hname. split; [| reflexivity].
  destruct (handleSystemPerformanceMessage_returns cc rn self data)
    as (self' & Hret & Hp & Hs & Ha & _).
  exists self'. split; [exact Hret |].
  assert (Hlook : forall Y : string,
             Y <> EmptyString ->
             DeviceDataManager.getLatestSystemPerformanceDataFromCache self' (Some Y) =
             if decide (SystemPerformanceData.name data = Some Y) then Some data
             else DeviceDataManager.getLatestSystemPerformanceDataFromCache self (Some Y)).
  { intros Y HY. destruct Y as [| c Y]; [contradiction |].
    cbn [DeviceDataManager.getLatestSystemPerformanceDataFromCache].
    rewrite Hp. apply lookup_cached. discriminate. }
  split; [| split; [| split]].
  - rewrite Hlook by exact HX. rewrite decide_True by exact Hname. reflexivity.
  - intros Y HY. destruct Y as [| c Y]; [reflexivity |].
    rewrite Hlook by discriminate. rewrite decide_False; [reflexivity |].
    rewrite Hname. intros [= E]. congruence.
  - exact Hs.
  - exact Ha.
Qed.

Lemma handleSystemPerformanceMessage_caches_latest_witness :
  exists self',
    DeviceDataManager.handleSystemPerformanceMessage sample_cc sample_rn sample_coordinator
      (Some (SystemPerformanceData.mk (Some "SystemPerfMsg"%string) (decimal 125 (-1))
               (decimal 403 (-1)) (decimal 71 0) sample_time)) = Py.Ok (self', true)
    /\ DeviceDataManager.getLatestSystemPerformanceDataFromCache self'
         (Some "SystemPerfMsg"%string)
       = Some (SystemPerformanceData.mk (Some "SystemPerfMsg"%string) (decimal 125 (-1))
                 (decimal 403 (-1)) (decimal 71 0) sample_time).
Proof.
  destruct (proj1 (handleSystemPerformanceMessage_caches_latest sample_cc sample_rn
                     sample_coordinator
                     (SystemPerformanceData.mk (Some "SystemPerfMsg"%string)
                        (decimal 125 (-1)) (decimal 403 (-1)) (decimal 71 0) sample_time)
                     "SystemPerfMsg" ltac:(discriminate) eq_refl))
    as (self' & Hret & Hlook & _).
  exists self'. split; [exact Hret | exact Hlook].
Defined.

(** X7. The control rule runs for temperature readings with local
    handling enabled, and for nothing else: a reading of another type, or
    any reading when local handling is disabled, is ingested without the
    actuator manager being called at all. *)
Theorem handleSensorMessage_no_command_unless_temperature {C : Type} `{PahoClient C}
    (cc : ConfigConst) (rn : ResourceNames) (self : DeviceDataManager.t C)
    (data : SensorData.t) :
  DeviceDataManager.handleTempChangeOnDevice self = false
  \/ SensorData.typeID data <> TEMP_SENSOR_TYPE cc ->
  exists self',
    DeviceDataManager.handleSensorMessage cc rn self (Some data) = Py.Ok (self', true)
    /\ DeviceDataManager.actuatorAdapterMgr self' = DeviceDataManager.actuatorAdapterMgr self.
Proof.
  intros Hoff.
  destruct (handleSensorMessage_effect cc rn self data)
    as (self' & Hret & _ & _ & _ & _ & Hmgr & _).
  exists self'. split; [exact Hret |]. rewrite Hmgr.
  unfold DeviceDataManager._handleSensorDataAnalysis, SensorData.getTypeID.
  destruct Hoff as [-> | Hty]; [reflexivity |].
  apply Z.eqb_neq in Hty. rewrite Hty, andb_false_r. reflexivity.
Qed.

(** A humidity reading on the sample coordinator. *)
Lemma handleSensorMessage_no_command_unless_temperature_witness :
  exists self',
    DeviceDataManager.handleSensorMessage sample_cc sample_rn sample_coordinator
      (Some (SensorData.mk (Some "HumiditySensor"%string) 1010 sample_location
               (decimal 405 (-1)) sample_time)) = Py.Ok (self', true)
    /\ DeviceDataManager.actuatorAdapterMgr self' = sample_actuators.
Proof.
  apply (handleSensorMessage_no_command_unless_temperature sample_cc sample_rn
           sample_coordinator
           (SensorData.mk (Some "HumiditySensor"%string) 1010 sample_location
              (decimal 405 (-1)) sample_time)).
  right. discriminate.
Defined.

Section Transmission.

Context {C : Type} `{PahoClient C}.
Variable rn : ResourceNames.

(** Without a connection the publish fails, the library failing it. *)
Lemma publishMessage_disconnected (client : MqttClientConnector.t C)
    (resource : option ResourceNameEnum) (msg : option string) (qos : Z) :
  fails_when_disconnected C ->
  is_connected (MqttClientConnector.mc client) = false ->
  forall client' ok,
    MqttClientConnector.publishMessage rn client resource msg qos = Py.Ok (client', ok) ->
    ok = false.
Proof.
  intros Hlib Hconn client' ok. unfold MqttClientConnector.publishMessage.
  destruct resource as [r |]; [| intros [= _ <-]; reflexivity].
  destruct msg as [[| c m] |]; try (intros [= _ <-]; reflexivity).
  cbn [MqttClientConnector.mc MqttClientConnector.record_publish].
  specialize (Hlib (MqttClientConnector.mc client) (value rn r) (String c m) qos Hconn).
  destruct (publish _ _ _ _) as [[mc' info] | e]; [| intros [= _ <-]; reflexivity].
  destruct Hlib as [e He]. rewrite He. intros [= _ <-]. reflexivity.
Qed.

End Transmission.

(** X8. Ingestion does not depend on transmission: a sensor reading with a
    non-empty name is cached, and [True] is returned, when no MQTT client
    is configured (nothing is sent) and when the client has no connection
    (the publish is tried once and returns [False]). *)
Theorem handleSensorMessage_cached_whatever_the_transport {C : Type} `{PahoClient C}
    (cc : ConfigConst) (rn : ResourceNames) (self : DeviceDataManager.t C)
    (data : SensorData.t) (X : string) :
  X <> EmptyString ->
  SensorData.name data = Some X ->
  (DeviceDataManager.mqttClient self = None ->
   exists self',
     DeviceDataManager.handleSensorMessage cc rn self (Some data) = Py.Ok (self', true)
     /\ DeviceDataManager.getLatestSensorDataFromCache self' (Some X) = Some data
     /\ DeviceDataManager.mqttClient self' = None)
  /\ (forall client : MqttClientConnector.t C,
        fails_when_disconnected C ->
        DeviceDataManager.mqttClient self = Some client ->
        is_connected (MqttClientConnector.mc client) = false ->
        exists self' client',
          DeviceDataManager.handleSensorMessage cc rn self (Some data) = Py.Ok (self', true)
          /\ DeviceDataManager.getLatestSensorDataFromCache self' (Some X) = Some data
          /\ DeviceDataManager.mqttClient self' = Some client'
          /\ MqttClientConnector.publishMessage rn client (Some CDA_SENSOR_MSG_RESOURCE)
               (Some (encoded (SensorData.vars data))) (DEFAULT_QOS cc)
             = Py.Ok (client', false)).
Proof.
  intros HX Hname.
  destruct (handleSensorMessage_effect cc rn self data)
    as (self' & Hret & _ & Hs & _ & _ & _ & Hq).
  assert (Hlook : DeviceDataManager.getLatestSensorDataFromCache self' (Some X) = Some data).
  { rewrite getLatestSensorDataFromCache_named by exact HX.
    rewrite Hs, lookup_cached by exact HX. rewrite decide_True by exact Hname. reflexivity. }
  split.
  - intros Hnone. rewrite Hnone in Hq. exists self'. repeat split; assumption.
  - intros client Hlib Hsome Hconn. rewrite Hsome in Hq.
    destruct Hq as (client' & ok & Hpub & Hclient').
    exists self', client'. repeat split; try assumption.
    rewrite Hpub.
    rewrite (publishMessage_disconnected rn client _ _ _ Hlib Hconn client' ok Hpub).
    reflexivity.
Qed.

(** A coordinator whose client is not connected. *)
Lemma handleSensorMessage_cached_whatever_the_transport_witness :
  exists self' client',
    DeviceDataManager.handleSensorMessage sample_cc sample_rn offline_coordinator
      (Some (temperature_reading (Some "TempSensor"%string) (decimal 21 0)))
      = Py.Ok (self', true)
    /\ DeviceDataManager.getLatestSensorDataFromCache self' (Some "TempSensor"%string)
       = Some (temperature_reading (Some "TempSensor"%string) (decimal 21 0))
    /\ DeviceDataManager.mqttClient self' = Some client'
    /\ MqttClientConnector.publishMessage sample_rn (sample_connector false)
         (Some CDA_SENSOR_MSG_RESOURCE)
         (Some (encoded (SensorData.vars
                           (temperature_reading (Some "TempSensor"%string) (decimal 21 0)))))
         (DEFAULT_QOS sample_cc) = Py.Ok (client', false).
Proof.
  apply (proj2 (handleSensorMessage_cached_whatever_the_transport sample_cc sample_rn
                  offline_coordinator
                  (temperature_reading (Some "TempSensor"%string) (decimal 21 0))
                  "TempSensor" ltac:(discriminate) eq_refl)
           (sample_connector false) paho_fails_when_disconnected eq_refl eq_refl).
Defined.


(** ** The sensor scheduler and the coordinator *)

Section SensorJob.

Context {C : Type} `{PahoClient C}.
Variables (cc : ConfigConst) (rn : ResourceNames).

(** The control rule leaves the coordinator alone for a reading that is not
    a temperature. *)
Lemma analysis_skips (self : DeviceDataManager.t C) (data : SensorData.t) :
  SensorData.typeID data <> TEMP_SENSOR_TYPE cc ->
  DeviceDataManager._handleSensorDataAnalysis cc self data = self.
Proof.
  intros Hty. unfold DeviceDataManager._handleSensorDataAnalysis, SensorData.getTypeID.
  apply Z.eqb_neq in Hty. rewrite Hty, andb_false_r. reflexivity.
Qed.

(** The command of the control rule depends on the thresholds only. *)
Lemma hvacCommand_settings (self self' : DeviceDataManager.t C) (data : SensorData.t) :
  same_settings self self' ->
  DeviceDataManager.hvacCommand cc self' data = DeviceDataManager.hvacCommand cc self data.
Proof.
  intros (_ & Hfloor & Hceil & _). unfold DeviceDataManager.hvacCommand.
  rewrite Hfloor, Hceil. reflexivity.
Qed.

(** A temperature reading at the location of the actuator manager reaches
    the HVAC backend. *)
Lemma analysis_invokes_hvac (self : DeviceDataManager.t C) (data : SensorData.t)
    (task : ActuatorAdapterManager.ActuatorTask) :
  DeviceDataManager.handleTempChangeOnDevice self = true ->
  SensorData.typeID data = TEMP_SENSOR_TYPE cc ->
  SensorData.locationID data =
    ActuatorAdapterManager.locationID (DeviceDataManager.actuatorAdapterMgr self) ->
  ActuatorAdapterManager.hvacActuator (DeviceDataManager.actuatorAdapterMgr self)
    = Some task ->
  (HVAC_ACTUATOR_TYPE cc <> HUMIDIFIER_ACTUATOR_TYPE cc
   \/ ActuatorAdapterManager.humidifierActuator (DeviceDataManager.actuatorAdapterMgr self)
      = None) ->
  ActuatorAdapterManager.invocations
    (DeviceDataManager.actuatorAdapterMgr
       (DeviceDataManager._handleSensorDataAnalysis cc self data)) =
  ActuatorAdapterManager.invocations (DeviceDataManager.actuatorAdapterMgr self)
    ++ [DeviceDataManager.hvacCommand cc self data].
Proof.
  intros Hon Hty Hloc Htask Hhum.
  rewrite (analysis_sends_hvacCommand cc self data Hon Hty).
  cbn [DeviceDataManager.with_actuatorAdapterMgr DeviceDataManager.actuatorAdapterMgr].
  destruct (hvacCommand_identity cc self data) as (_ & Hcty & Hcloc & Hcresp).
  rewrite (sendActuatorCommand_accepted cc _ _ Hcresp (eq_trans Hcloc Hloc)). cbv zeta.
  rewrite Hcty, (eqb_excluded _ _ _ Hhum), Htask, Z.eqb_refl. reflexivity.
Qed.

End SensorJob.

(** X9. The closed loop: a temperature reading taken at the device's own
    location, with local handling enabled and an HVAC backend registered,
    makes the HVAC backend run exactly once, on the command of the control
    rule.  What the backend answers is dropped: the actuator response
    cache is unchanged and the only message published is the reading. *)
Theorem temperature_reading_drives_hvac {C : Type} `{PahoClient C} (cc : ConfigConst)
    (rn : ResourceNames) (self : DeviceDataManager.t C) (data : SensorData.t)
    (task : ActuatorAdapterManager.ActuatorTask) :
  DeviceDataManager.handleTempChangeOnDevice self = true ->
  SensorData.typeID data = TEMP_SENSOR_TYPE cc ->
  SensorData.locationID data =
    ActuatorAdapterManager.locationID (DeviceDataManager.actuatorAdapterMgr self) ->
  ActuatorAdapterManager.hvacActuator (DeviceDataManager.actuatorAdapterMgr self)
    = Some task ->
  (HVAC_ACTUATOR_TYPE cc <> HUMIDIFIER_ACTUATOR_TYPE cc
   \/ ActuatorAdapterManager.humidifierActuator (DeviceDataManager.actuatorAdapterMgr self)
      = None) ->
  exists self',
    DeviceDataManager.handleSensorMessage cc rn self (Some data) = Py.Ok (self', true)
    /\ ActuatorAdapterManager.invocations (DeviceDataManager.actuatorAdapterMgr self') =
         ActuatorAdapterManager.invocations (DeviceDataManager.actuatorAdapterMgr self)
           ++ [DeviceDataManager.hvacCommand cc self data]
    /\ DeviceDataManager.latestActuatorDataCache self' =
         DeviceDataManager.latestActuatorDataCache self
    /\ match DeviceDataManager.mqttClient self with
       | Some client =>
           exists client',
             DeviceDataManager.mqttClient self' = Some client'
             /\ MqttClientConnector.publishCalls client' =
                  MqttClientConnector.publishCalls client
                    ++ [(Some CDA_SENSOR_MSG_RESOURCE, Some (encoded (SensorData.vars data)),
                         DEFAULT_QOS cc)]
       | None => DeviceDataManager.mqttClient self' = None
       end.
Proof.
  intros Hon Hty Hloc Htask Hhum.
  destruct (handleSensorMessage_effect cc rn self data)
    as (self' & Hret & _ & _ & Ha & _ & Hmgr & _).
  destruct (handleSensorMessage_returns cc rn self data)
    as (self'' & Hret' & _ & _ & _ & Hq).
  rewrite Hret in Hret'. injection Hret' as <-.
  exists self'. split; [exact Hret |]. split; [| split; [exact Ha | exact Hq]].
  rewrite Hmgr. exact (analysis_invokes_hvac cc self data task Hon Hty Hloc Htask Hhum).
Qed.

(** A reading of 21.0 degrees at the sample device: the HVAC backend
    receives ON at the ceiling. *)
Lemma temperature_reading_drives_hvac_witness :
  exists self',
    DeviceDataManager.handleSensorMessage sample_cc sample_rn sample_coordinator
      (Some (temperature_reading (Some "TempSensor"%string) (decimal 21 0)))
      = Py.Ok (self', true)
    /\ ActuatorAdapterManager.invocations (DeviceDataManager.actuatorAdapterMgr self')
       = [ActuatorData.mk (Some "HvacActuator"%string) 1001 sample_location 1
            (decimal 20 0) false 0].
Proof.
  destruct (temperature_reading_drives_hvac sample_cc sample_rn sample_coordinator
              (temperature_reading (Some "TempSensor"%string) (decimal 21 0)) echo_task
              eq_refl eq_refl eq_refl eq_refl ltac:(left; discriminate))
    as (self' & Hret & Hinv & _).
  exists self'. split; [exact Hret | exact Hinv].
Defined.

(** X10. One firing of the sensor job with a listener caches the three
    readings, each stamped with the location of the device, under their
    names (distinct and non-empty); without a listener the firing leaves
    the coordinator as it was. *)
Theorem sensorJob_caches_stamped_readings {C : Type} `{PahoClient C} (cc : ConfigConst)
    (rn : ResourceNames) (self : DeviceDataManager.t C) (m : SensorAdapterManager.t)
    (Xh Xp Xt : string) :
  SensorData.name (SensorAdapterManager.generateTelemetry
                     (SensorAdapterManager.humidityAdapter m)) = Some Xh ->
  SensorData.name (SensorAdapterManager.generateTelemetry
                     (SensorAdapterManager.pressureAdapter m)) = Some Xp ->
  SensorData.name (SensorAdapterManager.generateTelemetry
                     (SensorAdapterManager.tempAdapter m)) = Some Xt ->
  Xh <> EmptyString -> Xp <> EmptyString -> Xt <> EmptyString ->
  Xh <> Xp -> Xh <> Xt -> Xp <> Xt ->
  (SensorAdapterManager.dataMsgListener m = true ->
   exists self',
     DeviceDataManager.sensorJob cc rn self m = Py.Ok self'
     /\ DeviceDataManager.getLatestSensorDataFromCache self' (Some Xh) =
          Some (SensorData.setLocationID
                  (SensorAdapterManager.generateTelemetry
                     (SensorAdapterManager.humidityAdapter m))
                  (SensorAdapterManager.locationID m))
     /\ DeviceDataManager.getLatestSensorDataFromCache self' (Some Xp) =
          Some (SensorData.setLocationID
                  (SensorAdapterManager.generateTelemetry
                     (SensorAdapterManager.pressureAdapter m))
                  (SensorAdapterManager.locationID m))
     /\ DeviceDataManager.getLatestSensorDataFromCache self' (Some Xt) =
          Some (SensorData.setLocationID
                  (SensorAdapterManager.generateTelemetry
                     (SensorAdapterManager.tempAdapter m))
                  (SensorAdapterManager.locationID m)))
  /\ (SensorAdapterManager.dataMsgListener m = false ->
      DeviceDataManager.sensorJob cc rn self m = Py.Ok self).
Proof.
  intros Hh Hp Ht HXh HXp HXt Hhp Hht Hpt.
  unfold DeviceDataManager.sensorJob, SensorAdapterManager.handleTelemetry.
  split; intros Hl; rewrite Hl; [| reflexivity].
  cbn [map].
  set (l := [Some _; Some _; Some _]).
  destruct (handleSensorMessages_latest cc rn Xh l HXh self) as (self' & Hrun & Hlh).
  destruct (handleSensorMessages_latest cc rn Xp l HXp self) as (s2 & Hrun2 & Hlp).
  destruct (handleSensorMessages_latest cc rn Xt l HXt self) as (s3 & Hrun3 & Hlt).
  rewrite Hrun in Hrun2, Hrun3. injection Hrun2 as <-. injection Hrun3 as <-.
  exists self'. split; [exact Hrun |].
  subst l. cbn [last_named SensorData.setLocationID SensorData.name] in Hlh, Hlp, Hlt.
  rewrite Hh, Hp, Ht in Hlh, Hlp, Hlt.
  rewrite Hlh, Hlp, Hlt.
  repeat split;
    repeat match goal with
           | |- context [decide ?P] => destruct (decide P); try congruence
           end.
Qed.

(** The sample sensor manager on the sample coordinator. *)
Lemma sensorJob_caches_stamped_readings_witness :
  exists self',
    DeviceDataManager.sensorJob sample_cc sample_rn sample_coordinator sample_sensors
      = Py.Ok self'
    /\ DeviceDataManager.getLatestSensorDataFromCache self' (Some "HumiditySensor"%string) =
         Some (SensorData.mk (Some "HumiditySensor"%string) 1010 sample_location
                 (decimal 405 (-1)) sample_time)
    /\ DeviceDataManager.getLatestSensorDataFromCache self' (Some "PressureSensor"%string) =
         Some (SensorData.mk (Some "PressureSensor"%string) 1012 sample_location
                 (decimal 10132 (-1)) sample_time)
    /\ DeviceDataManager.getLatestSensorDataFromCache self' (Some "TempSensor"%string) =
         Some (SensorData.mk (Some "TempSensor"%string) 1013 sample_location
                 (decimal 215 (-1)) sample_time).
Proof.
  apply (proj1 (sensorJob_caches_stamped_readings sample_cc sample_rn sample_coordinator
                  sample_sensors "HumiditySensor" "PressureSensor" "TempSensor"
                  eq_refl eq_refl eq_refl
                  ltac:(discriminate) ltac:(discriminate) ltac:(discriminate)
                  ltac:(discriminate) ltac:(discriminate) ltac:(discriminate))
           eq_refl).
Defined.

(** X11. The periodic sensor job closes the loop: when the sensor manager
    and the actuator manager are configured with the same location, local
    handling is enabled, an HVAC backend is registered and only the third
    backend produces temperature readings, one firing of the job makes the
    HVAC backend run exactly once, on the control rule's command for the
    stamped temperature reading. *)
Theorem sensorJob_drives_hvac {C : Type} `{PahoClient C} (cc : ConfigConst)
    (rn : ResourceNames) (self : DeviceDataManager.t C) (m : SensorAdapterManager.t)
    (task : ActuatorAdapterManager.ActuatorTask) :
  SensorAdapterManager.dataMsgListener m = true ->
  DeviceDataManager.handleTempChangeOnDevice self = true ->
  SensorAdapterManager.locationID m =
    ActuatorAdapterManager.locationID (DeviceDataManager.actuatorAdapterMgr self) ->
  ActuatorAdapterManager.hvacActuator (DeviceDataManager.actuatorAdapterMgr self)
    = Some task ->
  (HVAC_ACTUATOR_TYPE cc <> HUMIDIFIER_ACTUATOR_TYPE cc
   \/ ActuatorAdapterManager.humidifierActuator (DeviceDataManager.actuatorAdapterMgr self)
      = None) ->
  SensorData.typeID (SensorAdapterManager.generateTelemetry
                       (SensorAdapterManager.humidityAdapter m)) <> TEMP_SENSOR_TYPE cc ->
  SensorData.typeID (SensorAdapterManager.generateTelemetry
                       (SensorAdapterManager.pressureAdapter m)) <> TEMP_SENSOR_TYPE cc ->
  SensorData.typeID (SensorAdapterManager.generateTelemetry
                       (SensorAdapterManager.tempAdapter m)) = TEMP_SENSOR_TYPE cc ->
  exists self',
    DeviceDataManager.sensorJob cc rn self m = Py.Ok self'
    /\ ActuatorAdapterManager.invocations (DeviceDataManager.actuatorAdapterMgr self') =
         ActuatorAdapterManager.invocations (DeviceDataManager.actuatorAdapterMgr self)
           ++ [DeviceDataManager.hvacCommand cc self
                 (SensorData.setLocationID
                    (SensorAdapterManager.generateTelemetry
                       (SensorAdapterManager.tempAdapter m))
                    (SensorAdapterManager.locationID m))]
    /\ DeviceDataManager.latestActuatorDataCache self' =
         DeviceDataManager.latestActuatorDataCache self.
Proof.
  intros Hl Hon Hloc Htask Hhum Hth Htp Htt.
  unfold DeviceDataManager.sensorJob, SensorAdapterManager.handleTelemetry.
  rewrite Hl. cbn [map DeviceDataManager.handleSensorMessages].
  set (h := SensorData.setLocationID
              (SensorAdapterManager.generateTelemetry
                 (SensorAdapterManager.humidityAdapter m)) _).
  set (p := SensorData.setLocationID
              (SensorAdapterManager.generateTelemetry
                 (SensorAdapterManager.pressureAdapter m)) _).
  set (t := SensorData.setLocationID
              (SensorAdapterManager.generateTelemetry
                 (SensorAdapterManager.tempAdapter m)) _).
  destruct (handleSensorMessage_effect cc rn self h)
    as (s1 & R1 & S1 & _ & A1 & _ & M1 & _).
  destruct (handleSensorMessage_effect cc rn s1 p)
    as (s2 & R2 & S2 & _ & A2 & _ & M2 & _).
  destruct (handleSensorMessage_effect cc rn s2 t)
    as (s3 & R3 & S3 & _ & A3 & _ & M3 & _).
  rewrite R1. cbn [Py.bind]. rewrite R2. cbn [Py.bind]. rewrite R3. cbn [Py.bind].
  exists s3. split; [reflexivity |].
  rewrite (analysis_skips cc self h Hth) in M1.
  rewrite (analysis_skips cc s1 p Htp) in M2.
  assert (S12 : same_settings self s2).
  { destruct S1 as (a1 & a2 & a3 & a4 & a5), S2 as (b1 & b2 & b3 & b4 & b5).
    repeat split; congruence. }
  split; [| congruence].
  rewrite M3.
  rewrite (analysis_invokes_hvac cc s2 t task).
  - rewrite (hvacCommand_settings cc self s2 t S12), M2, M1. reflexivity.
  - destruct S12 as (-> & _). exact Hon.
  - exact Htt.
  - rewrite M2, M1. exact Hloc.
  - rewrite M2, M1. exact Htask.
  - rewrite M2, M1. exact Hhum.
Qed.

(** The sample sensor manager reads 21.5 degrees: the HVAC backend receives
    ON at the ceiling of 20.0. *)
Lemma sensorJob_drives_hvac_witness :
  exists self',
    DeviceDataManager.sensorJob sample_cc sample_rn sample_coordinator sample_sensors
      = Py.Ok self'
    /\ ActuatorAdapterManager.invocations (DeviceDataManager.actuatorAdapterMgr self')
       = [ActuatorData.mk (Some "HvacActuator"%string) 1001 sample_location 1
            (decimal 20 0) false 0].
Proof.
  destruct (sensorJob_drives_hvac sample_cc sample_rn sample_coordinator sample_sensors
              echo_task eq_refl eq_refl eq_refl eq_refl ltac:(left; discriminate)
              ltac:(discriminate) ltac:(discriminate) eq_refl)
    as (self' & Hrun & Hinv & _).
  exists self'. split; [exact Hrun | exact Hinv].
Defined.

(** ** The coordinator: the generic inbound handler *)


(** ** The actuator dispatch manager: construction *)

(** X13. The constructor never mixes backends.  When emulators are enabled
    and all three emulator tasks load, the manager holds the three
    emulators; in every other case (simulators configured, or any one load
    failing, even the last) it holds the two simulators and no LED
    display.  A humidifier and an HVAC backend are therefore always
    registered, and the manager starts at the configured location. *)
Theorem init_backends_uniform (env : ActuatorAdapterManagerInit.Environment)
    (listener : bool) :
  let self := ActuatorAdapterManagerInit.init env listener in
  (if ActuatorAdapterManagerInit.useEmulator env
      && ActuatorAdapterManagerInit.emulators_loaded env
   then ActuatorAdapterManager.humidifierActuator self =
          ActuatorAdapterManagerInit.HumidifierEmulatorTask env
        /\ ActuatorAdapterManager.hvacActuator self =
             ActuatorAdapterManagerInit.HvacEmulatorTask env
        /\ ActuatorAdapterManager.ledDisplayActuator self =
             ActuatorAdapterManagerInit.LedDisplayEmulatorTask env
   else ActuatorAdapterManager.humidifierActuator self =
          Some (ActuatorAdapterManagerInit.HumidifierActuatorSimTask env)
        /\ ActuatorAdapterManager.hvacActuator self =
             Some (ActuatorAdapterManagerInit.HvacActuatorSimTask env)
        /\ ActuatorAdapterManager.ledDisplayActuator self = None)
  /\ ActuatorAdapterManager.is_set (ActuatorAdapterManager.humidifierActuator self) = true
  /\ ActuatorAdapterManager.is_set (ActuatorAdapterManager.hvacActuator self) = true
  /\ ActuatorAdapterManager.locationID self = ActuatorAdapterManagerInit.deviceLocationID env
  /\ ActuatorAdapterManager.dataMsgListener self = listener
  /\ ActuatorAdapterManager.calls self = []
  /\ ActuatorAdapterManager.invocations self = [].
Proof.
  cbv zeta.
  unfold ActuatorAdapterManagerInit.init, ActuatorAdapterManagerInit.emulators_loaded,
    ActuatorAdapterManagerInit._initActuatorEmulationTasks,
    ActuatorAdapterManagerInit._initEnvironmentalActuationTasks.
  destruct (ActuatorAdapterManagerInit.useEmulator env); cbn [andb].
  - destruct (ActuatorAdapterManagerInit.HumidifierEmulatorTask env) as [hue |];
      [| repeat split].
    destruct (ActuatorAdapterManagerInit.HvacEmulatorTask env) as [hve |];
      [| repeat split].
    destruct (ActuatorAdapterManagerInit.LedDisplayEmulatorTask env) as [le |];
      repeat split.
  - repeat split.
Qed.

Section Constructed.

Variable cc : ConfigConst.

(** The backends of a constructed manager. *)
Lemma init_registered (env : ActuatorAdapterManagerInit.Environment) (listener : bool) :
  (exists hum hvac,
     ActuatorAdapterManager.humidifierActuator
       (ActuatorAdapterManagerInit.init env listener) = Some hum
     /\ ActuatorAdapterManager.hvacActuator
          (ActuatorAdapterManagerInit.init env listener) = Some hvac)
  /\ ActuatorAdapterManager.locationID (ActuatorAdapterManagerInit.init env listener) =
       ActuatorAdapterManagerInit.deviceLocationID env
  /\ ActuatorAdapterManager.invocations (ActuatorAdapterManagerInit.init env listener) = []
  /\ (ActuatorAdapterManagerInit.useEmulator env
      && ActuatorAdapterManagerInit.emulators_loaded env = false ->
      ActuatorAdapterManager.ledDisplayActuator
        (ActuatorAdapterManagerInit.init env listener) = None).
Proof.
  unfold ActuatorAdapterManagerInit.init, ActuatorAdapterManagerInit.emulators_loaded,
    ActuatorAdapterManagerInit._initActuatorEmulationTasks,
    ActuatorAdapterManagerInit._initEnvironmentalActuationTasks.
  destruct (ActuatorAdapterManagerInit.useEmulator env); cbn [andb].
  - destruct (ActuatorAdapterManagerInit.HumidifierEmulatorTask env) as [hue |];
      [| repeat split; eauto].
    destruct (ActuatorAdapterManagerInit.HvacEmulatorTask env) as [hve |];
      [| repeat split; eauto].
    destruct (ActuatorAdapterManagerInit.LedDisplayEmulatorTask env) as [le |];
      repeat split; eauto; discriminate.
  - repeat split; eauto.
Qed.

End Constructed.

(** X14. A freshly constructed manager always serves an HVAC command
    addressed to the configured location: some backend runs on it and its
    answer is returned.  An LED display command is served only with the
    emulators: in simulator mode, or after any emulator failed to load, it
    is dropped: no backend runs and [None] is returned. *)
Theorem init_then_sendActuatorCommand (cc : ConfigConst)
    (env : ActuatorAdapterManagerInit.Environment) (listener : bool)
    (data : ActuatorData.t) :
  ActuatorData.isResponse data = false ->
  ActuatorData.locationID data = ActuatorAdapterManagerInit.deviceLocationID env ->
  HVAC_ACTUATOR_TYPE cc <> HUMIDIFIER_ACTUATOR_TYPE cc ->
  LED_DISPLAY_ACTUATOR_TYPE cc <> HUMIDIFIER_ACTUATOR_TYPE cc ->
  LED_DISPLAY_ACTUATOR_TYPE cc <> HVAC_ACTUATOR_TYPE cc ->
  let self := ActuatorAdapterManagerInit.init env listener in
  let '(self', response) := ActuatorAdapterManager.sendActuatorCommand cc self (Some data) in
  (ActuatorData.typeID data = HVAC_ACTUATOR_TYPE cc ->
   exists task,
     ActuatorAdapterManager.hvacActuator self = Some task
     /\ response = ActuatorAdapterManager.updateActuator task data
     /\ ActuatorAdapterManager.invocations self' = [data])
  /\ (ActuatorData.typeID data = LED_DISPLAY_ACTUATOR_TYPE cc ->
      ActuatorAdapterManagerInit.useEmulator env
      && ActuatorAdapterManagerInit.emulators_loaded env = false ->
      response = None /\ ActuatorAdapterManager.invocations self' = []).
Proof.
  intros Hresp Hloc Hne1 Hne2 Hne3. cbv zeta.
  destruct (init_registered env listener) as ((hum & hvac & Hhum & Hhvac) & Hl & Hinv & Hled).
  rewrite (sendActuatorCommand_accepted cc _ _ Hresp (eq_trans Hloc (eq_sym Hl))).
  cbv zeta. rewrite Hhum, Hhvac. cbn [ActuatorAdapterManager.is_set].
  rewrite !andb_true_r.
  destruct (ActuatorData.typeID data =? HUMIDIFIER_ACTUATOR_TYPE cc) eqn:Ehum.
  { apply Z.eqb_eq in Ehum. cbn [ActuatorAdapterManager.update ActuatorAdapterManager.invoke].
    split; intros Hty; congruence. }
  destruct (ActuatorData.typeID data =? HVAC_ACTUATOR_TYPE cc) eqn:Ehvac.
  { apply Z.eqb_eq in Ehvac.
    cbn [ActuatorAdapterManager.update ActuatorAdapterManager.invoke].
    split; [| intros Hty; congruence].
    intros _. exists hvac. repeat split.
    cbn [ActuatorAdapterManager.record_call ActuatorAdapterManager.invocations].
    rewrite Hinv. reflexivity. }
  apply Z.eqb_neq in Ehvac.
  destruct ((ActuatorData.typeID data =? LED_DISPLAY_ACTUATOR_TYPE cc)
            && ActuatorAdapterManager.is_set
                 (ActuatorAdapterManager.ledDisplayActuator
                    (ActuatorAdapterManagerInit.init env listener))) eqn:Eled.
  - apply andb_prop in Eled as [_ Eset].
    destruct (ActuatorAdapterManager.ledDisplayActuator
                (ActuatorAdapterManagerInit.init env listener)) as [led |] eqn:Eq;
      [| discriminate].
    cbn [ActuatorAdapterManager.update ActuatorAdapterManager.invoke].
    split; [intros Hty; contradiction |].
    intros _ Hoff. specialize (Hled Hoff). discriminate.
  - split; [intros Hty; contradiction |].
    intros _ _. split; [reflexivity |].
    cbn [ActuatorAdapterManager.record_call ActuatorAdapterManager.invocations]. exact Hinv.
Qed.

(** On the sample environment the LED display emulator does not load: an
    HVAC command reaches the simulator, an LED display command is lost. *)
Lemma init_then_sendActuatorCommand_witness :
  snd (ActuatorAdapterManager.sendActuatorCommand sample_cc
         (ActuatorAdapterManagerInit.init sample_environment true)
         (Some (ActuatorData.mk (Some "HvacActuator"%string) 1001 sample_location 1
                  (decimal 20 0) false 0)))
    = Some (ActuatorData.mk (Some "HvacActuator"%string) 1001 sample_location 1
              (decimal 20 0) true 0)
  /\ snd (ActuatorAdapterManager.sendActuatorCommand sample_cc
            (ActuatorAdapterManagerInit.init sample_environment true)
            (Some (ActuatorData.mk (Some "LedDisplay"%string) 1100 sample_location 1
                     (decimal 0 0) false 0)))
     = None.
Proof.
  split.
  - pose proof (init_then_sendActuatorCommand sample_cc sample_environment true
                  (ActuatorData.mk (Some "HvacActuator"%string) 1001 sample_location 1
                     (decimal 20 0) false 0)
                  eq_refl eq_refl ltac:(discriminate) ltac:(discriminate)
                  ltac:(discriminate)) as Hsend.
    cbv zeta in Hsend.
    destruct (ActuatorAdapterManager.sendActuatorCommand _ _ _) as [self' response].
    destruct (proj1 Hsend eq_refl) as (task & Htask & Hr & _).
    injection Htask as <-. exact Hr.
  - pose proof (init_then_sendActuatorCommand sample_cc sample_environment true
                  (ActuatorData.mk (Some "LedDisplay"%string) 1100 sample_location 1
                     (decimal 0 0) false 0)
                  eq_refl eq_refl ltac:(discriminate) ltac:(discriminate)
                  ltac:(discriminate)) as Hsend.
    cbv zeta in Hsend.
    destruct (ActuatorAdapterManager.sendActuatorCommand _ _ _) as [self' response].
    exact (proj1 (proj2 Hsend eq_refl eq_refl)).
Defined.

(** ** The MQTT connector: inbound messages and publishing *)

Lemma utf8_decode_app_ascii (p s : string) :
  isascii p = true ->
  utf8_decode (p +:+ s) = let* s' := utf8_decode s in Py.Ok (p +:+ s').
Proof.
  induction p as [| c p IH]; intros Hp.
  - change (EmptyString +:+ s) with s. destruct (utf8_decode s); reflexivity.
  - cbn [isascii] in Hp. apply andb_prop in Hp as [Hc Hp].
    change (String c p +:+ s) with (String c (p +:+ s)).
    cbn [utf8_decode]. rewrite Hc, (IH Hp).
    destruct (utf8_decode s); reflexivity.
Qed.

Lemma utf8_decode_ascii (b : string) : isascii b = true -> utf8_decode b = Py.Ok b.
Proof.
  intros Hb. pose proof (utf8_decode_app_ascii b EmptyString Hb) as Happ.
  assert (Hnil : forall s : string, s +:+ EmptyString = s).
  { induction s as [| c s IHs]; [reflexivity |].
    change (String c s +:+ EmptyString) with (String c (s +:+ EmptyString)).
    rewrite IHs. reflexivity. }
  rewrite Hnil in Happ. rewrite Happ. cbn [utf8_decode Py.bind]. rewrite Hnil. reflexivity.
Qed.

(** X15. A message with an ASCII payload, arriving on a topic that resolves
    to a resource while a listener is registered, is handed to the
    listener exactly once, with that resource and the payload unchanged;
    the library client and the record of publishes are untouched.  The
    callback for actuator commands does the same. *)
Theorem onMessage_delivers {C : Type} `{PahoClient C} (rn : ResourceNames)
    (self : MqttClientConnector.t C) (msg : MQTTMessage) (r : ResourceNameEnum) :
  MqttClientConnector.dataMsgListener self = true ->
  getResourceNameByValue rn (topic msg) = Py.Ok (Some r) ->
  isascii (payload msg) = true ->
  exists self',
    MqttClientConnector.onMessage rn self msg = Py.Ok self'
    /\ onActuatorCommandMessage rn self msg = Py.Ok self'
    /\ MqttClientConnector.delivered self' =
         MqttClientConnector.delivered self ++ [(r, payload msg)]
    /\ MqttClientConnector.mc self' = MqttClientConnector.mc self
    /\ MqttClientConnector.publishCalls self' = MqttClientConnector.publishCalls self
    /\ MqttClientConnector.dataMsgListener self' = true.
Proof.
  intros Hl Hr Hp.
  exists (MqttClientConnector.deliver self r (payload msg)).
  unfold MqttClientConnector.onMessage, onActuatorCommandMessage.
  rewrite (utf8_decode_ascii _ Hp). cbn [Py.bind]. rewrite Hl, Hr.
  repeat split. exact Hl.
Qed.

(** A command text arriving on the actuator command topic. *)
Lemma onMessage_delivers_witness :
  exists self',
    MqttClientConnector.onMessage sample_rn (sample_connector true)
      {| topic := "PIOT/ConstrainedDevice/ActuatorCmd"; payload := "{}" |} = Py.Ok self'
    /\ MqttClientConnector.delivered self' = [(CDA_ACTUATOR_CMD_RESOURCE, "{}"%string)].
Proof.
  destruct (onMessage_delivers sample_rn (sample_connector true)
              {| topic := "PIOT/ConstrainedDevice/ActuatorCmd"; payload := "{}" |}
              CDA_ACTUATOR_CMD_RESOURCE eq_refl eq_refl eq_refl)
    as (self' & Hret & _ & Hdel & _).
  exists self'. split; [exact Hret | exact Hdel].
Defined.

(** X16. The payload is decoded before the [try] block is entered: a
    payload that is not UTF-8 (here: ASCII text followed by a byte that
    cannot start a sequence) makes both callbacks raise
    [UnicodeDecodeError], whether a listener is registered or not and
    whatever the topic; nothing is delivered. *)
Theorem onMessage_undecodable_raises {C : Type} `{PahoClient C} (rn : ResourceNames)
    (self : MqttClientConnector.t C) (msg : MQTTMessage) (p r : string) (c : ascii) :
  payload msg = p +:+ String c r ->
  isascii p = true ->
  128 <= code c < 194 \/ 245 <= code c ->
  MqttClientConnector.onMessage rn self msg = Py.Raise Py.UnicodeDecodeError
  /\ onActuatorCommandMessage rn self msg = Py.Raise Py.UnicodeDecodeError.
Proof.
  intros Hpay Hp Hc.
  assert (Hdec : utf8_decode (payload msg) = Py.Raise Py.UnicodeDecodeError).
  { rewrite Hpay, (utf8_decode_app_ascii p _ Hp). cbn [utf8_decode].
    destruct Hc as [[Hlo Hhi] | Hhi].
    - replace (code c <? 128) with false by (symmetry; apply Z.ltb_ge; lia).
      replace (code c <? 194) with true by (symmetry; apply Z.ltb_lt; lia).
      reflexivity.
    - replace (code c <? 128) with false by (symmetry; apply Z.ltb_ge; lia).
      replace (code c <? 194) with false by (symmetry; apply Z.ltb_ge; lia).
      replace (code c <? 196) with false by (symmetry; apply Z.ltb_ge; lia).
      replace (code c <? 245) with false by (symmetry; apply Z.ltb_ge; lia).
      reflexivity. }
  unfold MqttClientConnector.onMessage, onActuatorCommandMessage.
  rewrite Hdec. split; reflexivity.
Qed.

(** The payload [b'ok\xff']. *)
Lemma onMessage_undecodable_raises_witness :
  MqttClientConnector.onMessage sample_rn (sample_connector true)
    {| topic := "PIOT/ConstrainedDevice/ActuatorCmd";
       payload := String "o" (String "k" (String "255"%char EmptyString)) |}
  = Py.Raise Py.UnicodeDecodeError.
Proof.
  apply (proj1 (onMessage_undecodable_raises sample_rn (sample_connector true)
                  {| topic := "PIOT/ConstrainedDevice/ActuatorCmd";
                     payload := String "o" (String "k" (String "255"%char EmptyString)) |}
                  "ok" EmptyString "255"%char eq_refl eq_refl
                  ltac:(right; vm_compute; discriminate))).
Defined.

(** X17. [publishMessage] reports success exactly when the library
    completed the publish: it returns [True] if and only if a resource and
    a non-empty message were given and both [publish] and
    [wait_for_publish] returned; the connector then holds the client that
    the library left. *)
Theorem publishMessage_true_iff_completed {C : Type} `{PahoClient C} (rn : ResourceNames)
    (self self' : MqttClientConnector.t C) (resource : option ResourceNameEnum)
    (msg : option string) (qos : Z) :
  MqttClientConnector.publishMessage rn self resource msg qos = Py.Ok (self', true)
  <-> exists (r : ResourceNameEnum) (m : string) (mc' : C) (info : MQTTMessageInfo),
        resource = Some r /\ msg = Some m /\ m <> EmptyString
        /\ publish (MqttClientConnector.mc self) (value rn r) m qos = Py.Ok (mc', info)
        /\ wait_for_publish mc' info = Py.Ok (MqttClientConnector.mc self')
        /\ self' = MqttClientConnector.with_mc
                     (MqttClientConnector.record_publish self resource msg qos)
                     (MqttClientConnector.mc self').
Proof.
  unfold MqttClientConnector.publishMessage. split.
  - destruct resource as [r |]; [| discriminate].
    destruct msg as [[| c m] |]; try discriminate.
    cbn [MqttClientConnector.mc MqttClientConnector.record_publish].
    destruct (publish (MqttClientConnector.mc self) (value rn r) (String c m) qos)
      as [[mc' info] | e] eqn:Epub; [| discriminate].
    destruct (wait_for_publish mc' info) as [mc'' | e] eqn:Ewait; [| discriminate].
    intros [= <-]. exists r, (String c m), mc', info.
    repeat split; try assumption. discriminate.
  - intros (r & m & mc' & info & -> & -> & Hm & Hpub & Hwait & Hself).
    destruct m as [| c m]; [contradiction |].
    cbn [MqttClientConnector.mc MqttClientConnector.record_publish].
    rewrite Hpub, Hwait. rewrite Hself at 2. reflexivity.
Qed.

(** ** The CoAP connector *)

Section CoapRequests.

Context {H : Type} `{CoapHelperClient H}.
Variable rn : ResourceNames.

(** What a guarded library call leaves behind. *)
Lemma request_outcome (self : CoapClientConnector.t H) (op : H -> Py.res H) :
  let '(self', ok) := CoapClientConnector.request self op in
  CoapClientConnector.dataMsgListener self' = CoapClientConnector.dataMsgListener self
  /\ CoapClientConnector.observeRequests self' = CoapClientConnector.observeRequests self
  /\ (ok = false -> self' = self)
  /\ (ok = true ->
      exists h h', CoapClientConnector.coapClient self = Some h /\ op h = Py.Ok h'
                   /\ CoapClientConnector.coapClient self' = Some h').
Proof.
  unfold CoapClientConnector.request.
  destruct (CoapClientConnector.coapClient self) as [h |] eqn:Eh;
    [| repeat split; discriminate].
  destruct (op h) as [h' |] eqn:Eop; [| repeat split; discriminate].
  repeat split; [discriminate |]. intros _. exists h, h'. repeat split. exact Eop.
Qed.

End CoapRequests.

(** X18. The requests without a payload (GET, DELETE, discovery): a call
    returns [True] only when a resource was given (discovery needs none),
    a library client exists and the library call returned, whatever it
    returned; the connector then holds the client the library left.  A
    call that returns [False] leaves the connector exactly as it was, and
    no call changes the listener or the observer registry. *)
Theorem coap_requests_without_payload {H : Type} `{CoapHelperClient H} (rn : ResourceNames)
    (self : CoapClientConnector.t H) (resource : option ResourceNameEnum)
    (name : option string) (enableCON : bool) (timeout : Z) :
  (let '(self', ok) :=
     CoapClientConnector.sendGetRequest rn self resource name enableCON timeout in
   CoapClientConnector.dataMsgListener self' = CoapClientConnector.dataMsgListener self
   /\ CoapClientConnector.observeRequests self' = CoapClientConnector.observeRequests self
   /\ (ok = false -> self' = self)
   /\ (ok = true ->
       exists r h h',
         resource = Some r /\ CoapClientConnector.coapClient self = Some h
         /\ coap_get h (value rn r) timeout = Py.Ok h'
         /\ CoapClientConnector.coapClient self' = Some h'))
  /\ (let '(self', ok) :=
        CoapClientConnector.sendDeleteRequest rn self resource name enableCON timeout in
      CoapClientConnector.dataMsgListener self' = CoapClientConnector.dataMsgListener self
      /\ CoapClientConnector.observeRequests self' = CoapClientConnector.observeRequests self
      /\ (ok = false -> self' = self)
      /\ (ok = true ->
          exists r h h',
            resource = Some r /\ CoapClientConnector.coapClient self = Some h
            /\ coap_delete h (value rn r) timeout = Py.Ok h'
            /\ CoapClientConnector.coapClient self' = Some h'))
  /\ (let '(self', ok) := CoapClientConnector.sendDiscoveryRequest self timeout in
      CoapClientConnector.dataMsgListener self' = CoapClientConnector.dataMsgListener self
      /\ CoapClientConnector.observeRequests self' = CoapClientConnector.observeRequests self
      /\ (ok = false -> self' = self)
      /\ (ok = true ->
          exists h h',
            CoapClientConnector.coapClient self = Some h
            /\ coap_discover h timeout = Py.Ok h'
            /\ CoapClientConnector.coapClient self' = Some h')).
Proof.
  assert (Hdisc :
    let '(self', ok) := CoapClientConnector.sendDiscoveryRequest self timeout in
    CoapClientConnector.dataMsgListener self' = CoapClientConnector.dataMsgListener self
    /\ CoapClientConnector.observeRequests self' = CoapClientConnector.observeRequests self
    /\ (ok = false -> self' = self)
    /\ (ok = true ->
        exists h h',
          CoapClientConnector.coapClient self = Some h
          /\ coap_discover h timeout = Py.Ok h'
          /\ CoapClientConnector.coapClient self' = Some h')).
  { unfold CoapClientConnector.sendDiscoveryRequest.
    exact (request_outcome self (fun h => coap_discover h timeout)). }
  unfold CoapClientConnector.sendGetRequest, CoapClientConnector.sendDeleteRequest.
  destruct resource as [r |];
    [| split; [repeat split; discriminate | split; [repeat split; discriminate | exact Hdisc]]].
  split; [| split; [| exact Hdisc]].
  - pose proof (request_outcome self (fun h => coap_get h (value rn r) timeout)) as Hreq.
    destruct (CoapClientConnector.request self _) as [self' ok].
    destruct Hreq as (Hl & Ho & Hfalse & Htrue). repeat split; try assumption.
    intros Hok. destruct (Htrue Hok) as (h & h' & Hc & Hop & Hc').
    exists r, h, h'. repeat split; assumption.
  - pose proof (request_outcome self (fun h => coap_delete h (value rn r) timeout)) as Hreq.
    destruct (CoapClientConnector.request self _) as [self' ok].
    destruct Hreq as (Hl & Ho & Hfalse & Htrue). repeat split; try assumption.
    intros Hok. destruct (Htrue Hok) as (h & h' & Hc & Hop & Hc').
    exists r, h, h'. repeat split; assumption.
Qed.

(** X19. The requests with a payload (POST, PUT): a call returns [True]
    only when a resource and a non-empty payload were given, a library
    client exists and the library call, made with that very payload,
    returned.  A call that returns [False] leaves the connector exactly as
    it was, and no call changes the listener or the observer registry. *)
Theorem coap_post_put_outcome {H : Type} `{CoapHelperClient H} (rn : ResourceNames)
    (self : CoapClientConnector.t H) (resource : option ResourceNameEnum)
    (name : option string) (enableCON : bool) (payload : option string) (timeout : Z) :
  (let '(self', ok) :=
     CoapClientConnector.sendPostRequest rn self resource name enableCON payload timeout in
   CoapClientConnector.dataMsgListener self' = CoapClientConnector.dataMsgListener self
   /\ CoapClientConnector.observeRequests self' = CoapClientConnector.observeRequests self
   /\ (ok = false -> self' = self)
   /\ (ok = true ->
       exists r p h h',
         resource = Some r /\ payload = Some p /\ p <> EmptyString
         /\ CoapClientConnector.coapClient self = Some h
         /\ coap_post h (value rn r) p timeout = Py.Ok h'
         /\ CoapClientConnector.coapClient self' = Some h'))
  /\ (let '(self', ok) :=
        CoapClientConnector.sendPutRequest rn self resource name enableCON payload timeout in
      CoapClientConnector.dataMsgListener self' = CoapClientConnector.dataMsgListener self
      /\ CoapClientConnector.observeRequests self' = CoapClientConnector.observeRequests self
      /\ (ok = false -> self' = self)
      /\ (ok = true ->
          exists r p h h',
            resource = Some r /\ payload = Some p /\ p <> EmptyString
            /\ CoapClientConnector.coapClient self = Some h
            /\ coap_put h (value rn r) p timeout = Py.Ok h'
            /\ CoapClientConnector.coapClient self' = Some h')).
Proof.
  unfold CoapClientConnector.sendPostRequest, CoapClientConnector.sendPutRequest.
  destruct resource as [r |]; [| repeat split; discriminate].
  destruct payload as [[| c p] |]; try (repeat split; discriminate).
  split.
  - pose proof (request_outcome self
                  (fun h => coap_post h (value rn r) (String c p) timeout)) as Hreq.
    destruct (CoapClientConnector.request self _) as [self' ok].
    destruct Hreq as (Hl & Ho & Hfalse & Htrue). repeat split; try assumption.
    intros Hok. destruct (Htrue Hok) as (h & h' & Hc & Hop & Hc').
    exists r, (String c p), h, h'. repeat split; try assumption. discriminate.
  - pose proof (request_outcome self
                  (fun h => coap_put h (value rn r) (String c p) timeout)) as Hreq.
    destruct (CoapClientConnector.request self _) as [self' ok].
    destruct Hreq as (Hl & Ho & Hfalse & Htrue). repeat split; try assumption.
    intros Hok. destruct (Htrue Hok) as (h & h' & Hc & Hop & Hc').
    exists r, (String c p), h, h'. repeat split; try assumption. discriminate.
Qed.

(** X20. [stopObserver] answers from the registry alone: it returns [True]
    exactly when the path of the resource was registered, afterwards the
    path is not registered, every other path is as before, and the library
    client is never called, so whatever observation the library holds
    stays open. *)
Theorem stopObserver_registry {H : Type} `{CoapHelperClient H} (rn : ResourceNames)
    (self : CoapClientConnector.t H) (r : ResourceNameEnum) (name : option string)
    (timeout : Z) :
  let '(self', ok) := CoapClientConnector.stopObserver rn self (Some r) name timeout in
  (ok = true <-> is_Some (CoapClientConnector.observeRequests self !! value rn r))
  /\ CoapClientConnector.observeRequests self' !! value rn r = None
  /\ (forall p : string,
        p <> value rn r ->
        CoapClientConnector.observeRequests self' !! p =
        CoapClientConnector.observeRequests self !! p)
  /\ CoapClientConnector.coapClient self' = CoapClientConnector.coapClient self
  /\ CoapClientConnector.dataMsgListener self' = CoapClientConnector.dataMsgListener self.
Proof.
  unfold CoapClientConnector.stopObserver. cbv zeta.
  destruct (CoapClientConnector.observeRequests self !! value rn r) as [b |] eqn:Ereg;
    cbn [CoapClientConnector.observeRequests CoapClientConnector.coapClient
           CoapClientConnector.dataMsgListener].
  - split; [split; [intros _; eauto | reflexivity] |].
    split; [apply lookup_delete_eq |].
    split; [| split; reflexivity].
    intros p Hp. apply lookup_delete_ne. congruence.
  - split; [split; [discriminate | intros [b Hb]; discriminate] |].
    split; [exact Ereg |]. repeat split.
Qed.

(** X21. Starting and stopping an observation: when the library accepts
    the observation, [startObserver] returns [True] and registers the
    path; a following [stopObserver] returns [True] and leaves the registry
    without the path; a second [stopObserver] returns [False].  When the
    client is absent or the library refuses, [startObserver] returns
    [False] and registers nothing. *)
Theorem startObserver_then_stopObserver {H : Type} `{CoapHelperClient H}
    (rn : ResourceNames) (self : CoapClientConnector.t H) (r : ResourceNameEnum)
    (name : option string) (ttl timeout : Z) :
  (forall h h',
     CoapClientConnector.coapClient self = Some h ->
     coap_observe h (value rn r) = Py.Ok h' ->
     let '(s1, ok1) := CoapClientConnector.startObserver rn self (Some r) name ttl in
     let '(s2, ok2) := CoapClientConnector.stopObserver rn s1 (Some r) name timeout in
     let '(s3, ok3) := CoapClientConnector.stopObserver rn s2 (Some r) name timeout in
     ok1 = true /\ ok2 = true /\ ok3 = false
     /\ CoapClientConnector.observeRequests s1 =
          <[value rn r := true]> (CoapClientConnector.observeRequests self)
     /\ CoapClientConnector.observeRequests s2 =
          delete (value rn r) (CoapClientConnector.observeRequests self)
     /\ s3 = s2
     /\ CoapClientConnector.coapClient s2 = Some h')
  /\ ((CoapClientConnector.coapClient self = None
       \/ exists h e, CoapClientConnector.coapClient self = Some h
                      /\ coap_observe h (value rn r) = Py.Raise e) ->
      CoapClientConnector.startObserver rn self (Some r) name ttl = (self, false)).
Proof.
  split.
  - intros h h' Hc Hobs.
    unfold CoapClientConnector.startObserver, CoapClientConnector.stopObserver. cbv zeta.
    rewrite Hc, Hobs.
    cbn [CoapClientConnector.observeRequests CoapClientConnector.coapClient
           CoapClientConnector.dataMsgListener].
    rewrite lookup_insert_eq.
    cbn [CoapClientConnector.observeRequests CoapClientConnector.coapClient
           CoapClientConnector.dataMsgListener].
    rewrite lookup_delete_eq.
    repeat split. apply delete_insert_eq.
  - unfold CoapClientConnector.startObserver. cbv zeta.
    intros [-> | (h & e & -> & ->)]; reflexivity.
Qed.

(** The sample connector observes the sensor resource. *)
Lemma startObserver_then_stopObserver_witness :
  snd (CoapClientConnector.startObserver sample_rn sample_coap
         (Some CDA_SENSOR_MSG_RESOURCE) None 300) = true
  /\ snd (CoapClientConnector.stopObserver sample_rn
            (fst (CoapClientConnector.startObserver sample_rn sample_coap
                    (Some CDA_SENSOR_MSG_RESOURCE) None 300))
            (Some CDA_SENSOR_MSG_RESOURCE) None 5) = true.
Proof.
  pose proof (proj1 (startObserver_then_stopObserver sample_rn sample_coap
                       CDA_SENSOR_MSG_RESOURCE None 300 5)
                {| served := 0; limit := 10 |} {| served := 1; limit := 10 |}
                eq_refl eq_refl) as Hrun.
  destruct (CoapClientConnector.startObserver sample_rn sample_coap _ _ _) as [s1 ok1].
  cbn [fst snd].
  destruct (CoapClientConnector.stopObserver sample_rn s1 _ _ _) as [s2 ok2].
  destruct (CoapClientConnector.stopObserver sample_rn s2 _ _ _) as [s3 ok3].
  destruct Hrun as (H1 & H2 & _). split; assumption.
Defined.

(** ** The codec: reading back what was written *)

Import Json.

Module Roundtrip.

(** *** Text *)

Lemma append_nil_r (s : string) : s +:+ EmptyString = s.
Proof.
  induction s as [| c s IH]; [reflexivity |].
  change (String c s +:+ EmptyString) with (String c (s +:+ EmptyString)).
  rewrite IH. reflexivity.
Qed.

Lemma append_assoc (a b c : string) : (a +:+ b) +:+ c = a +:+ b +:+ c.
Proof.
  induction a as [| x a IH]; [reflexivity |].
  change (String x (a +:+ b) +:+ c = String x (a +:+ b +:+ c)).
  change (String x ((a +:+ b) +:+ c) = String x (a +:+ b +:+ c)).
  rewrite IH. reflexivity.
Qed.

Lemma append_cons (x : ascii) (a b : string) : String x a +:+ b = String x (a +:+ b).
Proof. reflexivity. Qed.

Lemma length_append (a b : string) :
  String.length (a +:+ b) = (String.length a + String.length b)%nat.
Proof.
  induction a as [| x a IH]; [reflexivity |].
  rewrite append_cons. cbn [String.length]. rewrite IH. reflexivity.
Qed.

(** *** String literals: [scanstring] undoes [escape] *)

Lemma scanstring_escape_char (c : ascii) (rest : string) :
  scanstring (escape_char c +:+ rest) = cons_char c (scanstring rest).
Proof.
  destruct c as [[] [] [] [] [] [] [] []]; reflexivity.
Qed.

Lemma scanstring_escape (s rest : string) :
  scanstring (escape s +:+ String dquote rest) = Py.Ok (s, rest).
Proof.
  induction s as [| c s IH].
  - reflexivity.
  - cbn [escape]. rewrite append_assoc, scanstring_escape_char, IH. reflexivity.
Qed.

End Roundtrip.

Module Digits.

(** *** Decimal digits *)

Lemma digits_value_append (a b : string) (acc : Z) :
  digits_value acc (a +:+ b) = digits_value (digits_value acc a) b.
Proof.
  revert acc. induction a as [| c a IH]; intros acc; [reflexivity |].
  rewrite Roundtrip.append_cons. cbn [digits_value]. apply IH.
Qed.

Lemma digits_value_zeros (k : nat) (acc : Z) :
  digits_value acc (zeros k) = acc * 10 ^ Z.of_nat k.
Proof.
  revert acc. induction k as [| k IH]; intros acc.
  - cbn [zeros digits_value]. change (10 ^ Z.of_nat 0) with 1. lia.
  - cbn [zeros digits_value]. rewrite IH. change (code "0") with 48.
    rewrite Nat2Z.inj_succ, Z.pow_succ_r by lia. lia.
Qed.

Lemma of_uint_acc_value (d : Decimal.uint) (acc : positive) :
  Z.pos (Pos.of_uint_acc d acc) =
  Z.pos acc * 10 ^ Z.of_nat (Decimal.nb_digits d) + Z.of_N (Pos.of_uint d).
Proof.
  revert acc. induction d as [| d IH | d IH | d IH | d IH | d IH | d IH | d IH | d IH
                               | d IH | d IH]; intros acc.
  1: simpl; lia.
  all: cbn [Pos.of_uint_acc Pos.of_uint Decimal.nb_digits];
    rewrite Nat2Z.inj_succ, Z.pow_succ_r by lia;
    rewrite IH; cbn [Z.of_N]; try rewrite (IH 1%positive); try rewrite (IH 2%positive);
    try rewrite (IH 3%positive); try rewrite (IH 4%positive); try rewrite (IH 5%positive);
    try rewrite (IH 6%positive); try rewrite (IH 7%positive); try rewrite (IH 8%positive);
    try rewrite (IH 9%positive); lia.
Qed.

Lemma digits_value_uint (d : Decimal.uint) (acc : Z) :
  digits_value acc (NilEmpty.string_of_uint d) =
  acc * 10 ^ Z.of_nat (Decimal.nb_digits d) + Z.of_N (Pos.of_uint d).
Proof.
  revert acc. induction d as [| d IH | d IH | d IH | d IH | d IH | d IH | d IH | d IH
                               | d IH | d IH]; intros acc.
  1: simpl; lia.
  all: cbn [NilEmpty.string_of_uint digits_value Pos.of_uint Decimal.nb_digits];
    rewrite Nat2Z.inj_succ, Z.pow_succ_r by lia;
    rewrite IH; cbn [Z.of_N]; try rewrite of_uint_acc_value;
    match goal with
    | |- context [code ?c] => let v := eval vm_compute in (code c) in change (code c) with v
    end; lia.
Qed.

Lemma string_of_uint_digits (d : Decimal.uint) :
  forallb is_digit (list_ascii_of_string (NilEmpty.string_of_uint d)) = true.
Proof.
  induction d; cbn [NilEmpty.string_of_uint list_ascii_of_string forallb];
    try reflexivity; rewrite IHd; reflexivity.
Qed.

Lemma unorm_no_leading_zero (l l' : Decimal.uint) :
  Decimal.unorm l = Decimal.D0 l' -> l' = Decimal.Nil.
Proof.
  induction l; cbn [Decimal.unorm]; intros Heq;
    try discriminate; try (injection Heq as <-; reflexivity).
  apply IHl. exact Heq.
Qed.

Lemma to_uint_head (p : positive) :
  exists (c : ascii) (s : string),
    NilEmpty.string_of_uint (Pos.to_uint p) = String c s
    /\ is_digit c = true /\ c <> "0"%char.
Proof.
  pose proof (DecimalPos.Unsigned.to_of (Pos.to_uint p)) as Hnorm.
  rewrite DecimalPos.Unsigned.of_to in Hnorm. cbn [N.to_uint] in Hnorm.
  pose proof (DecimalPos.Unsigned.to_uint_nonzero p) as Hnz.
  pose proof (DecimalPos.Unsigned.to_uint_nonnil p) as Hnn.
  destruct (Pos.to_uint p) as [| l | l | l | l | l | l | l | l | l | l] eqn:Ep;
    try contradiction;
    cbn [NilEmpty.string_of_uint];
    try (eexists _, _; split; [reflexivity | split; [reflexivity | discriminate]]).
  symmetry in Hnorm. apply unorm_no_leading_zero in Hnorm. subst l. contradiction.
Qed.

(** The digits of a positive integer: digits only, the first of them not a
    zero, and their value is the integer. *)
Lemma digits_of_pos (z : Z) :
  0 < z ->
  exists (c : ascii) (s : string),
    digits_of z = String c s
    /\ is_digit c = true /\ c <> "0"%char
    /\ forallb is_digit (list_ascii_of_string (digits_of z)) = true
    /\ digits_value 0 (digits_of z) = z.
Proof.
  intros Hz. destruct z as [| p | p]; try lia.
  unfold digits_of. cbn [Z.to_int NilZero.string_of_int].
  destruct (to_uint_head p) as (c & s & Hs & Hc & Hc0).
  assert (Hstr : NilZero.string_of_uint (Pos.to_uint p) =
                 NilEmpty.string_of_uint (Pos.to_uint p)).
  { pose proof (DecimalPos.Unsigned.to_uint_nonnil p). destruct (Pos.to_uint p); try reflexivity.
    contradiction. }
  rewrite Hstr. exists c, s. split; [exact Hs |]. split; [exact Hc |].
  split; [exact Hc0 |]. split; [apply string_of_uint_digits |].
  rewrite digits_value_uint, DecimalPos.Unsigned.of_to. cbn [Z.of_N]. lia.
Qed.

Lemma digits_of_neg (z : Z) :
  z < 0 -> digits_of z = String "-" (digits_of (- z)).
Proof.
  intros Hz. destruct z as [| p | p]; try lia. reflexivity.
Qed.

Lemma digits_of_zero : digits_of 0 = "0"%string.
Proof. reflexivity. Qed.

End Digits.

Module Numbers.

Lemma digit_cases (c : ascii) :
  is_digit c = true ->
  c = "0"%char \/ c = "1"%char \/ c = "2"%char \/ c = "3"%char \/ c = "4"%char
  \/ c = "5"%char \/ c = "6"%char \/ c = "7"%char \/ c = "8"%char \/ c = "9"%char.
Proof.
  destruct c as [[] [] [] [] [] [] [] []]; cbv; intros Hc; try discriminate; tauto.
Qed.

Lemma ends_value_cases (r : string) :
  ends_value r = true ->
  exists r', r = String "," r' \/ r = String "010" r'.
Proof.
  intros Hr. destruct r as [| c r']; [discriminate |]. exists r'.
  destruct c as [[] [] [] [] [] [] [] []]; cbv in Hr; try discriminate; tauto.
Qed.

Lemma span_digits_app (d r : string) :
  all_digits d = true -> ends_value r = true -> span_digits (d +:+ r) = (d, r).
Proof.
  intros Hd Hr. induction d as [| c d IH].
  - destruct (ends_value_cases r Hr) as [r' [-> | ->]]; reflexivity.
  - unfold all_digits in Hd. cbn [list_ascii_of_string forallb] in Hd.
    apply andb_prop in Hd as [Hc Hd].
    rewrite Roundtrip.append_cons. cbn [span_digits]. rewrite Hc, (IH Hd). reflexivity.
Qed.

(** [span_digits] stops at a dot and at an exponent mark as well. *)
Lemma span_digits_stop (d r : string) (c : ascii) :
  all_digits d = true -> is_digit c = false ->
  span_digits (d +:+ String c r) = (d, String c r).
Proof.
  intros Hd Hc. induction d as [| x d IH].
  - cbn [String.append span_digits]. simpl. rewrite Hc. reflexivity.
  - unfold all_digits in Hd. cbn [list_ascii_of_string forallb] in Hd.
    apply andb_prop in Hd as [Hx Hd].
    rewrite Roundtrip.append_cons. cbn [span_digits]. rewrite Hx, (IH Hd). reflexivity.
Qed.


(** What follows an integer part, a fraction or an exponent does not start
    with a digit. *)
Lemma span_digits_tail (d frac r : string) (ex : option (bool * string)) :
  all_digits d = true -> ends_value r = true ->
  span_digits (d +:+ (match ex with
                      | None => EmptyString
                      | Some (eneg, ed) => "e" +:+ (if eneg : bool then "-" else "+") +:+ ed
                      end) +:+ r) =
  (d, (match ex with
       | None => EmptyString
       | Some (eneg, ed) => "e" +:+ (if eneg : bool then "-" else "+") +:+ ed
       end) +:+ r).
Proof.
  intros Hd Hr. destruct ex as [[eneg ed] |].
  - apply span_digits_stop; [exact Hd | reflexivity].
  - apply span_digits_app; assumption.
Qed.

Lemma append_nil_l (s : string) : EmptyString +:+ s = s.
Proof. reflexivity. Qed.

Lemma all_digits_cons (c : ascii) (s : string) :
  all_digits (String c s) = true -> is_digit c = true /\ all_digits s = true.
Proof.
  unfold all_digits. cbn [list_ascii_of_string forallb]. intros Hd.
  apply andb_prop in Hd. exact Hd.
Qed.

Ltac norm_app :=
  repeat (rewrite Roundtrip.append_cons || rewrite append_nil_l
          || rewrite Roundtrip.append_assoc).

Ltac scan_number :=
  repeat (progress (cbn -[span_digits digits_value float_norm strlen String.append
                           Z.add Z.mul Z.opp Z.sub])
          || match goal with
             | |- context [code ?c =? ?n] =>
                 let b := eval vm_compute in (code c =? n) in
                 change (code c =? n) with b
             end
          || (cbn [span_digits];
              match goal with
              | Hd : is_digit ?c = true |- context [is_digit ?c] => rewrite Hd
              end)
          || (rewrite span_digits_stop by (assumption || reflexivity))).

Lemma match_number_shape (neg : bool) (int_part frac r : string)
    (ex : option (bool * string)) :
  int_digits int_part = true ->
  all_digits frac = true ->
  match ex with
  | Some (_, ed) => all_digits ed = true /\ ed <> EmptyString
  | None => True
  end ->
  ends_value r = true ->
  match_number (number_text neg int_part frac ex +:+ r) =
  Some (match frac, ex with
        | EmptyString, None =>
            PyInt (if neg then - digits_value 0 int_part else digits_value 0 int_part)
        | _, _ =>
            PyFloat (float_norm
                       (if neg then - digits_value 0 (int_part +:+ frac)
                        else digits_value 0 (int_part +:+ frac))
                       (match ex with
                        | Some (eneg, ed) =>
                            if eneg : bool then - digits_value 0 ed else digits_value 0 ed
                        | None => 0
                        end - strlen frac))
        end, r).
Proof.
  intros Hint Hfrac Hex Hr.
  unfold number_text.
  destruct int_part as [| c i]; [discriminate |].
  assert (Hc : is_digit c = true).
  { destruct c as [[] [] [] [] [] [] [] []]; try reflexivity; try discriminate;
      destruct i; discriminate. }
  assert (Hi : c = "0"%char /\ i = EmptyString \/ c <> "0"%char /\ all_digits i = true).
  { destruct (digit_cases c Hc) as [-> | Hnz].
    - left. destruct i; [split; reflexivity | discriminate].
    - right. split; [intuition (subst; discriminate) |].
      assert (Hall : all_digits (String c i) = true).
      { clear - Hint Hnz. intuition (subst; exact Hint). }
      apply all_digits_cons in Hall. apply Hall. }
  clear Hint.
  destruct frac as [| f0 frac].
  2: apply all_digits_cons in Hfrac as [Hf0 Hfrac].
  all: destruct ex as [[eneg [| e0 ed]] |];
    try (exfalso; apply (proj2 Hex); reflexivity);
    try (apply proj1 in Hex; apply all_digits_cons in Hex as [He0 Hed]).
  all: destruct (ends_value_cases r Hr) as [r' [-> | ->]].
  all: destruct Hi as [[-> ->] | [Hnz Hi]].
  all: try (destruct (digit_cases c Hc) as [-> | [-> | [-> | [-> | [-> | [-> | [-> | [-> | [-> | ->]]]]]]]]];
            [contradiction | | | | | | | | |]).
  all: destruct neg; try destruct eneg.
  all: unfold match_number; norm_app.
  all: scan_number.
  all: rewrite ?Roundtrip.append_nil_r; reflexivity.
Qed.


Lemma all_digits_app (a b : string) :
  all_digits (a +:+ b) = all_digits a && all_digits b.
Proof.
  induction a as [| c a IH]; [reflexivity |].
  rewrite Roundtrip.append_cons. unfold all_digits in *.
  cbn [list_ascii_of_string forallb]. rewrite IH, andb_assoc. reflexivity.
Qed.

Lemma all_digits_zeros (k : nat) : all_digits (zeros k) = true.
Proof. induction k as [| k IH]; [reflexivity | exact IH]. Qed.

Lemma length_zeros (k : nat) : String.length (zeros k) = k.
Proof. induction k as [| k IH]; [reflexivity |]. cbn [zeros String.length]. lia. Qed.

Lemma int_digits_nonzero (c : ascii) (s : string) :
  is_digit c = true -> c <> "0"%char -> all_digits s = true ->
  int_digits (String c s) = true.
Proof.
  intros Hc Hnz Hs.
  destruct (digit_cases c Hc)
    as [-> | [-> | [-> | [-> | [-> | [-> | [-> | [-> | [-> | ->]]]]]]]]];
    [contradiction | | | | | | | | |]; exact Hs.
Qed.

(** [repr] of an int is read back as that int. *)
Lemma match_number_int (z : Z) (r : string) :
  ends_value r = true ->
  match_number (int_repr z +:+ r) = Some (PyInt z, r).
Proof.
  intros Hr. unfold int_repr.
  destruct (Z.lt_trichotomy z 0) as [Hneg | [-> | Hpos]].
  - rewrite (Digits.digits_of_neg z Hneg).
    destruct (Digits.digits_of_pos (- z) ltac:(lia)) as (c & s & Hd & Hc & Hnz & Hall & Hval).
    pose proof (match_number_shape true (digits_of (- z)) EmptyString r None) as Hm.
    unfold number_text in Hm. rewrite Hval in Hm.
    rewrite !Roundtrip.append_nil_r in Hm.
    replace (- - z) with z in Hm by lia. apply Hm; try reflexivity; try assumption.
    rewrite Hd. apply int_digits_nonzero; try assumption.
    rewrite Hd in Hall. apply all_digits_cons in Hall. apply Hall.
  - exact (match_number_shape false "0" EmptyString r None eq_refl eq_refl I Hr).
  - destruct (Digits.digits_of_pos z Hpos) as (c & s & Hd & Hc & Hnz & Hall & Hval).
    pose proof (match_number_shape false (digits_of z) EmptyString r None) as Hm.
    unfold number_text in Hm. rewrite Hval in Hm.
    rewrite !Roundtrip.append_nil_r in Hm. rewrite append_nil_l in Hm.
    apply Hm; try reflexivity; try assumption.
    rewrite Hd. apply int_digits_nonzero; try assumption.
    rewrite Hd in Hall. apply all_digits_cons in Hall. apply Hall.
Qed.

End Numbers.

Module Floats.

(** *** Canonical decimals *)

Lemma strip_zeros_exponent (fuel : nat) (m e : Z) : e <= snd (strip_zeros fuel m e).
Proof.
  revert m e. induction fuel as [| f IH]; intros m e; cbn [strip_zeros snd]; [lia |].
  destruct (m mod 10 =? 0); cbn [snd]; [| lia].
  specialize (IH (m / 10) (e + 1)). lia.
Qed.

(** The significand of a canonical decimal has no trailing zero. *)
Lemma canonical_mod (m e : Z) :
  m <> 0 -> float_norm m e = Finite m e -> m mod 10 <> 0.
Proof.
  intros Hm Hcanon Hmod. unfold float_norm in Hcanon.
  apply Z.eqb_neq in Hm as Hm'. rewrite Hm' in Hcanon.
  assert (Hbig : 10 <= Z.abs m).
  { apply Z.mod_divide in Hmod; [| lia]. destruct Hmod as [q ->]. lia. }
  assert (Hfuel : (0 < Z.to_nat (Z.log2 (Z.abs m)))%nat).
  { pose proof (Z.log2_le_mono 2 (Z.abs m) ltac:(lia)) as Hlog.
    change (Z.log2 2) with 1 in Hlog. lia. }
  destruct (Z.to_nat (Z.log2 (Z.abs m))) as [| f]; [lia |].
  cbn [strip_zeros] in Hcanon. apply Z.eqb_eq in Hmod. rewrite Hmod in Hcanon.
  pose proof (strip_zeros_exponent f (m / 10) (e + 1)) as Hle.
  destruct (strip_zeros f (m / 10) (e + 1)) as [m' e']. cbn [snd] in Hle.
  injection Hcanon as _ He. lia.
Qed.

Lemma strip_zeros_pow (j fuel : nat) (m e : Z) :
  m mod 10 <> 0 -> (j <= fuel)%nat ->
  strip_zeros fuel (m * 10 ^ Z.of_nat j) e = (m, e + Z.of_nat j).
Proof.
  intros Hmod. revert fuel e. induction j as [| j IH]; intros fuel e Hle.
  - change (10 ^ Z.of_nat 0) with 1. rewrite Z.mul_1_r, Z.add_0_r.
    destruct fuel as [| f]; [reflexivity |]. cbn [strip_zeros].
    apply Z.eqb_neq in Hmod. rewrite Hmod. reflexivity.
  - destruct fuel as [| f]; [lia |]. cbn [strip_zeros].
    rewrite Nat2Z.inj_succ, Z.pow_succ_r by lia.
    replace (m * (10 * 10 ^ Z.of_nat j)) with (m * 10 ^ Z.of_nat j * 10) by lia.
    rewrite Z.mod_mul by lia. cbn [Z.eqb]. rewrite Z.div_mul by lia.
    rewrite IH by lia. f_equal. lia.
Qed.

(** Trailing zeros of the significand move into the exponent. *)
Lemma float_norm_scaled (m e : Z) (j : nat) :
  m <> 0 -> float_norm m e = Finite m e ->
  float_norm (m * 10 ^ Z.of_nat j) (e - Z.of_nat j) = Finite m e.
Proof.
  intros Hm Hcanon. pose proof (canonical_mod m e Hm Hcanon) as Hmod.
  unfold float_norm.
  assert (Hpow : 0 < 10 ^ Z.of_nat j) by (apply Z.pow_pos_nonneg; lia).
  assert (Hne : m * 10 ^ Z.of_nat j <> 0) by nia.
  apply Z.eqb_neq in Hne as Hne'. rewrite Hne'.
  rewrite strip_zeros_pow; [f_equal; lia | exact Hmod |].
  assert (Hlog : Z.of_nat j <= Z.log2 (Z.abs (m * 10 ^ Z.of_nat j))).
  { rewrite Z.abs_mul, (Z.abs_eq (10 ^ Z.of_nat j)) by lia.
    assert (H2 : 2 ^ Z.of_nat j <= Z.abs m * 10 ^ Z.of_nat j).
    { assert (2 ^ Z.of_nat j <= 10 ^ Z.of_nat j) by (apply Z.pow_le_mono_l; lia). nia. }
    apply Z.log2_le_mono in H2. rewrite Z.log2_pow2 in H2 by lia. exact H2. }
  lia.
Qed.

(** *** Slices of a string *)

Lemma substring_all (s : string) : String.substring 0 (String.length s) s = s.
Proof.
  induction s as [| c s IH]; [reflexivity |].
  cbn [String.length String.substring]. rewrite IH. reflexivity.
Qed.

Lemma substring_split (k : nat) (s : string) :
  (k <= String.length s)%nat ->
  String.substring 0 k s +:+ String.substring k (String.length s - k) s = s.
Proof.
  revert s. induction k as [| k IH]; intros s Hk.
  - rewrite Nat.sub_0_r, substring_all. destruct s; reflexivity.
  - destruct s as [| c s]; [cbn [String.length] in Hk; lia |].
    cbn [String.length] in *. cbn [String.substring Nat.sub].
    rewrite Roundtrip.append_cons, IH by lia. reflexivity.
Qed.

Lemma length_substring_0 (k : nat) (s : string) :
  (k <= String.length s)%nat -> String.length (String.substring 0 k s) = k.
Proof.
  revert s. induction k as [| k IH]; intros s Hk.
  - destruct s; reflexivity.
  - destruct s as [| c s]; [cbn [String.length] in Hk; lia |].
    cbn [String.length] in *. cbn [String.substring String.length]. rewrite IH by lia.
    reflexivity.
Qed.


(** *** [repr] of a float is read back as that float *)

Lemma sign_abs (m : Z) : (if m <? 0 then - Z.abs m else Z.abs m) = m.
Proof. destruct (Z.ltb_spec m 0); lia. Qed.

Lemma match_number_float (m e : Z) (r : string) :
  float_norm m e = Finite m e ->
  ends_value r = true ->
  match_number (float_repr (Finite m e) +:+ r) = Some (PyFloat (Finite m e), r).
Proof.
  intros Hcanon Hr. unfold float_repr. rewrite Hcanon.
  destruct (m =? 0) eqn:Em.
  { apply Z.eqb_eq in Em. subst m.
    assert (He : e = 0) by (unfold float_norm in Hcanon; cbn in Hcanon; congruence).
    subst e.
    exact (Numbers.match_number_shape false "0" "0" r None eq_refl eq_refl I Hr). }
  apply Z.eqb_neq in Em.
  destruct (Digits.digits_of_pos (Z.abs m) ltac:(lia)) as (c & s & HD & Hc & Hnz & Hall & Hval).
  rewrite HD in Hall, Hval. rewrite HD.
  apply Numbers.all_digits_cons in Hall as Hall'. destruct Hall' as [_ Hs].
  set (neg := m <? 0).
  set (n := strlen (String c s)).
  assert (Hn : n = Z.of_nat (S (String.length s))) by reflexivity.
  set (decpt := n + e).
  destruct ((decpt <=? -4) || (16 <? decpt)) eqn:Esci.
  - (* exponent notation *)
    set (x := decpt - 1).
    assert (Hx : x <> 0).
    { apply orb_prop in Esci as [E1 | E1]; [apply Z.leb_le in E1 | apply Z.ltb_lt in E1];
        unfold x; lia. }
    destruct (Digits.digits_of_pos (Z.abs x) ltac:(lia))
      as (c' & s' & HX & Hc' & Hnz' & Hall' & Hval').
    set (xd := digits_of (Z.abs x)) in *.
    set (pad := if strlen xd <? 2 then "0"%string else EmptyString).
    assert (Hpad : all_digits (pad +:+ xd) = true /\ pad +:+ xd <> EmptyString
                   /\ digits_value 0 (pad +:+ xd) = Z.abs x).
    { unfold pad. destruct (strlen xd <? 2).
      - repeat split; [exact Hall' | discriminate | exact Hval'].
      - rewrite Numbers.append_nil_l. repeat split; [exact Hall' | | exact Hval'].
        rewrite HX. discriminate. }
    destruct Hpad as (Hp1 & Hp2 & Hp3).
    assert (Htext :
      ((if neg then "-" else EmptyString)
         +:+ String.substring 0 1 (String c s)
         +:+ (if 1 <? n then "." +:+ String.substring 1 (String.length (String c s) - 1)
                                        (String c s)
              else EmptyString)
         +:+ "e" +:+ (if x <? 0 then "-" else "+") +:+ pad +:+ xd) +:+ r =
      number_text neg (String c EmptyString) s (Some (x <? 0, pad +:+ xd)) +:+ r).
    { assert (Hsub1 : String.substring 0 1 (String c s) = String c EmptyString)
        by (destruct s; reflexivity).
      assert (Hsub2 : String.substring 1 (String.length (String c s) - 1) (String c s) = s).
      { cbn [String.length String.substring Nat.sub]. rewrite Nat.sub_0_r.
        apply Floats.substring_all. }
      assert (Hfrac : (if 1 <? n then "." +:+ s else EmptyString) =
                      match s with EmptyString => EmptyString | _ => "." +:+ s end).
      { destruct s as [| c2 s2]; [reflexivity |].
        replace (1 <? n) with true; [reflexivity |].
        symmetry. apply Z.ltb_lt. rewrite Hn. cbn [String.length]. lia. }
      unfold number_text. rewrite Hsub1, Hsub2, Hfrac. reflexivity. }
    rewrite Htext.
    rewrite Numbers.match_number_shape;
      [| apply Numbers.int_digits_nonzero; [exact Hc | exact Hnz | reflexivity]
       | exact Hs | split; assumption | exact Hr].
    f_equal. f_equal.
    assert (Hfloat :
      float_norm (if neg then - digits_value 0 (String c EmptyString +:+ s)
                  else digits_value 0 (String c EmptyString +:+ s))
        ((if x <? 0 then - digits_value 0 (pad +:+ xd) else digits_value 0 (pad +:+ xd))
         - strlen s) = Finite m e).
    { change (String c EmptyString +:+ s) with (String c s).
      rewrite Hval, Hp3. unfold neg. rewrite sign_abs, sign_abs.
      replace (x - strlen s) with e; [exact Hcanon |].
      unfold x, decpt. rewrite Hn. unfold strlen. lia. }
    destruct s; rewrite Hfloat; reflexivity.
  - apply orb_false_elim in Esci as [E1 E2].
    apply Z.leb_gt in E1. apply Z.ltb_ge in E2.
    destruct (decpt <=? 0) eqn:Elow; [| destruct (n <=? decpt) eqn:Ehigh].
    + (* 0.000ddd *)
      apply Z.leb_le in Elow.
      set (k := Z.to_nat (- decpt)).
      assert (Hfrac : exists f0 f', zeros k +:+ String c s = String f0 f').
      { destruct k; [exists c, s | eexists _, _]; reflexivity. }
      destruct Hfrac as (f0 & f' & Hfrac).
      assert (Htext :
        ((if neg then "-" else EmptyString) +:+ "0." +:+ zeros k +:+ String c s) +:+ r =
        number_text neg "0" (zeros k +:+ String c s) None +:+ r).
      { unfold number_text. rewrite Hfrac, Roundtrip.append_nil_r. reflexivity. }
      rewrite Htext.
      rewrite Numbers.match_number_shape;
        [| reflexivity
         | rewrite Numbers.all_digits_app, Numbers.all_digits_zeros; exact Hall
         | exact I | exact Hr].
      f_equal. f_equal.
      assert (Hfloat :
        float_norm (if neg then - digits_value 0 ("0" +:+ zeros k +:+ String c s)
                    else digits_value 0 ("0" +:+ zeros k +:+ String c s))
          (0 - strlen (zeros k +:+ String c s)) = Finite m e).
      { assert (Hv : digits_value 0 ("0" +:+ zeros k +:+ String c s) = Z.abs m).
        { rewrite Roundtrip.append_cons, Numbers.append_nil_l.
          change (digits_value 0 (String "0" (zeros k +:+ String c s)))
            with (digits_value 0 (zeros k +:+ String c s)).
          rewrite Digits.digits_value_append, Digits.digits_value_zeros. exact Hval. }
        rewrite Hv. unfold neg. rewrite sign_abs.
        replace (0 - strlen (zeros k +:+ String c s)) with e; [exact Hcanon |].
        unfold strlen. rewrite Roundtrip.length_append, Numbers.length_zeros.
        cbn [String.length]. unfold k, decpt in *. lia. }
      rewrite Hfrac in *. cbv match. rewrite Hfloat. reflexivity.
    + (* ddd000.0 *)
      apply Z.leb_le in Ehigh.
      set (k := Z.to_nat (decpt - n)).
      assert (Htext :
        ((if neg then "-" else EmptyString) +:+ String c s +:+ zeros k +:+ ".0") +:+ r =
        number_text neg (String c s +:+ zeros k) "0" None +:+ r).
      { unfold number_text. rewrite !Roundtrip.append_assoc. reflexivity. }
      rewrite Htext.
      rewrite Numbers.match_number_shape;
        [| rewrite Roundtrip.append_cons;
           apply Numbers.int_digits_nonzero; [exact Hc | exact Hnz |];
           rewrite Numbers.all_digits_app, Numbers.all_digits_zeros, Hs; reflexivity
         | reflexivity | exact I | exact Hr].
      f_equal. f_equal.
      assert (Hv : digits_value 0 ((String c s +:+ zeros k) +:+ "0") =
                   Z.abs m * 10 ^ Z.of_nat (S k)).
      { rewrite !Digits.digits_value_append, Hval, Digits.digits_value_zeros.
        cbn [digits_value]. change (code "0" - 48) with 0.
        rewrite Nat2Z.inj_succ, Z.pow_succ_r by lia. lia. }
      cbv match. rewrite Hv.
      replace (if neg then - (Z.abs m * 10 ^ Z.of_nat (S k))
               else Z.abs m * 10 ^ Z.of_nat (S k))
        with (m * 10 ^ Z.of_nat (S k))
        by (unfold neg; destruct (Z.ltb_spec m 0); lia).
      replace (0 - strlen "0") with (e - Z.of_nat (S k)).
      * f_equal. apply float_norm_scaled; assumption.
      * change (strlen "0") with 1. unfold k, decpt in *. lia.
    + (* ddd.ddd *)
      apply Z.leb_gt in Elow. apply Z.leb_gt in Ehigh.
      assert (Hk : exists k', Z.to_nat decpt = S k' /\ (k' < String.length s)%nat).
      { exists (Nat.pred (Z.to_nat decpt)). rewrite Hn in Ehigh. lia. }
      destruct Hk as (k' & Hk & Hlt). rewrite Hk.
      replace (Z.to_nat (n - decpt)) with (String.length s - k')%nat
        by (rewrite Hn; lia).
      cbn [String.substring].
      set (take := String.substring 0 k' s).
      set (rest := String.substring k' (String.length s - k') s).
      assert (Hsplit : take +:+ rest = s) by (apply substring_split; lia).
      assert (Hlen : String.length rest = (String.length s - k')%nat).
      { pose proof (f_equal String.length Hsplit) as Hl.
        rewrite Roundtrip.length_append in Hl. unfold take in Hl.
        rewrite length_substring_0 in Hl by lia. lia. }
      assert (Hdig : all_digits take = true /\ all_digits rest = true).
      { rewrite <- Hsplit, Numbers.all_digits_app in Hs. apply andb_prop in Hs. exact Hs. }
      destruct Hdig as [Htake Hrest].
      assert (Hne : exists f0 f', rest = String f0 f').
      { destruct rest as [| f0 f']; [cbn [String.length] in Hlen; lia | eauto]. }
      destruct Hne as (f0 & f' & Hne).
      assert (Htext :
        ((if neg then "-" else EmptyString) +:+ String c take +:+ "." +:+ rest) +:+ r =
        number_text neg (String c take) rest None +:+ r).
      { unfold number_text. rewrite Hne, Roundtrip.append_nil_r. reflexivity. }
      rewrite Htext.
      rewrite Numbers.match_number_shape;
        [| apply Numbers.int_digits_nonzero; assumption
         | exact Hrest | exact I | exact Hr].
      f_equal. f_equal.
      assert (Hfloat :
        float_norm (if neg then - digits_value 0 (String c take +:+ rest)
                    else digits_value 0 (String c take +:+ rest))
          (0 - strlen rest) = Finite m e).
      { rewrite Roundtrip.append_cons, Hsplit, Hval. unfold neg. rewrite sign_abs.
        replace (0 - strlen rest) with e; [exact Hcanon |].
        unfold strlen. rewrite Hlen. unfold decpt in *. rewrite Hn in *. lia. }
      rewrite Hne in *. cbv match. rewrite Hfloat. reflexivity.
Qed.

End Floats.

Module Values.

(** *** One value *)

(** A number literal is found by [scan_once] as [match_number] reads it. *)
Lemma scan_once_number (fuel : nat) (s : string) (x : pyval * string) :
  match_number s = Some x -> scan_once (S fuel) s = Py.Ok x.
Proof.
  intros Hm. destruct s as [| c0 s']; [discriminate |].
  destruct c0 as [[] [] [] [] [] [] [] []];
    try (unfold match_number in Hm; cbn in Hm; discriminate);
    try (cbn -[match_number]; rewrite Hm; reflexivity).
  destruct s' as [| d s'']; [discriminate |].
  destruct d as [[] [] [] [] [] [] [] []];
    try (unfold match_number in Hm; cbn in Hm; discriminate);
    cbn -[match_number]; rewrite Hm; reflexivity.
Qed.


Lemma number_head (s : string) (x : pyval * string) :
  match_number s = Some x ->
  exists c0 s', s = String c0 s' /\ is_ws c0 = false.
Proof.
  intros Hm. destruct s as [| c0 s']; [discriminate |].
  exists c0, s'. split; [reflexivity |].
  destruct c0 as [[] [] [] [] [] [] [] []]; try reflexivity;
    unfold match_number in Hm; cbn in Hm; discriminate.
Qed.

(** The text of a flat value is read back as the value. *)
Lemma scan_flat (fuel lvl : nat) (v : pyval) (r : string) :
  flat_value v -> ends_value r = true ->
  scan_once (S fuel) (dumps_at lvl v +:+ r) = Py.Ok (v, r).
Proof.
  intros Hv Hr. destruct v as [| b | z | x | s | l | d]; try contradiction.
  - destruct (Numbers.ends_value_cases r Hr) as [r' [-> | ->]]; reflexivity.
  - destruct (Numbers.ends_value_cases r Hr) as [r' [-> | ->]]; destruct b; reflexivity.
  - cbn [dumps_at]. apply scan_once_number, Numbers.match_number_int. exact Hr.
  - cbn [dumps_at]. destruct x as [m e | | |];
      try (destruct (Numbers.ends_value_cases r Hr) as [r' [-> | ->]]; reflexivity).
    cbn [float_json]. apply scan_once_number, Floats.match_number_float; assumption.
  - cbn [dumps_at]. unfold encode_basestring_ascii.
    rewrite Roundtrip.append_assoc, Roundtrip.append_cons.
    cbn [scan_once]. change (code dquote =? 34) with true. cbv iota.
    change (String dquote EmptyString +:+ r) with (String dquote r).
    rewrite Roundtrip.scanstring_escape. reflexivity.
Qed.

Lemma flat_head (lvl : nat) (v : pyval) (r : string) :
  flat_value v -> ends_value r = true ->
  exists c0 s0, dumps_at lvl v +:+ r = String c0 s0 /\ is_ws c0 = false.
Proof.
  intros Hv Hr. destruct v as [| b | z | x | s | l | d]; try contradiction.
  - cbn [dumps_at]. Numbers.norm_app. eexists _, _. split; reflexivity.
  - destruct b; cbn [dumps_at]; Numbers.norm_app; eexists _, _; split; reflexivity.
  - cbn [dumps_at]. exact (number_head _ _ (Numbers.match_number_int z r Hr)).
  - cbn [dumps_at]. destruct x as [m e | | |];
      try (cbn [float_json]; Numbers.norm_app; eexists _, _; split; reflexivity).
    exact (number_head _ _ (Floats.match_number_float m e r Hv Hr)).
  - cbn [dumps_at]. unfold encode_basestring_ascii. Numbers.norm_app.
    eexists _, _. split; reflexivity.
Qed.

Lemma skip_ws_head (c : ascii) (s : string) :
  is_ws c = false -> skip_ws (String c s) = String c s.
Proof. intros Hc. cbn [skip_ws]. rewrite Hc. reflexivity. Qed.

(** *** The members of an object *)

(** One member, followed by text [R] that ends a value. *)
Lemma parse_member (fuel f : nat) (acc : list (string * pyval)) (k : string) (x : pyval)
    (R : string) :
  flat_value x -> ends_value R = true ->
  parse_members (scan_once (S f)) (S fuel) acc (member_text (k, x) +:+ R) =
  match skip_ws R with
  | String "}" s4 => Py.Ok (PyDict (dict_set k x acc), s4)
  | String "," s4 =>
      parse_members (scan_once (S f)) fuel (dict_set k x acc) (skip_ws s4)
  | _ => Py.Raise Py.JSONDecodeError
  end.
Proof.
  intros Hx HR. unfold member_text, encode_basestring_ascii.
  rewrite !Roundtrip.append_assoc, Roundtrip.append_cons.
  cbn [parse_members]. change (code dquote =? 34) with true. cbv iota.
  change (String dquote EmptyString +:+ ": " +:+ dumps_at 1 x +:+ R)
    with (String dquote (String ":" (String " " (dumps_at 1 x +:+ R)))).
  rewrite Roundtrip.scanstring_escape. cbn [Py.bind].
  rewrite (skip_ws_head ":") by reflexivity.
  destruct (flat_head 1 x R Hx HR) as (c0 & s0 & Hhead & Hc0).
  assert (Hskip : skip_ws (String " " (dumps_at 1 x +:+ R)) = dumps_at 1 x +:+ R).
  { cbn [skip_ws]. change (is_ws " ") with true. cbv iota.
    rewrite Hhead. apply skip_ws_head. exact Hc0. }
  rewrite Hskip, (scan_flat f 1 x R Hx HR). reflexivity.
Qed.


Lemma members_text_cons (kv kv2 : string * pyval) (d : list (string * pyval)) :
  members_text (kv :: kv2 :: d) =
  member_text kv +:+ ("," +:+ newline_indent 1) +:+ members_text (kv2 :: d).
Proof. reflexivity. Qed.

Lemma members_text_head (kv : string * pyval) (d : list (string * pyval)) (X : string) :
  exists s, members_text (kv :: d) +:+ X = String dquote s.
Proof.
  destruct kv as [k x]. destruct d as [| kv2 d].
  - unfold members_text, member_text, encode_basestring_ascii. cbn [map String.concat].
    rewrite Roundtrip.append_cons. eauto.
  - rewrite members_text_cons. unfold member_text at 1, encode_basestring_ascii.
    rewrite !Roundtrip.append_cons. eauto.
Qed.

(** The members of a flat object are read back in order. *)
Lemma parse_members_flat (d : list (string * pyval)) :
  d <> [] ->
  Forall (fun kv => flat_value (snd kv)) d ->
  forall (acc : list (string * pyval)) (fuel f : nat) (tail : string),
    (length d <= fuel)%nat ->
    parse_members (scan_once (S f)) fuel acc
      (members_text d +:+ newline_indent 0 +:+ String "}" tail) =
    Py.Ok (PyDict (stored d acc), tail).
Proof.
  induction d as [| [k x] d IH]; [contradiction |].
  intros _ Hflat acc fuel f tail Hfuel.
  apply Forall_cons_1 in Hflat as [Hx Hflat]. cbn [snd] in Hx.
  destruct fuel as [| fuel]; [cbn [length] in Hfuel; lia |].
  destruct d as [| kv2 d].
  - change (members_text [(k, x)]) with (member_text (k, x)).
    rewrite parse_member; [reflexivity | exact Hx | reflexivity].
  - rewrite members_text_cons, !Roundtrip.append_assoc.
    rewrite parse_member; [| exact Hx | reflexivity].
    destruct (members_text_head kv2 d (newline_indent 0 +:+ String "}" tail))
      as (s & Hs).
    assert (Hskip :
      skip_ws ("," +:+ newline_indent 1
                 +:+ members_text (kv2 :: d) +:+ newline_indent 0 +:+ String "}" tail) =
      String "," (newline_indent 1
                    +:+ members_text (kv2 :: d) +:+ newline_indent 0 +:+ String "}" tail))
      by reflexivity.
    rewrite Hskip.
    assert (Hskip2 :
      skip_ws (newline_indent 1
                 +:+ members_text (kv2 :: d) +:+ newline_indent 0 +:+ String "}" tail) =
      members_text (kv2 :: d) +:+ newline_indent 0 +:+ String "}" tail).
    { rewrite Hs. reflexivity. }
    rewrite Hskip2.
    apply (IH ltac:(discriminate) Hflat). cbn [length] in *. lia.
Qed.

Lemma length_members_text (d : list (string * pyval)) :
  (length d <= String.length (members_text d))%nat.
Proof.
  induction d as [| kv d IH]; [cbn [length]; lia |].
  assert (Hm : (1 <= String.length (member_text kv))%nat).
  { destruct kv as [k x]. unfold member_text, encode_basestring_ascii.
    rewrite !Roundtrip.append_cons. cbn [String.length]. lia. }
  destruct d as [| kv2 d].
  - change (members_text [kv]) with (member_text kv). cbn [length]. lia.
  - rewrite members_text_cons, !Roundtrip.length_append. cbn [length] in *. lia.
Qed.

(** *** A flat object *)

Lemma scan_once_object (fuel : nat) (rest s1 : string) :
  skip_ws rest = String dquote s1 ->
  scan_once (S fuel) (String "{" rest) =
  parse_members (scan_once fuel) (S (S (String.length s1))) [] (String dquote s1).
Proof.
  intros Hskip. cbn [scan_once]. change (code "{" =? 34) with false.
  change (code "{" =? 123) with true. cbv iota. rewrite Hskip. reflexivity.
Qed.

Lemma loads_dumps_flat (d : list (string * pyval)) :
  Forall (fun kv => flat_value (snd kv)) d ->
  loads (dumps (PyDict d)) = Py.Ok (PyDict (stored d [])).
Proof.
  intros Hflat. destruct d as [| kv d]; [reflexivity |].
  unfold loads, dumps.
  assert (Htext :
    dumps_at 0 (PyDict (kv :: d)) =
    String "{" (newline_indent 1
                  +:+ members_text (kv :: d) +:+ newline_indent 0 +:+ String "}" EmptyString))
    by reflexivity.
  rewrite Htext. rewrite (skip_ws_head "{") by reflexivity.
  destruct (members_text_head kv d (newline_indent 0 +:+ String "}" EmptyString))
    as (s & Hs).
  assert (Hskip :
    skip_ws (newline_indent 1
               +:+ members_text (kv :: d) +:+ newline_indent 0 +:+ String "}" EmptyString) =
    String dquote s).
  { rewrite Hs. reflexivity. }
  cbn [String.length].
  rewrite (scan_once_object _ _ s Hskip).
  assert (Hlen : exists f,
    String.length (newline_indent 1
                     +:+ members_text (kv :: d) +:+ newline_indent 0
                     +:+ String "}" EmptyString) = S f).
  { rewrite Hs. eexists. reflexivity. }
  destruct Hlen as (f & ->). rewrite <- Hs.
  rewrite parse_members_flat; [reflexivity | discriminate | exact Hflat |].
  pose proof (length_members_text (kv :: d)) as Hl.
  pose proof (f_equal String.length Hs) as Hl2.
  rewrite Roundtrip.length_append in Hl2. cbn [String.length] in Hl2. lia.
Qed.

End Values.

(** The attribute dictionaries of the records are flat as soon as their
    floats are canonical, and [json.loads] stores their members as they
    are, the attribute names being distinct. *)
Lemma name_val_flat (n : option string) : flat_value (SensorData.name_val n).
Proof. destruct n; exact I. Qed.

Section RoundTrip.

Variable cc : ConfigConst.

(** The decoder, on the text that [json.dumps] gives for a flat attribute
    dictionary that the rewriting leaves alone. *)
Lemma load_encoded (attrs : list (string * pyval)) :
  Forall (fun kv => flat_value (snd kv)) attrs ->
  encoded attrs = dumps (PyDict attrs) ->
  DataUtil._formatDataAndLoadDictionary (encoded attrs) false =
    Py.Ok (PyDict (stored attrs [])).
Proof.
  intros Hflat Hplain. unfold DataUtil._formatDataAndLoadDictionary.
  fold (encoded attrs) in Hplain.
  assert (Htwice : DataUtil.pythonToJsonText (encoded attrs) = dumps (PyDict attrs)).
  { rewrite Hplain. exact Hplain. }
  rewrite Htwice. apply Values.loads_dumps_flat. exact Hflat.
Qed.

Lemma encoded_nonempty (attrs : list (string * pyval)) :
  encoded attrs = dumps (PyDict attrs) ->
  exists c s, encoded attrs = String c s.
Proof.
  intros ->. destruct attrs as [| kv attrs]; eexists _, _; reflexivity.
Qed.

End RoundTrip.

(** X22. The codec round trip for sensor readings: when the value of the
    reading is a canonical float and the rewriting leaves the encoded text
    alone, decoding the text that [sensorDataToJson] produced gives back
    every attribute of the reading. *)
Theorem sensorData_roundtrip (cc : ConfigConst) (now : string) (d : SensorData.t) :
  canonical (SensorData.value d) ->
  encoded (SensorData.vars d) = dumps (PyDict (SensorData.vars d)) ->
  exists text : string,
    DataUtil.sensorDataToJson DataUtil.new (Some d) false = Py.Ok text
    /\ DataUtil.jsonToSensorData cc now (Some text) false = Py.Ok (Some (SensorData.vars d)).
Proof.
  intros Hcanon Hplain. exists (encoded (SensorData.vars d)). split; [reflexivity |].
  destruct (encoded_nonempty _ Hplain) as (c & s & Htext).
  unfold DataUtil.jsonToSensorData. rewrite Htext. rewrite <- Htext.
  rewrite load_encoded; [reflexivity | | exact Hplain].
  unfold SensorData.vars.
  repeat (apply Forall_cons; split); try apply Forall_nil; cbn [snd];
    first [exact I | apply name_val_flat | exact Hcanon].
Qed.

(** A sensor reading of 21.5 degrees. *)
Lemma sensorData_roundtrip_witness :
  exists text : string,
    DataUtil.sensorDataToJson DataUtil.new
      (Some (temperature_reading (Some "TempSensor"%string) (decimal 215 (-1)))) false
      = Py.Ok text
    /\ DataUtil.jsonToSensorData sample_cc sample_time (Some text) false =
         Py.Ok (Some (SensorData.vars
                        (temperature_reading (Some "TempSensor"%string) (decimal 215 (-1))))).
Proof.
  apply (sensorData_roundtrip sample_cc sample_time
           (temperature_reading (Some "TempSensor"%string) (decimal 215 (-1)))).
  - vm_compute. reflexivity.
  - vm_compute. reflexivity.
Defined.

Lemma of_vars_vars (d : ActuatorData.t) : ActuatorData.of_vars (ActuatorData.vars d) = Some d.
Proof. destruct d as [[n |] ty l c v r st]; reflexivity. Qed.

(** The decoder gives back the attributes of an encoded command. *)
Lemma actuatorData_roundtrip_helper (cc : ConfigConst) (d : ActuatorData.t) :
  canonical (ActuatorData.value d) ->
  encoded (ActuatorData.vars d) = dumps (PyDict (ActuatorData.vars d)) ->
  DataUtil.jsonToActuatorData cc (Some (encoded (ActuatorData.vars d))) false =
    Py.Ok (Some (ActuatorData.vars d)).
Proof.
  intros Hcanon Hplain.
  destruct (encoded_nonempty _ Hplain) as (c & s & Htext).
  unfold DataUtil.jsonToActuatorData. rewrite Htext. rewrite <- Htext.
  rewrite load_encoded; [reflexivity | | exact Hplain].
  unfold ActuatorData.vars.
  repeat (apply Forall_cons; split); try apply Forall_nil; cbn [snd];
    first [exact I | apply name_val_flat | exact Hcanon].
Qed.

(** X23. The codec round trip for actuator commands: when the value is a
    canonical float and the rewriting leaves the encoded text alone,
    decoding the text that [actuatorDataToJson] produced gives back the
    command, attribute by attribute. *)
Theorem actuatorData_roundtrip (cc : ConfigConst) (d : ActuatorData.t) :
  canonical (ActuatorData.value d) ->
  encoded (ActuatorData.vars d) = dumps (PyDict (ActuatorData.vars d)) ->
  exists (text : string) (attrs : list (string * pyval)),
    DataUtil.actuatorDataToJson DataUtil.new (Some d) false = Py.Ok text
    /\ DataUtil.jsonToActuatorData cc (Some text) false = Py.Ok (Some attrs)
    /\ attrs = ActuatorData.vars d
    /\ ActuatorData.of_vars attrs = Some d.
Proof.
  intros Hcanon Hplain.
  exists (encoded (ActuatorData.vars d)), (ActuatorData.vars d).
  split; [reflexivity |]. split; [| split; [reflexivity | apply of_vars_vars]].
  exact (actuatorData_roundtrip_helper cc d Hcanon Hplain).
Qed.

Lemma actuatorData_roundtrip_witness :
  exists (text : string) (attrs : list (string * pyval)),
    DataUtil.actuatorDataToJson DataUtil.new
      (Some (ActuatorData.mk (Some "HvacActuator"%string) 1001 sample_location 1
               (decimal 20 0) false 0)) false = Py.Ok text
    /\ DataUtil.jsonToActuatorData sample_cc (Some text) false = Py.Ok (Some attrs)
    /\ ActuatorData.of_vars attrs =
         Some (ActuatorData.mk (Some "HvacActuator"%string) 1001 sample_location 1
                 (decimal 20 0) false 0).
Proof.
  destruct (actuatorData_roundtrip sample_cc
              (ActuatorData.mk (Some "HvacActuator"%string) 1001 sample_location 1
                 (decimal 20 0) false 0)
              ltac:(vm_compute; reflexivity) ltac:(vm_compute; reflexivity))
    as (text & attrs & Henc & Hdec & _ & Hof).
  exists text, attrs. repeat split; assumption.
Defined.

(** X24. The codec round trip for performance readings: when the three
    utilisation values are canonical floats and the rewriting leaves the
    encoded text alone, decoding the text that
    [systemPerformanceDataToJson] produced gives back every attribute. *)
Theorem systemPerformanceData_roundtrip (cc : ConfigConst) (now : string)
    (d : SystemPerformanceData.t) :
  canonical (SystemPerformanceData.cpuUtilization d) ->
  canonical (SystemPerformanceData.memoryUtilization d) ->
  canonical (SystemPerformanceData.diskUtilization d) ->
  encoded (SystemPerformanceData.vars d) = dumps (PyDict (SystemPerformanceData.vars d)) ->
  exists text : string,
    DataUtil.systemPerformanceDataToJson DataUtil.new (Some d) false = Py.Ok text
    /\ DataUtil.jsonToSystemPerformanceData cc now (Some text) false =
         Py.Ok (Some (SystemPerformanceData.vars d)).
Proof.
  intros Hcpu Hmem Hdisk Hplain.
  exists (encoded (SystemPerformanceData.vars d)). split; [reflexivity |].
  destruct (encoded_nonempty _ Hplain) as (c & s & Htext).
  unfold DataUtil.jsonToSystemPerformanceData. rewrite Htext. rewrite <- Htext.
  rewrite load_encoded; [reflexivity | | exact Hplain].
  unfold SystemPerformanceData.vars.
  repeat (apply Forall_cons; split); try apply Forall_nil; cbn [snd];
    first [exact I | apply name_val_flat | assumption].
Qed.

Lemma systemPerformanceData_roundtrip_witness :
  exists text : string,
    DataUtil.systemPerformanceDataToJson DataUtil.new
      (Some (SystemPerformanceData.mk (Some "SystemPerfMsg"%string) (decimal 125 (-1))
               (decimal 403 (-1)) (decimal 71 0) sample_time)) false = Py.Ok text
    /\ DataUtil.jsonToSystemPerformanceData sample_cc sample_time (Some text) false =
         Py.Ok (Some (SystemPerformanceData.vars
                        (SystemPerformanceData.mk (Some "SystemPerfMsg"%string)
                           (decimal 125 (-1)) (decimal 403 (-1)) (decimal 71 0)
                           sample_time))).
Proof.
  apply (systemPerformanceData_roundtrip sample_cc sample_time
           (SystemPerformanceData.mk (Some "SystemPerfMsg"%string) (decimal 125 (-1))
              (decimal 403 (-1)) (decimal 71 0) sample_time)).
  all: vm_compute; reflexivity.
Defined.

(** X25. Inbound commands: the text that the codec writes for an actuator
    command (canonical value, text left alone by the rewriting), handed to
    [handleIncomingMessage], is decoded to that very command and passed to
    the actuator manager in one [sendActuatorCommand] call; [True] is
    returned and nothing else of the coordinator changes. *)
Theorem incoming_command_dispatched {C : Type} `{PahoClient C} (cc : ConfigConst)
    (self : DeviceDataManager.t C) (resourceEnum : ResourceNameEnum) (d : ActuatorData.t) :
  canonical (ActuatorData.value d) ->
  encoded (ActuatorData.vars d) = dumps (PyDict (ActuatorData.vars d)) ->
  DataUtil.actuatorDataToJson DataUtil.new (Some d) false =
    Py.Ok (encoded (ActuatorData.vars d))
  /\ DeviceDataManager.handleIncomingMessage cc self resourceEnum
       (Some (encoded (ActuatorData.vars d))) =
     Py.Ok (DeviceDataManager.with_actuatorAdapterMgr self
              (fst (ActuatorAdapterManager.sendActuatorCommand cc
                      (DeviceDataManager.actuatorAdapterMgr self) (Some d))),
            true).
Proof.
  intros Hcanon Hplain. split; [reflexivity |].
  pose proof (actuatorData_roundtrip_helper cc d Hcanon Hplain) as Hdec.
  destruct (encoded_nonempty _ Hplain) as (c & s & Htext).
  unfold DeviceDataManager.handleIncomingMessage. rewrite Htext. rewrite <- Htext.
  unfold DeviceDataManager._handleIncomingDataAnalysis.
  rewrite Hdec. cbn [Py.bind]. rewrite of_vars_vars. cbn [Py.try_except Py.bind].
  unfold DeviceDataManager.handleActuatorCommandMessage.
  destruct (ActuatorAdapterManager.sendActuatorCommand cc _ _) as [m r]. reflexivity.
Qed.

(** The command of the sample HVAC actuator, arriving on the command
    topic. *)
Lemma incoming_command_dispatched_witness :
  DeviceDataManager.handleIncomingMessage sample_cc sample_coordinator
    CDA_ACTUATOR_CMD_RESOURCE
    (Some (encoded (ActuatorData.vars
                      (ActuatorData.mk (Some "HvacActuator"%string) 1001 sample_location 1
                         (decimal 20 0) false 0)))) =
  Py.Ok (DeviceDataManager.with_actuatorAdapterMgr sample_coordinator
           (fst (ActuatorAdapterManager.sendActuatorCommand sample_cc sample_actuators
                   (Some (ActuatorData.mk (Some "HvacActuator"%string) 1001 sample_location
                            1 (decimal 20 0) false 0)))),
         true).
Proof.
  apply (proj2 (incoming_command_dispatched sample_cc sample_coordinator
                  CDA_ACTUATOR_CMD_RESOURCE
                  (ActuatorData.mk (Some "HvacActuator"%string) 1001 sample_location 1
                     (decimal 20 0) false 0)
                  ltac:(vm_compute; reflexivity) ltac:(vm_compute; reflexivity))).
Defined.

(** ** The codec: filling an object from a dict *)

Module Dicts.

Lemma dict_get_set (k k' : string) (v : pyval) (d : list (string * pyval)) :
  dict_get k (dict_set k' v d) = if String.eqb k k' then Some v else dict_get k d.
Proof.
  induction d as [| [k0 v0] d IH]; cbn [dict_set dict_get].
  - destruct (String.eqb k k'); reflexivity.
  - destruct (String.eqb k' k0) eqn:E0; cbn [dict_get].
    + apply String.eqb_eq in E0. subst k0. destruct (String.eqb k k'); reflexivity.
    + rewrite IH. destruct (String.eqb k k0) eqn:E1; [| reflexivity].
      apply String.eqb_eq in E1. subst k0.
      destruct (String.eqb k k') eqn:E2; [| reflexivity].
      apply String.eqb_eq in E2. subst k'. rewrite String.eqb_refl in E0. discriminate.
Qed.

Lemma keys_set (k : string) (v : pyval) (d : list (string * pyval)) :
  dict_has k d = true -> map fst (dict_set k v d) = map fst d.
Proof.
  unfold dict_has. induction d as [| [k0 v0] d IH]; cbn [dict_set dict_get map fst].
  - discriminate.
  - destruct (String.eqb k k0) eqn:E0; cbn [map fst].
    + apply String.eqb_eq in E0. subst k0. reflexivity.
    + intros Hhas. rewrite (IH Hhas). reflexivity.
Qed.

Lemma dict_get_app (k : string) (a b : list (string * pyval)) :
  dict_get k (a ++ b) =
  match dict_get k a with
  | Some v => Some v
  | None => dict_get k b
  end.
Proof.
  induction a as [| [k0 v0] a IH]; [reflexivity |].
  cbn [app dict_get]. destruct (String.eqb k k0); [reflexivity | exact IH].
Qed.

End Dicts.

(** X26. [_updateIotData] with a dict never adds or removes an attribute
    of the object and keeps their order: a key of the dict that names an
    attribute overwrites its value (the last occurrence wins), every other
    key is ignored, and an attribute that the dict does not mention keeps
    its value. *)
Theorem updateIotData_dict (d obj : list (string * pyval)) :
  exists obj',
    DataUtil._updateIotData (PyDict d) obj = Py.Ok obj'
    /\ map fst obj' = map fst obj
    /\ forall k : string,
         dict_get k obj' =
         if dict_has k obj
         then match dict_get k (rev d) with
              | Some v => Some v
              | None => dict_get k obj
              end
         else None.
Proof.
  exists (DataUtil.update_from_dict d obj). split; [reflexivity |].
  revert obj. induction d as [| [key v] d IH]; intros obj.
  - split; [reflexivity |]. intros k. cbn [DataUtil.update_from_dict rev dict_get].
    unfold dict_has. destruct (dict_get k obj); reflexivity.
  - cbn [DataUtil.update_from_dict].
    set (obj1 := if dict_has key obj then dict_set key v obj else obj).
    destruct (IH obj1) as [Hkeys Hget].
    assert (Hkeys1 : map fst obj1 = map fst obj).
    { unfold obj1. destruct (dict_has key obj) eqn:Ehas; [| reflexivity].
      apply Dicts.keys_set. exact Ehas. }
    assert (Hget1 : forall k,
               dict_get k obj1 =
               if String.eqb k key && dict_has key obj then Some v else dict_get k obj).
    { intros k. unfold obj1. destruct (dict_has key obj) eqn:Ehas.
      - rewrite Dicts.dict_get_set, andb_true_r. reflexivity.
      - rewrite andb_false_r. reflexivity. }
    split; [rewrite Hkeys; exact Hkeys1 |].
    intros k. rewrite Hget. cbn [rev]. rewrite Dicts.dict_get_app. cbn [dict_get].
    assert (Hhas1 : dict_has k obj1 = dict_has k obj).
    { unfold dict_has. rewrite Hget1.
      destruct (String.eqb k key) eqn:Ek; [| reflexivity].
      apply String.eqb_eq in Ek. subst k. cbn [andb]. unfold dict_has.
      destruct (dict_get key obj); reflexivity. }
    rewrite Hhas1, Hget1.
    destruct (dict_has k obj) eqn:Ehas; [| reflexivity].
    destruct (dict_get k (rev d)); [reflexivity |].
    destruct (String.eqb k key) eqn:Ek; [| reflexivity].
    apply String.eqb_eq in Ek. subst k. rewrite Ehas. reflexivity.
Qed.

Section OtherJson.

Variable cc : ConfigConst.

(** No attribute of a record has a name of one character, so the loop over
    the characters of a string finds nothing to set. *)
Lemma update_from_str_long_names (s : string) (obj : list (string * pyval)) :
  Forall (fun kv => String.length (fst kv) <> 1%nat) obj ->
  DataUtil.update_from_str s obj = Py.Ok obj.
Proof.
  intros Hlong.
  assert (Hhas : forall c : ascii, dict_has (String c EmptyString) obj = false).
  { intros c. unfold dict_has. induction Hlong as [| [k0 v0] obj Hk _ IH]; [reflexivity |].
    cbn [dict_get]. destruct (String.eqb (String c EmptyString) k0) eqn:E; [| exact IH].
    apply String.eqb_eq in E. subst k0. cbn [fst String.length] in Hk. contradiction. }
  induction s as [| c s IH]; [reflexivity |].
  cbn [DataUtil.update_from_str]. rewrite Hhas. exact IH.
Qed.

End OtherJson.

(** X27. JSON text that is well formed but is not an object: a string
    literal is accepted by the three decoders, which return an object with
    all its default values; [null], [true], [false] and numbers make them
    raise [TypeError] (not [JSONDecodeError]). *)
Theorem decode_non_object (cc : ConfigConst) (now jsonData : string) (v : pyval) :
  jsonData <> EmptyString ->
  DataUtil._formatDataAndLoadDictionary jsonData false = Py.Ok v ->
  match v with
  | PyStr _ =>
      DataUtil.jsonToActuatorData cc (Some jsonData) false =
        Py.Ok (Some (ActuatorData.vars (ActuatorData.new cc (DEFAULT_TYPE_ID cc))))
      /\ DataUtil.jsonToSensorData cc now (Some jsonData) false =
           Py.Ok (Some (SensorData.vars (SensorData.new cc now)))
      /\ DataUtil.jsonToSystemPerformanceData cc now (Some jsonData) false =
           Py.Ok (Some (SystemPerformanceData.vars (SystemPerformanceData.new cc now)))
  | PyNone | PyBool _ | PyInt _ | PyFloat _ =>
      DataUtil.jsonToActuatorData cc (Some jsonData) false = Py.Raise Py.TypeError
      /\ DataUtil.jsonToSensorData cc now (Some jsonData) false = Py.Raise Py.TypeError
      /\ DataUtil.jsonToSystemPerformanceData cc now (Some jsonData) false =
           Py.Raise Py.TypeError
  | PyList _ | PyDict _ => True
  end.
Proof.
  intros Hne Hload. destruct jsonData as [| c0 s0]; [contradiction |].
  unfold DataUtil.jsonToActuatorData, DataUtil.jsonToSensorData,
    DataUtil.jsonToSystemPerformanceData.
  rewrite Hload. cbn [Py.bind].
  destruct v as [| b | z | x | s | l | d]; try exact I;
    cbn [DataUtil._updateIotData Py.bind];
    try (repeat split; reflexivity).
  rewrite !update_from_str_long_names.
  - cbn [Py.bind]. split; [reflexivity | split; reflexivity].
  - unfold SystemPerformanceData.vars.
    repeat (apply Forall_cons; split; [cbn [fst String.length]; lia |]).
    constructor.
  - unfold SensorData.vars.
    repeat (apply Forall_cons; split; [cbn [fst String.length]; lia |]).
    constructor.
  - unfold ActuatorData.vars.
    repeat (apply Forall_cons; split; [cbn [fst String.length]; lia |]).
    constructor.
Qed.

(** The text [5]. *)
Lemma decode_non_object_witness :
  DataUtil.jsonToActuatorData sample_cc (Some "5"%string) false = Py.Raise Py.TypeError.
Proof.
  apply (proj1 (decode_non_object sample_cc sample_time "5" (PyInt 5)
                  ltac:(discriminate) ltac:(vm_compute; reflexivity))).
Defined.
